(** * Analytics event pipeline of the provider-directory backend

    A shallow embedding of the Python sources of the analytics pipeline
    (intent scoring, the Redis-stream worker, identity stitching, the event
    logger and the read-through search cache), followed by the properties
    that the specification states about them.

    Conventions of the embedding.
    - Python values that flow through dictionaries are values of [pyval];
      a dictionary received by a function is a [gmap string pyval], a
      dictionary nested inside a value is an association list.
    - A Python [float] score is an exact rational ([Q]); every constant of
      the scorers is a short decimal, so sums are exact.
    - A Python [str] is the [string] of its UTF-8 bytes.  The built-ins
      whose result depends on the characters behind the bytes ([str],
      [int], [strip] with [len]) are parameters of the code that calls
      them.
    - A function that can raise returns a [result]; the exception classes
      that occur are the constructors of [exn].
    - The relational store and the Redis server are explicit states; the
      points at which a driver call can raise are given by a [faults]
      record, one boolean per call that makes a round trip. *)

From Stdlib Require Import ZArith QArith Qminmax Lia Lqa Ascii.
From stdpp Require Import gmap strings list.

Set Warnings "-register-all".
Open Scope Z_scope.

(* ================================================================== *)
(** * Python values, exceptions and built-ins                          *)
(* ================================================================== *)

Module Py.

(** Exception classes that the modelled code raises or catches.  All of
    them derive from [Exception], so [except Exception] catches each. *)
Inductive exn :=
| TypeError
| AttributeError
| ValueError
| DatabaseError          (* psycopg2.Error and its subclasses *)
| RedisError             (* redis.exceptions.RedisError and subclasses *)
| HTTPException (status_code : Z).

Inductive result (A : Type) :=
| Ok (a : A)
| Raise (e : exn).
Arguments Ok {A} a.
Arguments Raise {A} e.

Definition bind {A B} (m : result A) (k : A -> result B) : result B :=
  match m with
  | Ok a => k a
  | Raise e => Raise e
  end.

Definition is_ok {A} (m : result A) : bool :=
  match m with Ok _ => true | Raise _ => false end.

(** Sequencing of calls that may raise: the first exception ends the
    sequence. *)
Notation "x <- m ;; k" := (bind m (fun x => k))
  (at level 100, m at next level, right associativity).

(** schemas/provider.py, class Provider (a pydantic model). *)
Record Provider := {
  prov_id : Z;
  prov_name : string;
  prov_phone : option string;
  prov_email : option string;
  prov_website : option string;
  prov_street : option string;
  prov_city : option string;
  prov_state : option string;
  prov_zip : option string;
  prov_full_address : option string;
  prov_latitude : option Q;
  prov_longitude : option Q;
  prov_services : option string;
  prov_distance_miles : option Q;
}.

(** The Python values the pipeline handles.  [PDecimal] is a
    [decimal.Decimal], kept as the digits that [str] prints;
    [PProvider] is an instance of the pydantic model. *)
Inductive pyval :=
| PNone
| PBool (b : bool)
| PInt (z : Z)
| PFloat (q : Q)
| PStr (s : string)
| PDecimal (digits : string)
| PList (l : list pyval)
| PDict (d : list (string * pyval))
| PProvider (p : Provider).

(** [bool(v)]: the truth value Python gives to a value in a condition. *)
Definition truthy (v : pyval) : bool :=
  match v with
  | PNone => false
  | PBool b => b
  | PInt z => negb (z =? 0)
  | PFloat q => negb (Qeq_bool q 0)
  | PStr s => negb (String.eqb s "")
  | PDecimal _ => true
  | PList l => match l with [] => false | _ => true end
  | PDict d => match d with [] => false | _ => true end
  | PProvider _ => true
  end.

(** The numeric reading of a value in an ordering comparison with a
    number: [bool] is a subclass of [int]; every other class raises
    [TypeError] when compared with [<] or [<=] against an [int]. *)
Definition as_number (v : pyval) : result Q :=
  match v with
  | PBool b => Ok (if b then 1 else 0)%Q
  | PInt z => Ok (inject_Z z)
  | PFloat q => Ok q
  | _ => Raise TypeError
  end.

(** [v < n] and [v <= n] for a numeric literal [n]. *)
Definition lt_num (v : pyval) (n : Q) : result bool :=
  x <- as_number v ;; Ok (negb (Qle_bool n x)).

Definition le_num (v : pyval) (n : Q) : result bool :=
  x <- as_number v ;; Ok (Qle_bool x n).

(** [d.get(key, default)]. *)
Definition dict_get (d : gmap string pyval) (key : string) (default : pyval)
  : pyval :=
  match d !! key with
  | Some v => v
  | None => default
  end.

(** [bool(d)] for a dictionary: false exactly for the empty one. *)
Definition dict_truthy (d : gmap string pyval) : bool :=
  negb (Nat.eqb (size d) 0).

(** The number of characters of a string: the bytes that do not continue
    a character ([10xxxxxx] in UTF-8). *)
Fixpoint code_points (s : string) : nat :=
  match s with
  | EmptyString => 0
  | String c s' =>
      let n := nat_of_ascii c in
      if (Nat.leb 128 n && Nat.ltb n 192)%bool then code_points s'
      else S (code_points s')
  end.

(** [len(v)]. *)
Definition len (v : pyval) : result Z :=
  match v with
  | PStr s => Ok (Z.of_nat (code_points s))
  | PList l => Ok (Z.of_nat (length l))
  | PDict d => Ok (Z.of_nat (length d))
  | _ => Raise TypeError
  end.

(** ** Strings *)

Definition lower_ascii (c : ascii) : ascii :=
  let n := nat_of_ascii c in
  if (Nat.leb 65 n && Nat.leb n 90)%bool then ascii_of_nat (n + 32) else c.

(** [s.lower()], as far as the code reads its result: the ASCII letters
    are lowered and every other byte is kept.  The code only looks for
    ASCII words in a lowered string, and finds them in these bytes
    exactly where Python finds them in the lowered string. *)
Fixpoint lower (s : string) : string :=
  match s with
  | EmptyString => EmptyString
  | String c s' => String (lower_ascii c) (lower s')
  end.

Fixpoint starts_with (p s : string) : bool :=
  match p, s with
  | EmptyString, _ => true
  | String a p', String b s' => (Ascii.eqb a b && starts_with p' s')%bool
  | String _ _, EmptyString => false
  end.

(** [w in s] for strings: substring test. *)
Fixpoint contains (w s : string) : bool :=
  (starts_with w s ||
   match s with
   | EmptyString => false
   | String _ s' => contains w s'
   end)%bool.

(** [any(word in s for word in words)]. *)
Definition any_in (words : list string) (s : string) : bool :=
  existsb (fun w => contains w s) words.

(** ** [int(v)]

    The built-in [int] on a string is a parameter, [py_int], of the code
    that calls it: which characters count as digits, signs and white
    space is Python's matter, and no statement below depends on it.
    [int(None)] raises [TypeError]. *)
Definition int_of_optional (py_int : string -> result Z) (v : option string)
  : result Z :=
  match v with
  | Some s => py_int s
  | None => Raise TypeError
  end.

End Py.

Export Py.

(* ================================================================== *)
(** * Intent scoring                                                   *)
(* ================================================================== *)

(** analytics/intent_model.py: the scorer imported by the request
    handlers. *)
Module IntentModel.

Definition base_scores : list (string * Q) :=
  [ ("provider_list", 0.2);
    ("search", 0.4);
    ("fuzzy_search", 0.5);
    ("nearby_search", 0.6);
    ("provider_view", 0.7);
    ("phone_click", 0.95);
    ("website_click", 0.9) ]%Q.

(** [table.get(key, default)] on a dictionary literal. *)
Fixpoint table_get (table : list (string * Q)) (key : string) (default : Q) : Q :=
  match table with
  | [] => default
  | (k, v) :: rest => if String.eqb k key then v else table_get rest key default
  end.

(** [cond and test]: the test is evaluated only when [cond] holds. *)
Definition and_then (cond : bool) (test : result bool) : result bool :=
  if cond then test else Ok false.

Definition score_intent (event_type : string) (metadata : gmap string pyval)
  : result Q :=
  let score := table_get base_scores event_type 0.3 in
  score <-
    (if dict_truthy metadata then
       few_results <-
         and_then (String.eqb event_type "search")
           (lt_num (dict_get metadata "result_count" (PInt 0)) 10) ;;
       let score := if few_results then (score + 0.1)%Q else score in
       fast <- lt_num (dict_get metadata "response_ms" (PInt 0)) 100 ;;
       let score := if fast then (score + 0.05)%Q else score in
       small_radius <-
         and_then (String.eqb event_type "nearby_search")
           (le_num (dict_get metadata "radius" (PInt 25)) 10) ;;
       let score := if small_radius then (score + 0.1)%Q else score in
       Ok score
     else Ok score) ;;
  Ok (Qmin score 1.0).

End IntentModel.

(** _ARCHIVE_DO_NOT_TOUCH/.../backend_duplicate/app/analytics/intent.py:
    the archived scorer, which reads the free-text query. *)
Module ArchiveIntent.

Definition base_scores : list (string * Q) :=
  [ ("search", 0.3);
    ("fuzzy_search", 0.4);
    ("nearby_search", 0.6);
    ("provider_view", 0.7);
    ("provider_list", 0.2);
    ("phone_click", 0.95);
    ("website_click", 0.85);
    ("directions_click", 0.9);
    ("email_click", 0.8);
    ("favorite_save", 0.75) ]%Q.

(** [metadata.get("query", "").lower()]: only a [str] has [lower]. *)
Definition query_lower (metadata : gmap string pyval) : result string :=
  match dict_get metadata "query" (PStr "") with
  | PStr s => Ok (lower s)
  | _ => Raise AttributeError
  end.

Definition score_intent (event_type : string) (metadata : gmap string pyval)
  : result Q :=
  let score := IntentModel.table_get base_scores event_type 0.1 in
  query <- query_lower metadata ;;
  let score :=
    if any_in ["asap"; "urgent"; "emergency"; "immediate"; "now"] query
    then (score + 0.2)%Q else score in
  let score :=
    if any_in ["best"; "top"; "rated"; "reviews"] query
    then (score + 0.1)%Q else score in
  let score :=
    if any_in ["aba"; "bcba"; "board certified"] query
    then (score + 0.15)%Q else score in
  let score :=
    if any_in ["cheap"; "affordable"; "free"] query
    then (score - 0.1)%Q else score in
  let score :=
    if truthy (dict_get metadata "repeat_view" PNone)
    then (score + 0.15)%Q else score in
  fast <- lt_num (dict_get metadata "response_ms" (PInt 99999)) 5000 ;;
  let score := if fast then (score + 0.05)%Q else score in
  Ok (Qmax 0.0 (Qmin 1.0 score)).

End ArchiveIntent.

(* ================================================================== *)
(** * The relational store                                             *)
(* ================================================================== *)

Module Db.

(** A row of [user_activity], with the columns that the worker writes
    and the stitcher updates.  The worker binds the strings of the
    Redis entry to the columns as they are; a missing key is [NULL]. *)
Record activity_row := {
  ua_event_type : option string;
  ua_provider_id : option string;
  ua_session_id : option string;
  ua_device_id : option string;
  ua_ip_hash : option string;
  ua_source : option string;
  ua_metadata : gmap string string;
  ua_timestamp : Z;
  ua_user_id : option Z;
}.

(** A row of [provider_stats]; the key [provider_id] is the key of the
    table. *)
Record stats_row := {
  views : Z;
  searches : Z;
  conversions : Z;
  last_event_at : Z;
}.

(** A row of [analytics_events_v2], written by [log_event]. *)
Record event_row := {
  ev_event_name : string;
  ev_provider_id : pyval;
  ev_specialty_id : pyval;
  ev_query_text : pyval;
  ev_city : pyval;
  ev_state : pyval;
  ev_radius_miles : pyval;
  ev_source : string;
  ev_metadata : gmap string pyval;
}.

(** The committed contents of the three tables. *)
Record store := {
  user_activity : list activity_row;
  provider_stats : gmap Z stats_row;
  analytics_events_v2 : list event_row;
}.

Definition empty_store : store :=
  {| user_activity := []; provider_stats := ∅; analytics_events_v2 := [] |}.

(** The object a name bound to "the connection" holds at run time:
    a DB-API connection, as [engine.raw_connection()] returns it, or the
    context manager that a call of a [@contextmanager] function returns
    before any [with] enters it. *)
Inductive db_object :=
| Connection
| GeneratorContextManager.

(** The driver calls that make a round trip and may raise.  Reading
    [cur.rowcount] and closing a cursor or a connection make none and are
    taken to return. *)
Record faults := {
  connect_fails : bool;   (* engine.raw_connection() *)
  cursor_fails : bool;    (* conn.cursor() *)
  execute_fails : bool;   (* cur.execute(...) *)
  commit_fails : bool;    (* conn.commit() *)
}.

Definition no_faults : faults :=
  {| connect_fails := false; cursor_fails := false;
     execute_fails := false; commit_fails := false |}.

(** db/connection.py, [get_db]: the function is decorated with
    [@contextmanager], so the call [get_db()] builds the context manager
    and runs none of the body; the connection exists only inside
    [with get_db() as conn]. *)
Definition get_db : db_object := GeneratorContextManager.

(** [with get_db() as conn]: entering the context manager runs the body
    up to the [yield], that is [engine.raw_connection()]. *)
Definition enter_get_db (f : faults) : result db_object :=
  if connect_fails f then Raise DatabaseError else Ok Connection.

(** [conn.cursor()]: the context manager has no such attribute. *)
Definition cursor (conn : db_object) (f : faults) : result unit :=
  match conn with
  | GeneratorContextManager => Raise AttributeError
  | Connection => if cursor_fails f then Raise DatabaseError else Ok tt
  end.

(** The sequence [cur = conn.cursor(); cur.execute(sql); conn.commit()]
    that the worker and the stitcher share.  [sql] is the statement as a
    function on the tables, giving the new tables and [cur.rowcount].
    The statement takes effect in the store only when the commit
    returns; a call that raises leaves the committed tables as they
    were. *)
Definition execute_and_commit (conn : db_object) (f : faults)
    (sql : store -> store * Z) (db : store) : store * result Z :=
  match cursor conn f with
  | Raise e => (db, Raise e)
  | Ok _ =>
      if execute_fails f then (db, Raise DatabaseError)
      else
        let '(db', rowcount) := sql db in
        if commit_fails f then (db, Raise DatabaseError)
        else (db', Ok rowcount)
  end.

(** ** The SQL statements *)

(** [INSERT INTO user_activity (...) VALUES (...)]. *)
Definition insert_user_activity (row : activity_row) (db : store) : store * Z :=
  ({| user_activity := user_activity db ++ [row];
      provider_stats := provider_stats db;
      analytics_events_v2 := analytics_events_v2 db |}, 1).

(** [INSERT INTO provider_stats (provider_id, views, searches,
    conversions, last_event_at) VALUES (%s, %s, 0, %s, NOW())
    ON CONFLICT (provider_id) DO UPDATE SET
      views = provider_stats.views + EXCLUDED.views,
      conversions = provider_stats.conversions + EXCLUDED.conversions,
      last_event_at = NOW()]. *)
Definition upsert_provider_stats (provider_id views_inc conversions_inc now : Z)
    (db : store) : store * Z :=
  let row :=
    match provider_stats db !! provider_id with
    | None =>
        {| views := views_inc; searches := 0;
           conversions := conversions_inc; last_event_at := now |}
    | Some old =>
        {| views := views old + views_inc; searches := searches old;
           conversions := conversions old + conversions_inc;
           last_event_at := now |}
    end in
  ({| user_activity := user_activity db;
      provider_stats := <[provider_id := row]> (provider_stats db);
      analytics_events_v2 := analytics_events_v2 db |}, 1).

(** The [WHERE] clause [session_id = %s AND user_id IS NULL]. *)
Definition is_anonymous_of (session : string) (row : activity_row) : bool :=
  match ua_session_id row, ua_user_id row with
  | Some s, None => String.eqb s session
  | _, _ => false
  end.

Definition set_user_id (user : Z) (row : activity_row) : activity_row :=
  {| ua_event_type := ua_event_type row;
     ua_provider_id := ua_provider_id row;
     ua_session_id := ua_session_id row;
     ua_device_id := ua_device_id row;
     ua_ip_hash := ua_ip_hash row;
     ua_source := ua_source row;
     ua_metadata := ua_metadata row;
     ua_timestamp := ua_timestamp row;
     ua_user_id := Some user |}.

(** [UPDATE user_activity SET user_id = %s
     WHERE session_id = %s AND user_id IS NULL]. *)
Definition update_user_id (user : Z) (session : string) (db : store)
  : store * Z :=
  ({| user_activity :=
        map (fun row => if is_anonymous_of session row
                        then set_user_id user row else row)
            (user_activity db);
      provider_stats := provider_stats db;
      analytics_events_v2 := analytics_events_v2 db |},
   Z.of_nat (length (filter (fun row => is_anonymous_of session row = true)
                            (user_activity db)))).

(** [INSERT INTO analytics_events_v2 (...) VALUES (...)]. *)
Definition insert_event (row : event_row) (db : store) : store * Z :=
  ({| user_activity := user_activity db;
      provider_stats := provider_stats db;
      analytics_events_v2 := analytics_events_v2 db ++ [row] |}, 1).

End Db.

Export Db.

(* ================================================================== *)
(** * Identity stitching                                               *)
(* ================================================================== *)

(** analytics/identity_stitching.py *)
Module IdentityStitching.

(** [merge_anonymous_history_into_user(anonymous_session_id, user_id,
    conn=None)].  A missing [conn] falls back to the call [get_db()],
    made before the [try]; everything after it is inside the [try],
    whose handler prints and returns 0. *)
Definition merge_anonymous_history_into_user
    (anonymous_session_id : string) (user_id : Z) (conn : option db_object)
    (f : faults) (db : store) : store * result Z :=
  let conn := match conn with Some c => c | None => get_db end in
  match execute_and_commit conn f
          (update_user_id user_id anonymous_session_id) db with
  | (db', Ok merged_count) => (db', Ok merged_count)
  | (db', Raise _) => (db', Ok 0)
  end.

End IdentityStitching.

(* ================================================================== *)
(** * The pipeline worker                                              *)
(* ================================================================== *)

(** app/workers/analytics_worker.py *)
Module AnalyticsWorker.

Definition STREAM : string := "analytics_stream".
Definition GROUP : string := "analytics_group".
Definition CONSUMER : string := "analytics_worker_1".

(** An entry of the stream as the client decodes it
    ([decode_responses=True]): every key and value is a [str]. *)
Abbreviation event := (gmap string string).

(** [event.get("event") or event.get("event_type")]: the first value
    unless it is missing or empty. *)
Definition event_kind (ev : event) : option string :=
  match ev !! "event" with
  | Some s => if String.eqb s "" then ev !! "event_type" else Some s
  | None => ev !! "event_type"
  end.

(** The worker's view of the world: the store, and for the consumer
    group the entries delivered and not yet acknowledged. *)
Record world := {
  db : store;
  pending : gset string;
}.

(** Where the processing of one entry can raise. *)
Record entry_faults := {
  persist_faults : faults;
  stats_faults : faults;
  xack_fails : bool;
}.

Definition healthy : entry_faults :=
  {| persist_faults := no_faults; stats_faults := no_faults;
     xack_fails := false |}.

(** What happened to one entry: the outcome of each of the three calls
    of the [try] body; [None] for a call that was not reached. *)
Record report := {
  persisted : result unit;
  updated : option (result unit);
  acked : option (result unit);
}.

Section Worker.

(** The object that the call [get_db()] returns in this module.  The
    import [from db.connection import get_db] binds it to [Db.get_db];
    the functions are written against a connection, and are stated here
    for either object. *)
Variable get_db : db_object.

(** The built-in [int] on the strings of an entry. *)
Variable py_int : string -> result Z.

Definition persist_user_activity (ev : event) (f : faults) (now : Z)
    (d : store) : store * result unit :=
  let row :=
    {| ua_event_type := event_kind ev;
       ua_provider_id := ev !! "provider_id";
       ua_session_id := ev !! "session_id";
       ua_device_id := ev !! "device_id";
       ua_ip_hash := ev !! "ip_hash";
       ua_source := ev !! "source";
       ua_metadata := ev;
       ua_timestamp := now;
       ua_user_id := None |} in
  match execute_and_commit get_db f (insert_user_activity row) d with
  | (d', Ok _) => (d', Ok tt)
  | (d', Raise e) => (d', Raise e)
  end.

(** [provider_id_raw in (None, "", "null")]. *)
Definition provider_id_blank (raw : option string) : bool :=
  match raw with
  | None => true
  | Some s => (String.eqb s "" || String.eqb s "null")%bool
  end.

Definition update_provider_stats (ev : event) (f : faults) (now : Z)
    (d : store) : store * result unit :=
  let event_type := default "" (event_kind ev) in
  let provider_id_raw := ev !! "provider_id" in
  if provider_id_blank provider_id_raw then (d, Ok tt)
  else
    match int_of_optional py_int provider_id_raw with
    | Raise _ => (d, Ok tt)
    | Ok provider_id =>
        let views_inc :=
          if String.eqb event_type "provider_view" then 1 else 0 in
        let phone_inc :=
          if (String.eqb event_type "provider_phone_click"
              || String.eqb event_type "phone_click")%bool then 1 else 0 in
        let website_inc :=
          if (String.eqb event_type "provider_website_click"
              || String.eqb event_type "website_click")%bool then 1 else 0 in
        if ((views_inc =? 0) && (phone_inc =? 0) && (website_inc =? 0))%bool
        then (d, Ok tt)
        else
          let conversions_inc := phone_inc + website_inc in
          match execute_and_commit get_db f
                  (upsert_provider_stats provider_id views_inc
                     conversions_inc now) d with
          | (d', Ok _) => (d', Ok tt)
          | (d', Raise e) => (d', Raise e)
          end
    end.

(** [redis_client.xack(STREAM, GROUP, message_id)]. *)
Definition xack (message_id : string) (fails : bool) (p : gset string)
  : gset string * result unit :=
  if fails then (p, Raise RedisError) else (p ∖ {[message_id]}, Ok tt).

(** The body of the inner loop of [run] for one entry:
    [try: persist; update; xack  except Exception: print]. *)
Definition process_entry (message_id : string) (ev : event)
    (f : entry_faults) (now : Z) (w : world) : world * report :=
  match persist_user_activity ev (persist_faults f) now (db w) with
  | (d1, Raise e) =>
      ({| db := d1; pending := pending w |},
       {| persisted := Raise e; updated := None; acked := None |})
  | (d1, Ok _) =>
      match update_provider_stats ev (stats_faults f) now d1 with
      | (d2, Raise e) =>
          ({| db := d2; pending := pending w |},
           {| persisted := Ok tt; updated := Some (Raise e);
              acked := None |})
      | (d2, Ok _) =>
          let '(p, r) := xack message_id (xack_fails f) (pending w) in
          ({| db := d2; pending := p |},
           {| persisted := Ok tt; updated := Some (Ok tt);
              acked := Some r |})
      end
  end.

(** One turn of the [while True] loop of [run]: [xreadgroup] hands
    over new entries, which enter the pending list of the group, and
    the inner loops process them in order. *)
Fixpoint process_entries
    (entries : list (string * event * entry_faults)) (now : Z) (w : world)
  : world * list report :=
  match entries with
  | [] => (w, [])
  | (message_id, ev, f) :: rest =>
      let '(w1, r) := process_entry message_id ev f now w in
      let '(w2, rs) := process_entries rest now w1 in
      (w2, r :: rs)
  end.

Definition run_turn (entries : list (string * event * entry_faults))
    (now : Z) (w : world) : world * list report :=
  let delivered :=
    {| db := db w;
       pending := pending w ∪ list_to_set (map (fun e => e.1.1) entries) |} in
  process_entries entries now delivered.

End Worker.

End AnalyticsWorker.

(* ================================================================== *)
(** * JSON and the Redis server                                        *)
(* ================================================================== *)

Module Json.

(** A JSON document.  What Redis keeps under a key is the text of a
    document; [json.loads] of the text that [json.dumps] printed gives
    the document back, so the model keeps the document itself. *)
Inductive json :=
| JNull
| JBool (b : bool)
| JInt (z : Z)
| JFloat (q : Q)
| JStr (s : string)
| JArr (l : list json)
| JObj (d : list (string * json)).

(** Whether [json.dumps(v)], without a [default], accepts the value. *)
Fixpoint json_serialisable (v : pyval) : bool :=
  match v with
  | PNone | PBool _ | PInt _ | PFloat _ | PStr _ => true
  | PDecimal _ | PProvider _ => false
  | PList l => forallb json_serialisable l
  | PDict d => forallb (fun kv => json_serialisable kv.2) d
  end.

Section Str.

(** The built-in [str]. *)
Variable py_str : pyval -> string.

(** [json.dumps(v, default=str)]: an object that JSON has no form for
    is replaced by its [str]. *)
Fixpoint json_dumps_default_str (v : pyval) : json :=
  match v with
  | PNone => JNull
  | PBool b => JBool b
  | PInt z => JInt z
  | PFloat q => JFloat q
  | PStr s => JStr s
  | PDecimal d => JStr (py_str (PDecimal d))
  | PProvider p => JStr (py_str (PProvider p))
  | PList l => JArr (map json_dumps_default_str l)
  | PDict d => JObj (map (fun kv => (kv.1, json_dumps_default_str kv.2)) d)
  end.

End Str.

(** [json.loads]. *)
Fixpoint json_loads (j : json) : pyval :=
  match j with
  | JNull => PNone
  | JBool b => PBool b
  | JInt z => PInt z
  | JFloat q => PFloat q
  | JStr s => PStr s
  | JArr l => PList (map json_loads l)
  | JObj d => PDict (map (fun kv => (kv.1, json_loads kv.2)) d)
  end.

End Json.

Export Json.

Module Redis.

(** The keys with their documents and expiry times, and the entries
    appended to streams, oldest first. *)
Record redis := {
  kv : gmap string (json * Z);
  stream : list (string * gmap string pyval);
}.

Definition empty_redis : redis := {| kv := ∅; stream := [] |}.

(** The client calls that may raise. *)
Record redis_faults := {
  get_fails : bool;
  setex_fails : bool;
  xadd_fails : bool;
}.

Definition redis_healthy : redis_faults :=
  {| get_fails := false; setex_fails := false; xadd_fails := false |}.

Definition redis_unavailable : redis_faults :=
  {| get_fails := true; setex_fails := true; xadd_fails := true |}.

(** [redis_client.get(key)]: [None] for a key that is absent or whose
    time to live has run out. *)
Definition get (key : string) (rf : redis_faults) (now : Z) (r : redis)
  : result (option json) :=
  if get_fails rf then Raise RedisError
  else Ok (match kv r !! key with
           | Some (doc, expires) => if now <? expires then Some doc else None
           | None => None
           end).

(** [redis_client.setex(key, ttl, value)]. *)
Definition setex (key : string) (ttl : Z) (doc : json) (rf : redis_faults)
    (now : Z) (r : redis) : redis * result unit :=
  if setex_fails rf then (r, Raise RedisError)
  else ({| kv := <[key := (doc, now + ttl)]> (kv r); stream := stream r |},
        Ok tt).

(** The values that the client encodes for the server: [str], [int]
    and [float].  For a [bool], [None], a list, a dictionary or any other
    object it raises [DataError], which is a [RedisError], and sends
    nothing. *)
Definition redis_encodable (v : pyval) : bool :=
  match v with
  | PStr _ | PInt _ | PFloat _ => true
  | _ => false
  end.

Definition encodable_fields (fields : gmap string pyval) : bool :=
  bool_decide (map_Forall (fun _ v => redis_encodable v = true) fields).

(** [redis_client.xadd(name, fields)]. *)
Definition xadd (name : string) (fields : gmap string pyval)
    (rf : redis_faults) (r : redis) : redis * result unit :=
  if xadd_fails rf then (r, Raise RedisError)
  else if negb (encodable_fields fields) then (r, Raise RedisError)
  else ({| kv := kv r; stream := stream r ++ [(name, fields)] |}, Ok tt).

End Redis.

Export Redis.

(* ================================================================== *)
(** * The request-side event logger                                    *)
(* ================================================================== *)

(** What the handlers read of a [fastapi.Request]. *)
Record request := {
  url_path : string;
  http_method : string;
  cookies : gmap string string;
  headers : gmap string string;
  client_host : option string;
}.

(** What a request handler works on: the store, the Redis server, and
    the number of times a search query has been run against the
    providers table. *)
Record backend := {
  b_db : store;
  b_redis : redis;
  b_queries : nat;
}.

(** app/services/user_activity_service.py *)
Module UserActivityService.

Section Str.

Variable py_str : pyval -> string.

Definition _safe_json (value : pyval) : pyval :=
  if json_serialisable value then value else PStr (py_str value).

(** [log_event(request, event_type, metadata, provider_id,
    specialty_id, query_text, city, state, radius_miles, source,
    intent_score)], every parameter written out; a caller that leaves
    one out passes its default ([None], and ["search"] for
    [source]). *)
Definition log_event (req : request) (event_type : string)
    (metadata : option (gmap string pyval))
    (provider_id specialty_id query_text city state radius_miles : pyval)
    (source : string) (intent_score : option Q)
    (f : faults) (d : store) : store * result unit :=
  let payload := default ∅ metadata in
  let payload := _safe_json <$> payload in
  let payload :=
    match intent_score with
    | Some score => <["intent_score" := PFloat score]> payload
    | None => payload
    end in
  let payload := <["path" := PStr (url_path req)]> payload in
  let payload := <["method" := PStr (http_method req)]> payload in
  match enter_get_db f with
  | Raise e => (d, Raise e)
  | Ok conn =>
      let row :=
        {| ev_event_name := event_type;
           ev_provider_id := provider_id;
           ev_specialty_id := specialty_id;
           ev_query_text := query_text;
           ev_city := city;
           ev_state := state;
           ev_radius_miles := radius_miles;
           ev_source := source;
           ev_metadata := payload |} in
      match execute_and_commit conn f (insert_event row) d with
      | (d', Ok _) => (d', Ok tt)
      | (d', Raise e) => (d', Raise e)   (* conn.rollback(); raise *)
      end
  end.

End Str.

End UserActivityService.

(* ================================================================== *)
(** * The analytics tracking endpoints                                 *)
(* ================================================================== *)

(** app/api/v1/analytics.py *)
Module AnalyticsApi.

Record ClickEvent := {
  ce_provider_id : Z;
  click_type : string;
}.

Record ConversionEvent := {
  cv_provider_id : Z;
  cv_event_type : string;
  cv_metadata : option (gmap string pyval);
}.

Record SearchResultEvent := {
  query : option string;
  sr_city : option string;
  sr_state : option string;
  radius_miles : option Z;
  results_count : Z;
}.

Definition ALLOWED_CLICK_TYPES : list string := ["phone"; "website"; "email"].

Definition ALLOWED_CONVERSION_EVENTS : list string :=
  ["provider_phone_click"; "provider_website_click"; "provider_email_click"].

Definition LOW_RESULT_THRESHOLD : Z := 2.

Definition member (s : string) (l : list string) : bool :=
  existsb (String.eqb s) l.

Definition opt_str (o : option string) : pyval :=
  match o with Some s => PStr s | None => PNone end.

Definition opt_int (o : option Z) : pyval :=
  match o with Some z => PInt z | None => PNone end.

(** [request.cookies.get("session_id", "unknown")]. *)
Definition session_of (req : request) : string :=
  default "unknown" (cookies req !! "session_id").

(** [request.headers.get(name, "")]. *)
Definition header (req : request) (h : string) : string :=
  default "" (headers req !! h).

(** The score that [track_search_result] passes to [log_event]:
    [1.5 if unmet else 1.2 if low_supply else 0.5]. *)
Definition search_result_score (count : Z) : Q :=
  if count =? 0 then 1.5
  else if count <=? LOW_RESULT_THRESHOLD then 1.2
  else 0.5.

Definition search_result_kind (count : Z) : string :=
  if count =? 0 then "search_unmet"
  else if count <=? LOW_RESULT_THRESHOLD then "search_low_supply"
  else "search_satisfied".

Section Str.

Variable py_str : pyval -> string.

Definition track_click (req : request) (ev : ClickEvent)
    (rf : redis_faults) (f : faults) (now : Z) (b : backend)
  : backend * result pyval :=
  if negb (member (click_type ev) ALLOWED_CLICK_TYPES)
  then (b, Raise (HTTPException 400))
  else
    let session_id := session_of req in
    let event_type := ("provider_" ++ click_type ev ++ "_click")%string in
    let fields : gmap string pyval :=
      list_to_map
        [ ("event", PStr event_type);
          ("provider_id", PInt (ce_provider_id ev));
          ("session_id", PStr session_id);
          ("high_value", PInt 1);
          ("ts", PInt now);
          ("search_query", PStr (header req "X-Search-Query"));
          ("city", PStr (header req "X-City"));
          ("state", PStr (header req "X-State"));
          ("source", PStr "click") ] in
    match xadd "analytics_stream" fields rf (b_redis b) with
    | (r, Raise e) =>
        ({| b_db := b_db b; b_redis := r; b_queries := b_queries b |},
         Raise e)
    | (r, Ok _) =>
        match UserActivityService.log_event py_str req event_type
                (Some {[ "provider_id" := PInt (ce_provider_id ev) ]})
                PNone PNone PNone PNone PNone PNone "search" (Some 1.0%Q)
                f (b_db b) with
        | (d, Raise e) =>
            ({| b_db := d; b_redis := r; b_queries := b_queries b |},
             Raise e)
        | (d, Ok _) =>
            ({| b_db := d; b_redis := r; b_queries := b_queries b |},
             Ok (PDict [("status", PStr "tracked");
                        ("event", PStr event_type)]))
        end
    end.

Definition track_conversion (req : request) (payload : ConversionEvent)
    (rf : redis_faults) (f : faults) (now : Z) (b : backend)
  : backend * result pyval :=
  if negb (member (cv_event_type payload) ALLOWED_CONVERSION_EVENTS)
  then (b, Raise (HTTPException 400))
  else
    let session_id := session_of req in
    let extra := default ∅ (cv_metadata payload) in
    let fields : gmap string pyval :=
      extra ∪
      list_to_map
        [ ("event", PStr (cv_event_type payload));
          ("provider_id", PInt (cv_provider_id payload));
          ("session_id", PStr session_id);
          ("high_value", PInt 1);
          ("ts", PInt now);
          ("source", PStr "conversion") ] in
    match xadd "analytics_stream" fields rf (b_redis b) with
    | (r, Raise e) =>
        ({| b_db := b_db b; b_redis := r; b_queries := b_queries b |},
         Raise e)
    | (r, Ok _) =>
        match UserActivityService.log_event py_str req
                (cv_event_type payload)
                (Some (extra ∪
                       {[ "provider_id" := PInt (cv_provider_id payload) ]}))
                PNone PNone PNone PNone PNone PNone "search" (Some 1.0%Q)
                f (b_db b) with
        | (d, Raise e) =>
            ({| b_db := d; b_redis := r; b_queries := b_queries b |},
             Raise e)
        | (d, Ok _) =>
            ({| b_db := d; b_redis := r; b_queries := b_queries b |},
             Ok (PDict [("status", PStr "ok");
                        ("event", PStr (cv_event_type payload))]))
        end
    end.

Definition track_search_result (req : request) (payload : SearchResultEvent)
    (rf : redis_faults) (f : faults) (now : Z) (b : backend)
  : backend * result pyval :=
  let session_id := session_of req in
  let event_type := search_result_kind (results_count payload) in
  let metadata : gmap string pyval :=
    list_to_map
      [ ("query", opt_str (query payload));
        ("city", opt_str (sr_city payload));
        ("state", opt_str (sr_state payload));
        ("radius_miles", opt_int (radius_miles payload));
        ("results_count", PInt (results_count payload)) ] in
  match UserActivityService.log_event py_str req event_type
          (Some metadata) PNone PNone PNone PNone PNone PNone "search"
          (Some (search_result_score (results_count payload)))
          f (b_db b) with
  | (d, Raise e) =>
      ({| b_db := d; b_redis := b_redis b; b_queries := b_queries b |},
       Raise e)
  | (d, Ok _) =>
      let fields : gmap string pyval :=
        list_to_map
          [ ("event", PStr event_type);
            ("session_id", PStr session_id);
            ("query", PStr (default "" (query payload)));
            ("city", PStr (default "" (sr_city payload)));
            ("state", PStr (default "" (sr_state payload)));
            ("radius_miles", PInt (default 0 (radius_miles payload)));
            ("results_count", PInt (results_count payload));
            ("ts", PInt now);
            ("source", PStr "search_result") ] in
      (* try: xadd  except Exception: pass *)
      let r := (xadd "analytics_stream" fields rf (b_redis b)).1 in
      ({| b_db := d; b_redis := r; b_queries := b_queries b |},
       Ok (PDict [("status", PStr "tracked");
                  ("event", PStr event_type);
                  ("results_count", PInt (results_count payload))]))
  end.

End Str.

End AnalyticsApi.

(* ================================================================== *)
(** * The cache helpers and the nearby search of the v1 API            *)
(* ================================================================== *)

(** app/services/cache.py *)
Module CacheService.

Section Str.

Variable py_str : pyval -> string.

(** [CacheService.get(key)]: [json.loads(value) if value else None],
    and [None] when the read raises. *)
Definition get (key : string) (rf : redis_faults) (now : Z) (r : redis)
  : pyval :=
  match Redis.get key rf now r with
  | Ok (Some doc) => json_loads doc
  | Ok None => PNone
  | Raise _ => PNone
  end.

(** [CacheService.set(key, value, ttl=60)]. *)
Definition set (key : string) (value : pyval) (ttl : Z)
    (rf : redis_faults) (now : Z) (r : redis) : redis :=
  (setex key ttl (json_dumps_default_str py_str value) rf now r).1.

End Str.

End CacheService.

(** app/api/v1/search.py *)
Module SearchApi.

Definition SEARCH_CACHE_TTL : Z := 60.

Section Env.

Variable py_str : pyval -> string.

(** [hashlib.sha256(json.dumps(payload, sort_keys=True).encode())
    .hexdigest()] as a function of the payload. *)
Variable payload_digest : list (string * pyval) -> string.

(** [ProviderRepository.search_nearby(lat, lon, radius_meters, limit)]
    against the providers table as it stands. *)
Variable search_nearby : Q -> Q -> Q -> Z -> list Provider.

Definition _cache_key (prefix : string) (payload : list (string * pyval))
  : string :=
  (prefix ++ ":" ++ payload_digest payload)%string.

(** [cache_get(prefix, payload)]: [None] for a missing key, and
    [None] when anything in the [try] raises. *)
Definition cache_get (prefix : string) (payload : list (string * pyval))
    (rf : redis_faults) (now : Z) (r : redis) : pyval :=
  let key := _cache_key prefix payload in
  match Redis.get key rf now r with
  | Ok (Some doc) => json_loads doc
  | Ok None => PNone
  | Raise _ => PNone
  end.

Definition cache_set (prefix : string) (payload : list (string * pyval))
    (results : pyval) (rf : redis_faults) (now : Z) (r : redis) : redis :=
  let key := _cache_key prefix payload in
  (setex key SEARCH_CACHE_TTL (json_dumps_default_str py_str results)
     rf now r).1.

(** app/services/search.py, [SearchService.nearby_search]:
    the repository's answer, cut to [limit] entries. *)
Definition nearby_search (lat lon : Q) (radius_miles limit : Z)
  : list Provider :=
  let radius_meters := (inject_Z radius_miles * 1609.34)%Q in
  take (Z.to_nat limit) (search_nearby lat lon radius_meters limit).

(** The handler of [GET /search/nearby].  FastAPI has checked
    [1 <= limit <= 100] and [1 <= radius_miles <= 100] before the
    body runs. *)
Definition nearby (req : request) (lat lon : Q) (radius_miles limit : Z)
    (rf : redis_faults) (f : faults) (now : Z) (b : backend)
  : backend * result pyval :=
  let cache_payload :=
    [ ("lat", PFloat lat); ("lon", PFloat lon);
      ("radius_miles", PInt radius_miles); ("limit", PInt limit) ] in
  let cached := cache_get "search:nearby" cache_payload rf now (b_redis b) in
  let '(results, b1) :=
    match cached with
    | PNone =>
        let results :=
          PList (map PProvider (nearby_search lat lon radius_miles limit)) in
        (results,
         {| b_db := b_db b;
            b_redis := cache_set "search:nearby" cache_payload results
                         rf now (b_redis b);
            b_queries := S (b_queries b) |})
    | hit => (hit, b)            (* cached is not None *)
    end in
  match len results with
  | Raise e => (b1, Raise e)
  | Ok count =>
      match AnalyticsApi.track_search_result py_str req
              {| AnalyticsApi.query := None;
                 AnalyticsApi.sr_city := None;
                 AnalyticsApi.sr_state := None;
                 AnalyticsApi.radius_miles := Some radius_miles;
                 AnalyticsApi.results_count := count |}
              rf f now b1 with
      | (b2, Raise e) => (b2, Raise e)
      | (b2, Ok _) => (b2, Ok results)
      end
  end.

End Env.

End SearchApi.

(* ================================================================== *)
(** * The nearby search of the application module                      *)
(* ================================================================== *)

(** app/main.py *)
Module Main.

Section Env.

Variable py_str : pyval -> string.

(** [uuid.uuid5(uuid.NAMESPACE_DNS, raw).hex]. *)
Variable uuid5_hex : string -> string.

(** The rows that the PostGIS query of the handler returns for
    [(lat, lon, radius_meters)], each a dictionary, against the
    providers table as it stands. *)
Variable query_nearby : Q -> Q -> Q -> list pyval.

(** [get_or_create_session(request, response)]; [fresh] is the
    [uuid4] drawn when the cookie is missing or empty. *)
Definition get_or_create_session (req : request) (fresh : string) : string :=
  match cookies req !! "session_id" with
  | Some s => if String.eqb s "" then fresh else s
  | None => fresh
  end.

Definition get_device_id (req : request) : string :=
  let ua := default "" (headers req !! "user-agent") in
  let accept := default "" (headers req !! "accept") in
  let ip := default "" (client_host req) in
  uuid5_hex (ua ++ "|" ++ accept ++ "|" ++ ip)%string.

(** The [with get_db() as conn] block of the handler: cursor,
    execute, fetchall. *)
Definition fetch_nearby (lat lon : Q) (radius : Z) (qf : faults)
  : result pyval :=
  conn <- enter_get_db qf ;;
  _ <- cursor conn qf ;;
  let radius_meters := (inject_Z radius * 1609.34)%Q in
  if execute_fails qf then Raise DatabaseError
  else Ok (PList (query_nearby lat lon radius_meters)).

(** The tail that both branches share: score, [log_event], [xadd],
    return.  [log_event] receives the score as its fourth positional
    argument, which is [provider_id]. *)
Definition log_and_return (req : request) (rows : pyval)
    (metadata : gmap string pyval) (fields : gmap string pyval)
    (rf : redis_faults) (f : faults) (b : backend)
  : backend * result pyval :=
  match IntentModel.score_intent "nearby_search" metadata with
  | Raise e => (b, Raise e)
  | Ok intent =>
      match UserActivityService.log_event py_str req "nearby_search"
              (Some metadata) (PFloat intent) PNone PNone PNone PNone PNone
              "map" None f (b_db b) with
      | (d, Raise e) =>
          ({| b_db := d; b_redis := b_redis b; b_queries := b_queries b |},
           Raise e)
      | (d, Ok _) =>
          match xadd "analytics_stream" fields rf (b_redis b) with
          | (r, Raise e) =>
              ({| b_db := d; b_redis := r; b_queries := b_queries b |},
               Raise e)
          | (r, Ok _) =>
              ({| b_db := d; b_redis := r; b_queries := b_queries b |},
               Ok rows)
          end
      end
  end.

(** The handler of [GET /providers/nearby]; [ms] is the measured
    response time of the uncached branch. *)
Definition nearby (req : request) (fresh : string) (lat lon : Q) (radius : Z)
    (rf : redis_faults) (qf f : faults) (now ms : Z) (b : backend)
  : backend * result pyval :=
  let session := get_or_create_session req fresh in
  let device := get_device_id req in
  let cache_key :=
    ("nearby:" ++ py_str (PFloat lat) ++ ":" ++ py_str (PFloat lon)
       ++ ":" ++ py_str (PInt radius))%string in
  match Redis.get cache_key rf now (b_redis b) with
  | Raise e => (b, Raise e)
  | Ok (Some doc) =>
      let rows := json_loads doc in
      match len rows with
      | Raise e => (b, Raise e)
      | Ok count =>
          let metadata : gmap string pyval :=
            list_to_map
              [ ("lat", PFloat lat); ("lon", PFloat lon);
                ("radius", PInt radius); ("cached", PBool true);
                ("result_count", PInt count) ] in
          let fields : gmap string pyval :=
            list_to_map
              [ ("event", PStr "nearby_search"); ("cached", PBool true);
                ("lat", PFloat lat); ("lon", PFloat lon);
                ("radius", PInt radius); ("result_count", PInt count);
                ("session_id", PStr session); ("device_id", PStr device);
                ("ts", PInt now) ] in
          log_and_return req rows metadata fields rf f b
      end
  | Ok None =>
      match fetch_nearby lat lon radius qf with
      | Raise e => (b, Raise e)
      | Ok rows =>
          let b1 :=
            {| b_db := b_db b; b_redis := b_redis b;
               b_queries := S (b_queries b) |} in
          match setex cache_key 3600 (json_dumps_default_str py_str rows)
                  rf now (b_redis b1) with
          | (r, Raise e) =>
              ({| b_db := b_db b1; b_redis := r;
                  b_queries := b_queries b1 |}, Raise e)
          | (r, Ok _) =>
              let b2 :=
                {| b_db := b_db b1; b_redis := r;
                   b_queries := b_queries b1 |} in
              match len rows with
              | Raise e => (b2, Raise e)
              | Ok count =>
                  let metadata : gmap string pyval :=
                    list_to_map
                      [ ("lat", PFloat lat); ("lon", PFloat lon);
                        ("radius", PInt radius); ("cached", PBool false);
                        ("result_count", PInt count);
                        ("response_ms", PInt ms) ] in
                  let fields : gmap string pyval :=
                    list_to_map
                      [ ("event", PStr "nearby_search");
                        ("cached", PBool false);
                        ("lat", PFloat lat); ("lon", PFloat lon);
                        ("radius", PInt radius);
                        ("result_count", PInt count);
                        ("response_ms", PInt ms);
                        ("session_id", PStr session);
                        ("device_id", PStr device);
                        ("ts", PInt now) ] in
                  log_and_return req rows metadata fields rf f b2
              end
          end
      end
  end.

End Env.

End Main.

(* ================================================================== *)
(** * Vocabulary of the stated properties                              *)
(* ================================================================== *)

(** A key of the metadata is absent, or holds a number. *)
Definition numeric_or_absent (md : gmap string pyval) (key : string) : bool :=
  match md !! key with
  | Some v => is_ok (as_number v)
  | None => true
  end.

(** A key of the metadata is absent, or holds a [str]. *)
Definition str_or_absent (md : gmap string pyval) (key : string) : bool :=
  match md !! key with
  | Some (PStr _) => true
  | Some _ => false
  | None => true
  end.

(** The metadata a scorer can read without a type error: the counts and
    times are numbers and the query is text. *)
Definition well_typed_metadata (md : gmap string pyval) : bool :=
  numeric_or_absent md "result_count"
  && numeric_or_absent md "response_ms"
  && numeric_or_absent md "radius"
  && str_or_absent md "query".

(** A score lies in the closed unit interval. *)
Definition in_unit_interval (s : Q) : Prop := (0 <= s <= 1)%Q.

(** A scorer returns a score in the unit interval. *)
Definition returns_unit_score (r : result Q) : Prop :=
  exists s, r = Ok s /\ in_unit_interval s.

(** The two free-text queries of the ordering scenario. *)
Definition urgent_query : pyval := PStr "urgent aba therapy".
Definition cheap_query : pyval := PStr "cheap therapy".

(** A scorer ranks the first metadata strictly above the second. *)
Definition scores_strictly_above
    (score : string -> gmap string pyval -> result Q)
    (kind : string) (md1 md2 : gmap string pyval) : Prop :=
  exists s1 s2, score kind md1 = Ok s1 /\ score kind md2 = Ok s2 /\ (s2 < s1)%Q.

(** ** Identity stitching *)

(** The number of rows of a session that no user owns yet. *)
Definition anonymous_count (session : string) (d : store) : Z :=
  Z.of_nat (length (filter (fun row => is_anonymous_of session row = true)
                           (user_activity d))).

(** The connection object that [merge_anonymous_history_into_user] works
    on: the injected one, or what [get_db()] returns. *)
Definition merge_connection (conn : option db_object) : db_object :=
  match conn with Some c => c | None => get_db end.

(** Some call of the merge raises: [conn.cursor], [cur.execute] or
    [conn.commit]. *)
Definition merge_error (conn : option db_object) (f : faults) : bool :=
  negb (is_ok (cursor (merge_connection conn) f))
  || execute_fails f || commit_fails f.

(** An anonymous activity row of a session. *)
Definition anonymous_row (session : string) (kind : string) : activity_row :=
  {| ua_event_type := Some kind;
     ua_provider_id := None;
     ua_session_id := Some session;
     ua_device_id := None;
     ua_ip_hash := None;
     ua_source := None;
     ua_metadata := {[ "event" := kind ]};
     ua_timestamp := 0;
     ua_user_id := None |}.

(** Scenario 3 of the specification: two anonymous rows of session
    ["anon-1"]. *)
Definition two_anonymous_rows : store :=
  {| user_activity :=
       [anonymous_row "anon-1" "search"; anonymous_row "anon-1" "provider_view"];
     provider_stats := ∅;
     analytics_events_v2 := [] |}.

Definition execute_raises : faults :=
  {| connect_fails := false; cursor_fails := false;
     execute_fails := true; commit_fails := false |}.

(** ** The pipeline worker *)

(** The kinds that count as a view, a phone click or a website click. *)
Definition is_tracked_signal (kind : string) : bool :=
  existsb (String.eqb kind)
    ["provider_view"; "provider_phone_click"; "phone_click";
     "provider_website_click"; "website_click"].

(** The [provider_id] of an entry is absent, empty, the string ["null"],
    or a string on which [int] raises. *)
Definition provider_id_unusable (py_int : string -> result Z)
    (raw : option string) : Prop :=
  raw = None \/ raw = Some "" \/ raw = Some "null"
  \/ exists s, raw = Some s /\ is_ok (py_int s) = false.

(** An [int] that stands for the built-in where a closed example needs
    one: it reads the three numerals of the examples. *)
Definition sample_int (raw : string) : result Z :=
  if String.eqb raw "42" then Ok 42
  else if String.eqb raw "1" then Ok 1
  else if String.eqb raw "0" then Ok 0
  else Raise ValueError.

(** A call of the [try] body raised. *)
Definition step_raised (r : AnalyticsWorker.report) : bool :=
  negb (is_ok (AnalyticsWorker.persisted r))
  || match AnalyticsWorker.updated r with
     | Some u => negb (is_ok u)
     | None => false
     end.

(** The row that [persist_user_activity] inserts for an entry. *)
Definition row_of_entry (ev : gmap string string) (now : Z) : activity_row :=
  {| ua_event_type := AnalyticsWorker.event_kind ev;
     ua_provider_id := ev !! "provider_id";
     ua_session_id := ev !! "session_id";
     ua_device_id := ev !! "device_id";
     ua_ip_hash := ev !! "ip_hash";
     ua_source := ev !! "source";
     ua_metadata := ev;
     ua_timestamp := now;
     ua_user_id := None |}.

(** The all-or-nothing reading of the processing of one entry: an
    acknowledgement only after both steps returned, and when a step raised
    neither table has changed and the entry is still pending. *)
Definition all_or_nothing (conn : db_object) (py_int : string -> result Z)
    (message_id : string) (ev : gmap string string)
    (f : AnalyticsWorker.entry_faults) (now : Z)
    (w : AnalyticsWorker.world) : Prop :=
  let w' :=
    (AnalyticsWorker.process_entry conn py_int message_id ev f now w).1 in
  let r :=
    (AnalyticsWorker.process_entry conn py_int message_id ev f now w).2 in
  (AnalyticsWorker.acked r = Some (Ok tt) ->
   AnalyticsWorker.persisted r = Ok tt
   /\ AnalyticsWorker.updated r = Some (Ok tt))
  /\ (step_raised r = true ->
      user_activity (AnalyticsWorker.db w')
      = user_activity (AnalyticsWorker.db w)
      /\ provider_stats (AnalyticsWorker.db w')
         = provider_stats (AnalyticsWorker.db w)
      /\ AnalyticsWorker.pending w' = AnalyticsWorker.pending w).

(** Scenario 1 of the specification: a view of provider 42 in session
    ["abc"], as the worker reads it from the stream. *)
Definition view_event : gmap string string :=
  list_to_map
    [ ("event", "provider_view"); ("provider_id", "42");
      ("session_id", "abc") ].

(** The entry ["1-0"] has been delivered; the tables are empty. *)
Definition delivered : AnalyticsWorker.world :=
  {| AnalyticsWorker.db := empty_store;
     AnalyticsWorker.pending := {[ "1-0" ]} |}.

(** Only the upsert of the statistics raises. *)
Definition stats_execute_raises : AnalyticsWorker.entry_faults :=
  {| AnalyticsWorker.persist_faults := no_faults;
     AnalyticsWorker.stats_faults := execute_raises;
     AnalyticsWorker.xack_fails := false |}.

(** No counter of the second table is below its value in the first. *)
Definition counters_not_below (before after : gmap Z stats_row) : Prop :=
  forall provider old, before !! provider = Some old ->
    exists new, after !! provider = Some new
      /\ views old <= views new
      /\ searches old <= searches new
      /\ conversions old <= conversions new.

(** The [views] counter of a provider; 0 while the provider has no row. *)
Definition views_of (stats : gmap Z stats_row) (provider : Z) : Z :=
  match stats !! provider with
  | Some row => views row
  | None => 0
  end.

(** ** The event logger *)

(** The score that a stored event carries in its metadata. *)
Definition stored_score (row : event_row) : option pyval :=
  ev_metadata row !! "intent_score".

(** Every stored event carries a score in the unit interval. *)
Definition stores_unit_scores (d : store) : Prop :=
  forall row, row ∈ analytics_events_v2 d ->
    exists q, stored_score row = Some (PFloat q) /\ in_unit_interval q.

(** A rendering that stands for the built-in [str] where a closed
    example needs one; no example depends on which it is. *)
Definition plain_str (v : pyval) : string :=
  match v with
  | PStr s => s
  | PDecimal digits => digits
  | PProvider p => prov_name p
  | _ => ""
  end.

(** A search that found nothing, as [POST /analytics/track/search_result]
    receives it. *)
Definition unmet_search : AnalyticsApi.SearchResultEvent :=
  {| AnalyticsApi.query := Some "speech therapy";
     AnalyticsApi.sr_city := Some "Miami";
     AnalyticsApi.sr_state := Some "FL";
     AnalyticsApi.radius_miles := Some 25;
     AnalyticsApi.results_count := 0 |}.

Definition track_request : request :=
  {| url_path := "/analytics/track/search_result";
     http_method := "POST";
     cookies := {[ "session_id" := "abc" ]};
     headers := ∅;
     client_host := Some "203.0.113.7" |}.

(** Empty tables, an empty Redis server, no query run yet. *)
Definition idle_backend : backend :=
  {| b_db := empty_store; b_redis := empty_redis; b_queries := 0 |}.

(** ** The search cache *)

(** What the cache gives back for a list of providers that went through
    [json.dumps(results, default=str)] and [json.loads]: the [str] of
    each provider. *)
Definition stringified (py_str : pyval -> string) (providers : list Provider)
  : pyval :=
  PList (map (fun p => PStr (py_str (PProvider p))) providers).

(** Scenario 2 of the specification: one provider within 25 miles of
    (25.76, -80.19). *)
Definition miami_provider : Provider :=
  {| prov_id := 1;
     prov_name := "Bright Steps ABA";
     prov_phone := Some "305-555-0100";
     prov_email := None;
     prov_website := None;
     prov_street := None;
     prov_city := Some "Miami";
     prov_state := Some "FL";
     prov_zip := Some "33130";
     prov_full_address := None;
     prov_latitude := Some 25.77%Q;
     prov_longitude := Some (-80.2)%Q;
     prov_services := Some "ABA";
     prov_distance_miles := None |}.

(** A providers table in which every nearby query finds that provider. *)
Definition one_provider_nearby (lat lon radius_meters : Q) (limit : Z)
  : list Provider :=
  [miami_provider].

(** A digest that stands for SHA-256 where a closed example needs one. *)
Definition sample_digest (payload : list (string * pyval)) : string :=
  "9f2c".

Definition nearby_request : request :=
  {| url_path := "/search/nearby";
     http_method := "GET";
     cookies := {[ "session_id" := "abc" ]};
     headers := ∅;
     client_host := Some "203.0.113.7" |}.

(** The first [GET /search/nearby?lat=25.76&lon=-80.19&radius_miles=25]
    at time 0, on an empty cache. *)
Definition first_lookup : backend * result pyval :=
  SearchApi.nearby plain_str sample_digest one_provider_nearby nearby_request
    25.76 (-80.19) 25 50 redis_healthy no_faults 0 idle_backend.

(** The same request 30 seconds later, within the 60 seconds the entry
    lives. *)
Definition second_lookup : backend * result pyval :=
  SearchApi.nearby plain_str sample_digest one_provider_nearby nearby_request
    25.76 (-80.19) 25 50 redis_healthy no_faults 30 first_lookup.1.

(** A row of the query of [GET /providers/nearby]: the distance is a
    [Decimal], as [ROUND(CAST(... AS numeric), 2)] gives it. *)
Definition miami_row : pyval :=
  PDict [ ("id", PInt 1); ("name", PStr "Bright Steps ABA");
          ("city", PStr "Miami"); ("distance_miles", PDecimal "0.93") ].

Definition one_row_nearby (lat lon radius_meters : Q) : list pyval :=
  [miami_row].

(** A UUID that stands for [uuid5] where a closed example needs one. *)
Definition sample_uuid5 (raw : string) : string := "5f0c".

(** The first [GET /providers/nearby?lat=25.76&lon=-80.19&radius=25] at
    time 0 on an empty cache, its query answered in 12 ms, and the same
    request 30 seconds later, within the hour the entry lives. *)
Definition main_first_lookup : backend * result pyval :=
  Main.nearby plain_str sample_uuid5 one_row_nearby nearby_request "6c1e"
    25.76 (-80.19) 25 redis_healthy no_faults no_faults 0 12 idle_backend.

Definition main_second_lookup : backend * result pyval :=
  Main.nearby plain_str sample_uuid5 one_row_nearby nearby_request "6c1e"
    25.76 (-80.19) 25 redis_healthy no_faults no_faults 30 12
    main_first_lookup.1.

(* ================================================================== *)
(** * The loop of the pipeline worker                                  *)
(* ================================================================== *)

(** app/workers/analytics_worker.py, [ensure_consumer_group] and [run],
    with the part of the Redis stream they work on. *)
Module WorkerLoop.

(** The consumer group of the stream: how many entries of the log it has
    handed out (the position of its last-delivered id), and the entries
    handed out and not acknowledged. *)
Record consumer_group := {
  last_delivered : nat;
  pel : gset string;
}.

(** The stream: its entries in append order, and the group if it has
    been created. *)
Record stream_state := {
  log : list (string * gmap string string);
  group : option consumer_group;
}.

(** [ensure_consumer_group()]: [xgroup_create(STREAM, GROUP, id="0",
    mkstream=True)] makes the group, reading from the start of the
    stream; on a group that exists Redis answers with a [ResponseError],
    which the function swallows.  An error of the connection is not a
    [ResponseError] and leaves the function. *)
Definition ensure_consumer_group (unreachable : bool) (s : stream_state)
  : result stream_state :=
  if unreachable then Raise RedisError
  else
    match group s with
    | Some _ => Ok s
    | None =>
        Ok {| log := log s;
              group := Some {| last_delivered := 0; pel := ∅ |} |}
    end.

(** [xreadgroup(groupname=GROUP, consumername=CONSUMER,
    streams={STREAM: ">"}, count=10, block=5000)]: up to [count] entries
    that the group has not handed out yet; they enter the pending list.
    Without the group Redis answers [NOGROUP]. *)
Definition xreadgroup (count : nat) (unreachable : bool) (s : stream_state)
  : result (list (string * gmap string string) * stream_state) :=
  if unreachable then Raise RedisError
  else
    match group s with
    | None => Raise RedisError
    | Some g =>
        let batch := take count (drop (last_delivered g) (log s)) in
        Ok (batch,
            {| log := log s;
               group :=
                 Some {| last_delivered := last_delivered g + length batch;
                         pel := pel g ∪ list_to_set (map fst batch) |} |})
    end.

(** The state of the running worker: the stream, the store, and, for
    the statements below, the ids it has handed to the [try] body of
    [run], in order. *)
Record loop_state := {
  stream : stream_state;
  tables : store;
  handled : list string;
}.

Section Loop.

(** The object that [get_db()] returns, the built-in [int], and where
    the processing of an entry raises. *)
Variable get_db : db_object.
Variable py_int : string -> result Z.
Variable fault_of : string -> AnalyticsWorker.entry_faults.

(** The two [for] loops of [run] over the entries of one read. *)
Fixpoint process_batch (batch : list (string * gmap string string)) (now : Z)
    (w : AnalyticsWorker.world) : AnalyticsWorker.world :=
  match batch with
  | [] => w
  | (message_id, ev) :: rest =>
      process_batch rest now
        (AnalyticsWorker.process_entry get_db py_int message_id ev
           (fault_of message_id) now w).1
  end.

(** One turn of [while True]: read, and if anything came, process it. An
    error of the read is not caught and ends [run]. *)
Definition run_iteration (unreachable : bool) (now : Z) (st : loop_state)
  : result loop_state :=
  read <- xreadgroup 10 unreachable (stream st) ;;
  let '(batch, s1) := read in
  match group s1 with
  | None => Ok st
  | Some g =>
      let w :=
        process_batch batch now
          {| AnalyticsWorker.db := tables st;
             AnalyticsWorker.pending := pel g |} in
      Ok {| stream :=
              {| log := log s1;
                 group := Some {| last_delivered := last_delivered g;
                                  pel := AnalyticsWorker.pending w |} |};
            tables := AnalyticsWorker.db w;
            handled := handled st ++ map fst batch |}
  end.

(** [run()] for as many turns as there are times in [times]: the group
    is ensured once, then the loop turns. *)
Fixpoint run_turns (times : list Z) (st : loop_state) : result loop_state :=
  match times with
  | [] => Ok st
  | now :: rest =>
      st' <- run_iteration false now st ;;
      run_turns rest st'
  end.

Definition run (times : list Z) (st : loop_state) : result loop_state :=
  s <- ensure_consumer_group false (stream st) ;;
  run_turns times
    {| stream := s; tables := tables st; handled := handled st |}.

End Loop.

End WorkerLoop.

(** A turn of the scenario-1 stream: the view of provider 42 is the one
    entry, no group exists yet, the tables are empty. *)
Definition one_view_stream : WorkerLoop.loop_state :=
  {| WorkerLoop.stream :=
       {| WorkerLoop.log := [("1-0", view_event)];
          WorkerLoop.group := None |};
     WorkerLoop.tables := empty_store;
     WorkerLoop.handled := [] |}.


(** ** Induction on Python values

    Lists and dictionaries nest, so the principle carries the property
    through [Forall]. *)
Section PyvalInduction.

Variable P : pyval -> Prop.
Hypothesis none_case : P PNone.
Hypothesis bool_case : forall b, P (PBool b).
Hypothesis int_case : forall z, P (PInt z).
Hypothesis float_case : forall q, P (PFloat q).
Hypothesis str_case : forall s, P (PStr s).
Hypothesis decimal_case : forall digits, P (PDecimal digits).
Hypothesis provider_case : forall p, P (PProvider p).
Hypothesis list_case : forall l, Forall P l -> P (PList l).
Hypothesis dict_case :
  forall d, Forall (fun kv : string * pyval => P kv.2) d -> P (PDict d).

Fixpoint pyval_induction (v : pyval) : P v :=
  match v with
  | PNone => none_case
  | PBool b => bool_case b
  | PInt z => int_case z
  | PFloat q => float_case q
  | PStr s => str_case s
  | PDecimal digits => decimal_case digits
  | PProvider p => provider_case p
  | PList l =>
      list_case l
        ((fix go (l : list pyval) : Forall P l :=
            match l with
            | [] => Forall_nil_2 P
            | x :: rest => Forall_cons_2 P x rest (pyval_induction x) (go rest)
            end) l)
  | PDict d =>
      dict_case d
        ((fix go (d : list (string * pyval))
            : Forall (fun kv : string * pyval => P kv.2) d :=
            match d with
            | [] => Forall_nil_2 _
            | kv :: rest =>
                Forall_cons_2 _ kv rest (pyval_induction kv.2) (go rest)
            end) d)
  end.

End PyvalInduction.

(** ** The event logger, further *)

(** A driver call of [log_event] raises. *)
Definition any_fault (f : faults) : bool :=
  connect_fails f || cursor_fails f || execute_fails f || commit_fails f.

(** The keys that [log_event] sets itself. *)
Definition logger_key (key : string) : bool :=
  String.eqb key "intent_score" || String.eqb key "path"
  || String.eqb key "method".

(** A click on the phone number of provider 42. *)
Definition phone_click : AnalyticsApi.ClickEvent :=
  {| AnalyticsApi.ce_provider_id := 42; AnalyticsApi.click_type := "phone" |}.

Definition xadd_raises : redis_faults :=
  {| get_fails := false; setex_fails := false; xadd_fails := true |}.

(** ** The search cache, further *)

(** The payload from which [GET /search/nearby] makes its cache key. *)
Definition nearby_payload (lat lon : Q) (radius_miles limit : Z)
  : list (string * pyval) :=
  [ ("lat", PFloat lat); ("lon", PFloat lon);
    ("radius_miles", PInt radius_miles); ("limit", PInt limit) ].

(** A providers table in which no nearby query finds anything. *)
Definition no_provider_nearby (lat lon radius_meters : Q) (limit : Z)
  : list Provider :=
  [].

(* ================================================================== *)
(** * The other handlers and helpers of the application module        *)
(* ================================================================== *)

(** _ARCHIVE_DO_NOT_TOUCH/.../backend_duplicate/app/analytics/intent.py,
    [classify_intent_tier]. *)
Module ArchiveTiers.

Inductive tier := hot_lead | warm_lead | qualified | cold.

Definition classify_intent_tier (score : Q) : tier :=
  if Qle_bool 0.8 score then hot_lead
  else if Qle_bool 0.6 score then warm_lead
  else if Qle_bool 0.4 score then qualified
  else cold.

End ArchiveTiers.

(** app/main.py: the session helper with the cookie it sets, and the
    free-text search. *)
Module MainHandlers.

(** A [response.set_cookie(name, value, max_age=...)]. *)
Record cookie := {
  cookie_name : string;
  cookie_value : string;
  max_age : Z;
}.

(** [get_or_create_session(request, response)]: the session id, and the
    cookie set on the response if one was set.  [fresh] is the
    [str(uuid.uuid4())] drawn when it is needed. *)
Definition get_or_create_session (req : request) (fresh : string)
  : string * option cookie :=
  let created :=
    (fresh,
     Some {| cookie_name := "session_id"; cookie_value := fresh;
             max_age := 60 * 60 * 24 * 365 |}) in
  match cookies req !! "session_id" with
  | Some s => if String.eqb s "" then created else (s, None)
  | None => created
  end.

(** The next request of a client that keeps the cookies it is sent. *)
Definition with_cookie (req : request) (c : option cookie) : request :=
  match c with
  | None => req
  | Some c =>
      {| url_path := url_path req;
         http_method := http_method req;
         cookies := <[cookie_name c := cookie_value c]> (cookies req);
         headers := headers req;
         client_host := client_host req |}
  end.

Definition BOT_MARKERS : list string :=
  ["python-requests"; "curl"; "scrapy"; "bot"; "crawler"].

Section Env.

Variable py_str : pyval -> string.
Variable uuid5_hex : string -> string.

(** The rows that the [ILIKE] query of the handler returns for a term and
    a [LIMIT], against the providers table as it stands. *)
Variable query_search : string -> Z -> list pyval.

(** [len(query.strip())]: the number of characters of a string once the
    white space around it is removed, as Python strips and counts. *)
Variable stripped_len : string -> Z.

(** The [with get_db() as conn] block of [search]. *)
Definition fetch_search (query : string) (limit : Z) (qf : faults)
  : result pyval :=
  conn <- enter_get_db qf ;;
  _ <- cursor conn qf ;;
  let term := ("%" ++ query ++ "%")%string in
  if execute_fails qf then Raise DatabaseError
  else Ok (PList (query_search term limit)).

(** The handler of [GET /providers/search]; [ms] is the measured
    response time. *)
Definition search (req : request) (fresh : string) (query : string)
    (limit : Z) (rf : redis_faults) (qf f : faults) (now ms : Z)
    (b : backend) : backend * result pyval :=
  let session := (get_or_create_session req fresh).1 in
  let device := Main.get_device_id uuid5_hex req in
  let ua := lower (default "" (headers req !! "user-agent")) in
  if any_in BOT_MARKERS ua then (b, Raise (HTTPException 403))
  else if stripped_len query <? 2 then (b, Ok (PList []))
  else
    let limit := Z.min limit 50 in
    match fetch_search query limit qf with
    | Raise e => (b, Raise e)
    | Ok rows =>
        let b1 :=
          {| b_db := b_db b; b_redis := b_redis b;
             b_queries := S (b_queries b) |} in
        match len rows with
        | Raise e => (b1, Raise e)
        | Ok count =>
            let metadata : gmap string pyval :=
              list_to_map
                [ ("query", PStr query); ("limit", PInt limit);
                  ("result_count", PInt count); ("response_ms", PInt ms) ] in
            match IntentModel.score_intent "search" metadata with
            | Raise e => (b1, Raise e)
            | Ok intent =>
                (* log_event(request, "search", metadata, intent,
                   source="search"): the score is the fourth positional
                   argument, [provider_id] *)
                match UserActivityService.log_event py_str req "search"
                        (Some metadata) (PFloat intent) PNone PNone PNone
                        PNone PNone "search" None f (b_db b1) with
                | (d, Raise e) =>
                    ({| b_db := d; b_redis := b_redis b1;
                        b_queries := b_queries b1 |}, Raise e)
                | (d, Ok _) =>
                    let fields : gmap string pyval :=
                      list_to_map
                        [ ("event", PStr "search"); ("query", PStr query);
                          ("result_count", PInt count);
                          ("response_ms", PInt ms);
                          ("session_id", PStr session);
                          ("device_id", PStr device); ("ts", PInt now) ] in
                    match xadd "analytics_stream" fields rf (b_redis b1) with
                    | (r, Raise e) =>
                        ({| b_db := d; b_redis := r;
                            b_queries := b_queries b1 |}, Raise e)
                    | (r, Ok _) =>
                        ({| b_db := d; b_redis := r;
                            b_queries := b_queries b1 |}, Ok rows)
                    end
                end
            end
        end
    end.

(** The row that [SELECT * FROM providers WHERE id = %s] finds, if there
    is one. *)
Variable find_provider : Z -> option pyval.

(** The [with get_db() as conn] block of [get_provider]; [fetchone]
    gives [None] when no row matches. *)
Definition fetch_provider (provider_id : Z) (qf : faults) : result pyval :=
  conn <- enter_get_db qf ;;
  _ <- cursor conn qf ;;
  if execute_fails qf then Raise DatabaseError
  else Ok (default PNone (find_provider provider_id)).

(** The handler of [GET /providers/{provider_id}]. *)
Definition get_provider (req : request) (fresh : string) (provider_id : Z)
    (rf : redis_faults) (qf f : faults) (now : Z) (b : backend)
  : backend * result pyval :=
  let session := (get_or_create_session req fresh).1 in
  let device := Main.get_device_id uuid5_hex req in
  match fetch_provider provider_id qf with
  | Raise e => (b, Raise e)
  | Ok row =>
      let b1 :=
        {| b_db := b_db b; b_redis := b_redis b;
           b_queries := S (b_queries b) |} in
      if negb (truthy row) then (b1, Raise (HTTPException 404))
      else
        let metadata : gmap string pyval :=
          {[ "provider_id" := PInt provider_id ]} in
        match IntentModel.score_intent "provider_view" metadata with
        | Raise e => (b1, Raise e)
        | Ok intent =>
            match UserActivityService.log_event py_str req "provider_view"
                    (Some metadata) PNone PNone PNone PNone PNone PNone
                    "direct" (Some intent) f (b_db b1) with
            | (d, Raise e) =>
                ({| b_db := d; b_redis := b_redis b1;
                    b_queries := b_queries b1 |}, Raise e)
            | (d, Ok _) =>
                let fields : gmap string pyval :=
                  list_to_map
                    [ ("event", PStr "provider_view");
                      ("provider_id", PInt provider_id);
                      ("session_id", PStr session);
                      ("device_id", PStr device); ("ts", PInt now) ] in
                match xadd "analytics_stream" fields rf (b_redis b1) with
                | (r, Raise e) =>
                    ({| b_db := d; b_redis := r;
                        b_queries := b_queries b1 |}, Raise e)
                | (r, Ok _) =>
                    ({| b_db := d; b_redis := r;
                        b_queries := b_queries b1 |}, Ok row)
                end
            end
        end
  end.

End Env.

End MainHandlers.

(** ** Vocabulary for these *)

(** The order of the tiers, from [cold] up. *)
Definition tier_rank (t : ArchiveTiers.tier) : nat :=
  match t with
  | ArchiveTiers.cold => 0
  | ArchiveTiers.qualified => 1
  | ArchiveTiers.warm_lead => 2
  | ArchiveTiers.hot_lead => 3
  end.

(** The base score of a kind in the scorer in use. *)
Definition live_base (kind : string) : Q :=
  IntentModel.table_get IntentModel.base_scores kind 0.3.

(** A request of a command-line client. *)
Definition curl_request : request :=
  {| url_path := "/providers/search";
     http_method := "GET";
     cookies := ∅;
     headers := {[ "user-agent" := "curl/8.4.0" ]};
     client_host := Some "203.0.113.7" |}.

(** A request of a browser without a session cookie. *)
Definition browser_request : request :=
  {| url_path := "/providers/search";
     http_method := "GET";
     cookies := ∅;
     headers := {[ "user-agent" := "Mozilla/5.0 (Macintosh)" ]};
     client_host := Some "203.0.113.7" |}.

(** A row of the free-text search, and a providers table in which every
    search finds it. *)
Definition miami_listing : pyval :=
  PDict [ ("id", PInt 1); ("name", PStr "Bright Steps ABA");
          ("services", PStr "ABA therapy"); ("city", PStr "Miami");
          ("state", PStr "FL") ].

Definition one_row_search (term : string) (limit : Z) : list pyval :=
  [miami_listing].

(** A stripped length that stands for Python's where a closed example
    needs one: the queries of the examples are ASCII letters, which
    [strip] leaves as they are and [len] counts one by one. *)
Definition plain_len (query : string) : Z := Z.of_nat (String.length query).

(** What [LIMIT n] guarantees of the rows of a query. *)
Definition respects_limit (query : string -> Z -> list pyval) : Prop :=
  forall term limit, (length (query term limit) <= Z.to_nat limit)%nat.

(** ** From the stream to the worker

    Redis keeps the fields of a stream entry as strings, and the worker
    reads them back as strings.  A string field arrives as it was sent;
    an integer arrives as its numeral, a string that is neither empty nor
    ["null"] and that [int] reads back as that integer; a field of
    another type arrives as some string. *)
Definition field_delivered (py_int : string -> result Z) (sent : pyval)
    (received : option string) : bool :=
  match sent, received with
  | PStr s, Some raw => String.eqb s raw
  | PInt z, Some raw =>
      negb (AnalyticsWorker.provider_id_blank (Some raw))
      && match py_int raw with
         | Ok z' => z =? z'
         | Raise _ => false
         end
  | _, Some _ => true
  | _, None => false
  end.

Definition delivered_as (py_int : string -> result Z)
    (fields : gmap string pyval) (ev : gmap string string) : Prop :=
  map_Forall
    (fun key sent => field_delivered py_int sent (ev !! key) = true) fields.

(** The [conversions] counter of a provider; 0 while the provider has no
    row. *)
Definition conversions_of (stats : gmap Z stats_row) (provider : Z) : Z :=
  match stats !! provider with
  | Some row => conversions row
  | None => 0
  end.

(** The entry that [track_click] appends to the stream, and the one that
    [get_provider] appends. *)
Definition click_entry (req : request) (click : AnalyticsApi.ClickEvent)
    (now : Z) : gmap string pyval :=
  list_to_map
    [ ("event",
       PStr ("provider_" ++ AnalyticsApi.click_type click ++ "_click"));
      ("provider_id", PInt (AnalyticsApi.ce_provider_id click));
      ("session_id", PStr (AnalyticsApi.session_of req));
      ("high_value", PInt 1);
      ("ts", PInt now);
      ("search_query", PStr (AnalyticsApi.header req "X-Search-Query"));
      ("city", PStr (AnalyticsApi.header req "X-City"));
      ("state", PStr (AnalyticsApi.header req "X-State"));
      ("source", PStr "click") ].

Definition view_entry (session device : string) (provider_id now : Z)
  : gmap string pyval :=
  list_to_map
    [ ("event", PStr "provider_view"); ("provider_id", PInt provider_id);
      ("session_id", PStr session); ("device_id", PStr device);
      ("ts", PInt now) ].

(** Whether the worker counts the click of a type as a conversion. *)
Definition counted_click (click_type : string) : bool :=
  (String.eqb click_type "phone" || String.eqb click_type "website")%bool.

(** A providers table that holds provider 42 and no other. *)
Definition only_provider_42 (provider_id : Z) : option pyval :=
  if provider_id =? 42
  then Some (PDict [ ("id", PInt 42); ("name", PStr "Bright Steps ABA") ])
  else None.

(** The entry of a view of provider 42 as the worker reads it. *)
Definition view_of_42_read : gmap string string :=
  list_to_map
    [ ("event", "provider_view"); ("provider_id", "42");
      ("session_id", "6c1e"); ("device_id", "5f0c"); ("ts", "0") ]%string.

(** A click on the e-mail address of provider 42, and its entry as the
    worker reads it. *)
Definition email_click : AnalyticsApi.ClickEvent :=
  {| AnalyticsApi.ce_provider_id := 42; AnalyticsApi.click_type := "email" |}.

Definition email_click_read : gmap string string :=
  list_to_map
    [ ("event", "provider_email_click"); ("provider_id", "42");
      ("session_id", "unknown"); ("high_value", "1"); ("ts", "0");
      ("search_query", ""); ("city", ""); ("state", "");
      ("source", "click") ]%string.

(* ================================================================== *)
(** * The keyword handlers of the search API                           *)
(* ================================================================== *)

(** app/api/v1/search.py, [basic] and [fuzzy], with
    [SearchService.basic_search] and [fuzzy_search] of
    app/services/search.py. *)
Module SearchApiKeyword.

Import SearchApi.

Section Env.

Variable py_str : pyval -> string.
Variable payload_digest : list (string * pyval) -> string.

(** [ProviderRepository.search_basic(query, limit)] and
    [search_fuzzy(query, limit)] against the providers table as it
    stands. *)
Variable search_basic : string -> Z -> list Provider.
Variable search_fuzzy : string -> Z -> list Provider.

(** [results[:limit]] of the repository's answer. *)
Definition basic_search (query : string) (limit : Z) : list Provider :=
  take (Z.to_nat limit) (search_basic query limit).

Definition fuzzy_search (query : string) (limit : Z) : list Provider :=
  take (Z.to_nat limit) (search_fuzzy query limit).

(** The handler of [GET /search/basic].  FastAPI has checked that [q]
    has 2 to 100 characters and [1 <= limit <= 100] before the body
    runs. *)
Definition basic (req : request) (q : string) (limit : Z)
    (rf : redis_faults) (f : faults) (now : Z) (b : backend)
  : backend * result pyval :=
  let cache_payload := [ ("q", PStr q); ("limit", PInt limit) ] in
  let cached :=
    cache_get payload_digest "search:basic" cache_payload rf now (b_redis b) in
  let '(results, b1) :=
    match cached with
    | PNone =>
        let results := PList (map PProvider (basic_search q limit)) in
        (results,
         {| b_db := b_db b;
            b_redis := cache_set py_str payload_digest "search:basic"
                         cache_payload results rf now (b_redis b);
            b_queries := S (b_queries b) |})
    | hit => (hit, b)            (* cached is not None *)
    end in
  match len results with
  | Raise e => (b1, Raise e)
  | Ok count =>
      match AnalyticsApi.track_search_result py_str req
              {| AnalyticsApi.query := Some q;
                 AnalyticsApi.sr_city := None;
                 AnalyticsApi.sr_state := None;
                 AnalyticsApi.radius_miles := None;
                 AnalyticsApi.results_count := count |}
              rf f now b1 with
      | (b2, Raise e) => (b2, Raise e)
      | (b2, Ok _) => (b2, Ok results)
      end
  end.

(** The handler of [GET /search/fuzzy], with the same checks. *)
Definition fuzzy (req : request) (q : string) (limit : Z)
    (rf : redis_faults) (f : faults) (now : Z) (b : backend)
  : backend * result pyval :=
  let cache_payload := [ ("q", PStr q); ("limit", PInt limit) ] in
  let cached :=
    cache_get payload_digest "search:fuzzy" cache_payload rf now (b_redis b) in
  let '(results, b1) :=
    match cached with
    | PNone =>
        let results := PList (map PProvider (fuzzy_search q limit)) in
        (results,
         {| b_db := b_db b;
            b_redis := cache_set py_str payload_digest "search:fuzzy"
                         cache_payload results rf now (b_redis b);
            b_queries := S (b_queries b) |})
    | hit => (hit, b)            (* cached is not None *)
    end in
  match len results with
  | Raise e => (b1, Raise e)
  | Ok count =>
      match AnalyticsApi.track_search_result py_str req
              {| AnalyticsApi.query := Some q;
                 AnalyticsApi.sr_city := None;
                 AnalyticsApi.sr_state := None;
                 AnalyticsApi.radius_miles := None;
                 AnalyticsApi.results_count := count |}
              rf f now b1 with
      | (b2, Raise e) => (b2, Raise e)
      | (b2, Ok _) => (b2, Ok results)
      end
  end.

End Env.

End SearchApiKeyword.

(** ** Vocabulary for these *)

(** The prefixes under which the three handlers of the search API keep
    their answers. *)
Definition SEARCH_PREFIXES : list string :=
  ["search:basic"; "search:fuzzy"; "search:nearby"].

(** What the two keyword handlers share: the cache prefix and the search
    of the service are all that tells them apart. *)
Definition keyword_handler (py_str : pyval -> string)
    (payload_digest : list (string * pyval) -> string)
    (prefix : string) (search : string -> Z -> list Provider)
    (req : request) (q : string) (limit : Z)
    (rf : redis_faults) (f : faults) (now : Z) (b : backend)
  : backend * result pyval :=
  let cache_payload := [ ("q", PStr q); ("limit", PInt limit) ] in
  let cached :=
    SearchApi.cache_get payload_digest prefix cache_payload rf now
      (b_redis b) in
  let '(results, b1) :=
    match cached with
    | PNone =>
        let results := PList (map PProvider (search q limit)) in
        (results,
         {| b_db := b_db b;
            b_redis := SearchApi.cache_set py_str payload_digest prefix
                         cache_payload results rf now (b_redis b);
            b_queries := S (b_queries b) |})
    | hit => (hit, b)
    end in
  match len results with
  | Raise e => (b1, Raise e)
  | Ok count =>
      match AnalyticsApi.track_search_result py_str req
              {| AnalyticsApi.query := Some q;
                 AnalyticsApi.sr_city := None;
                 AnalyticsApi.sr_state := None;
                 AnalyticsApi.radius_miles := None;
                 AnalyticsApi.results_count := count |}
              rf f now b1 with
      | (b2, Raise e) => (b2, Raise e)
      | (b2, Ok _) => (b2, Ok results)
      end
  end.

(** A handler of the search API leaves the entries of the other two as
    they were: whatever is looked up under another prefix reads the same
    before and after. *)
Definition keeps_other_entries
    (payload_digest : list (string * pyval) -> string)
    (prefix : string) (before after : redis) : Prop :=
  forall prefix' payload rf now,
    prefix' ∈ SEARCH_PREFIXES -> prefix' <> prefix ->
    SearchApi.cache_get payload_digest prefix' payload rf now after
    = SearchApi.cache_get payload_digest prefix' payload rf now before.

(** A providers table in which every keyword search finds three
    providers. *)
Definition listed_provider (id : Z) (name : string) : Provider :=
  {| prov_id := id;
     prov_name := name;
     prov_phone := None;
     prov_email := None;
     prov_website := None;
     prov_street := None;
     prov_city := Some "Miami";
     prov_state := Some "FL";
     prov_zip := None;
     prov_full_address := None;
     prov_latitude := None;
     prov_longitude := None;
     prov_services := Some "ABA";
     prov_distance_miles := None |}.

Definition three_providers (query : string) (limit : Z) : list Provider :=
  [ listed_provider 1 "Bright Steps ABA";
    listed_provider 2 "Bright Minds ABA";
    listed_provider 3 "Bright Path ABA" ].

(* ================================================================== *)
(** * The read side of the analytics API                                *)
(* ================================================================== *)

(** app/api/v1/analytics.py: the cache helpers, the column detection and
    [providers_top]. *)
Module AnalyticsReads.

Definition CACHE_TTL : Z := 30.

Section Env.

Variable py_str : pyval -> string.

(** The object that the call [get_db()] returns in this module, as in the
    worker: the import binds it to [Db.get_db]. *)
Variable get_db : db_object.

(** [information_schema.columns]: the column names of a table. *)
Variable table_columns : string -> gset string.

(** The rows of the two [SELECT ... LIMIT %s] of [providers_top]: the
    one over [total_views], [total_phone_clicks] and
    [total_website_clicks] when the flag is set, the one over [views] and
    [conversions] when it is not. *)
Variable top_rows : bool -> Z -> list pyval.

(** [cache_get(key)]: [json.loads(val) if val else None], and [None]
    when the read raises. *)
Definition cache_get (key : string) (rf : redis_faults) (now : Z) (r : redis)
  : pyval :=
  match Redis.get key rf now r with
  | Ok (Some doc) => json_loads doc
  | Ok None => PNone
  | Raise _ => PNone
  end.

Definition cache_set (key : string) (payload : pyval) (rf : redis_faults)
    (now : Z) (r : redis) : redis :=
  (setex key CACHE_TTL (json_dumps_default_str py_str payload) rf now r).1.

Definition _load_table_cols (table_name : string) (f : faults)
  : result (gset string) :=
  _ <- cursor get_db f ;;
  if execute_fails f then Raise DatabaseError
  else Ok (table_columns table_name).

(** [provider_stats_cols()]: the module global [_PROVIDER_STATS_COLS] is
    passed in and handed back. *)
Definition provider_stats_cols (f : faults) (cols : option (gset string))
  : option (gset string) * result (gset string) :=
  match cols with
  | Some known => (cols, Ok known)
  | None =>
      match _load_table_cols "provider_stats" f with
      | Ok loaded => (Some loaded, Ok loaded)
      | Raise e => (None, Raise e)
      end
  end.

(** The handler of [GET /analytics/providers/top]; the state is the
    backend with the global [_PROVIDER_STATS_COLS].  [b_queries] counts
    the runs of the ranking query. *)
Definition providers_top (limit : Z) (rf : redis_faults) (f : faults)
    (now : Z) (st : backend * option (gset string))
  : (backend * option (gset string)) * result pyval :=
  let '(b, cols) := st in
  if ((limit <? 1) || (limit >? 200))%bool
  then (st, Raise (HTTPException 400))
  else
    let cache_key :=
      ("analytics:providers:top:" ++ py_str (PInt limit))%string in
    let cached := cache_get cache_key rf now (b_redis b) in
    if truthy cached then (st, Ok cached)
    else
      match provider_stats_cols f cols with
      | (cols', Raise e) => ((b, cols'), Raise e)
      | (cols', Ok pcols) =>
          match cursor get_db f with
          | Raise e => ((b, cols'), Raise e)
          | Ok _ =>
              let totals :=
                bool_decide
                  (({[ "total_views"; "total_phone_clicks";
                       "total_website_clicks" ]} : gset string) ⊆ pcols) in
              if execute_fails f then ((b, cols'), Raise DatabaseError)
              else
                let rows := top_rows totals limit in
                let payload :=
                  PDict [ ("limit", PInt limit); ("items", PList rows) ] in
                (({| b_db := b_db b;
                     b_redis := cache_set cache_key payload rf now (b_redis b);
                     b_queries := S (b_queries b) |}, cols'),
                 Ok payload)
          end
      end.

End Env.

End AnalyticsReads.

(** ** Vocabulary for these *)

(** The columns of [provider_stats] that the worker writes. *)
Definition worker_columns (table_name : string) : gset string :=
  {[ "provider_id"; "views"; "searches"; "conversions"; "last_event_at" ]}.

(** A ranking of one provider. *)
Definition ranked_row : pyval :=
  PDict [ ("id", PInt 1); ("name", PStr "Bright Steps ABA");
          ("city", PStr "Miami"); ("state", PStr "FL");
          ("services", PStr "ABA"); ("views", PInt 12);
          ("conversions", PInt 3) ].

Definition one_ranked (totals : bool) (limit : Z) : list pyval :=
  [ranked_row].

(** [str] of an integer is needed for the key of the ranking; the
    closed examples ask for the default 25. *)
Definition ranking_str (v : pyval) : string :=
  match v with
  | PInt 25 => "25"
  | other => plain_str other
  end.

(* ================================================================== *)
(** * Properties of the intent scorers                                 *)
(* ================================================================== *)

Section IntentScoring.

Local Open Scope Q_scope.

Lemma live_base_bounds key :
  0.2 <= IntentModel.table_get IntentModel.base_scores key 0.3 <= 0.95.
Proof.
  unfold IntentModel.base_scores. cbn [IntentModel.table_get].
  repeat (destruct (String.eqb _ key); [split; lra|]). split; lra.
Qed.

Lemma archive_base_bounds key :
  0.1 <= IntentModel.table_get ArchiveIntent.base_scores key 0.1 <= 0.95.
Proof.
  unfold ArchiveIntent.base_scores. cbn [IntentModel.table_get].
  repeat (destruct (String.eqb _ key); [split; lra|]). split; lra.
Qed.

(** [min(score, 1.0)] of a non-negative score. *)
Lemma cap_bounds (x : Q) : 0 <= x -> in_unit_interval (Qmin x 1.0).
Proof.
  intros H. split.
  - apply Q.min_glb; lra.
  - apply Qle_trans with 1.0; [apply Q.le_min_r | lra].
Qed.

(** [max(0.0, min(1.0, score))] of any score. *)
Lemma clamp_bounds (x : Q) : in_unit_interval (Qmax 0.0 (Qmin 1.0 x)).
Proof.
  split.
  - apply Qle_trans with 0.0; [lra | apply Q.le_max_l].
  - apply Q.max_lub; [lra|].
    apply Qle_trans with 1.0; [apply Q.le_min_l | lra].
Qed.

Lemma lt_num_numeric md key dflt n :
  numeric_or_absent md key = true -> is_ok (as_number dflt) = true ->
  exists b, lt_num (dict_get md key dflt) n = Ok b.
Proof.
  unfold numeric_or_absent, dict_get, lt_num. intros H Hd.
  destruct (md !! key) as [v|].
  - destruct (as_number v); [eauto | discriminate].
  - destruct (as_number dflt); [eauto | discriminate].
Qed.

Lemma le_num_numeric md key dflt n :
  numeric_or_absent md key = true -> is_ok (as_number dflt) = true ->
  exists b, le_num (dict_get md key dflt) n = Ok b.
Proof.
  unfold numeric_or_absent, dict_get, le_num. intros H Hd.
  destruct (md !! key) as [v|].
  - destruct (as_number v); [eauto | discriminate].
  - destruct (as_number dflt); [eauto | discriminate].
Qed.

Lemma query_lower_str md :
  str_or_absent md "query" = true ->
  exists q, ArchiveIntent.query_lower md = Ok q.
Proof.
  unfold str_or_absent, ArchiveIntent.query_lower, dict_get.
  destruct (md !! "query") as [[]|]; try discriminate; eauto.
Qed.

Lemma well_typed_fields md :
  well_typed_metadata md = true ->
  numeric_or_absent md "result_count" = true
  /\ numeric_or_absent md "response_ms" = true
  /\ numeric_or_absent md "radius" = true
  /\ str_or_absent md "query" = true.
Proof.
  unfold well_typed_metadata. rewrite !andb_true_iff. tauto.
Qed.

Lemma live_in_range kind md :
  well_typed_metadata md = true ->
  returns_unit_score (IntentModel.score_intent kind md).
Proof.
  intros (H1 & H2 & H3 & _)%well_typed_fields.
  unfold returns_unit_score, IntentModel.score_intent.
  pose proof (live_base_bounds kind) as [Hlo Hhi].
  set (base := IntentModel.table_get _ _ _) in *.
  destruct (lt_num_numeric md "result_count" (PInt 0) 10 H1 eq_refl) as [b1 E1].
  destruct (lt_num_numeric md "response_ms" (PInt 0) 100 H2 eq_refl) as [b2 E2].
  destruct (le_num_numeric md "radius" (PInt 25) 10 H3 eq_refl) as [b3 E3].
  destruct (dict_truthy md); cbn [bind].
  - unfold IntentModel.and_then. rewrite E2.
    destruct (String.eqb kind "search");
      destruct (String.eqb kind "nearby_search");
      rewrite ?E1, ?E3; cbn [bind];
      eexists; (split; [reflexivity|]); apply cap_bounds;
      destruct b1, b2, b3; lra.
  - eexists; split; [reflexivity|]. apply cap_bounds. lra.
Qed.

Lemma archive_in_range kind md :
  well_typed_metadata md = true ->
  returns_unit_score (ArchiveIntent.score_intent kind md).
Proof.
  intros (_ & H2 & _ & H4)%well_typed_fields.
  unfold returns_unit_score, ArchiveIntent.score_intent.
  destruct (query_lower_str md H4) as [q ->]. cbn [bind].
  destruct (lt_num_numeric md "response_ms" (PInt 99999) 5000 H2 eq_refl)
    as [b ->].
  cbn [bind]. eexists; split; [reflexivity | apply clamp_bounds].
Qed.

(** The live scorer raises on a value that is not a number. *)
Example live_type_error :
  IntentModel.score_intent "search" {[ "response_ms" := PStr "fast" ]}
  = Raise TypeError.
Proof. vm_compute. reflexivity. Qed.

End IntentScoring.

Section IntentClaims.

Local Open Scope Q_scope.

(** C4, the claim as stated fails: a metadata mapping may hold a string
    where the scorer compares with a number, and the comparison raises
    instead of returning a score. *)
Lemma C4_counterexample :
  ~ returns_unit_score
      (IntentModel.score_intent "search" {[ "response_ms" := PStr "fast" ]}).
Proof.
  intros (s & H & _). rewrite live_type_error in H. discriminate.
Qed.

(** C4, amended: for every event kind, recognized or not, and every
    metadata mapping in which [result_count], [response_ms] and [radius],
    where present, are numbers and [query], where present, is a string,
    [score_intent] returns a score in the closed interval [0,1]; this holds
    for the scorer in use and for the archived one. *)
Theorem C4_score_in_unit_interval (kind : string) (md : gmap string pyval) :
  well_typed_metadata md = true ->
  returns_unit_score (IntentModel.score_intent kind md)
  /\ returns_unit_score (ArchiveIntent.score_intent kind md).
Proof.
  intros H. split; [apply live_in_range | apply archive_in_range]; exact H.
Qed.

(** The amended C4 at a search with a query and three results. *)
Lemma C4_witness :
  let md : gmap string pyval :=
    <["query" := PStr "aba near me"]> {[ "result_count" := PInt 3 ]} in
  well_typed_metadata md = true
  /\ returns_unit_score (IntentModel.score_intent "search" md)
  /\ returns_unit_score (ArchiveIntent.score_intent "search" md).
Proof.
  intros md.
  assert (H : well_typed_metadata md = true) by (vm_compute; reflexivity).
  split; [exact H | exact (C4_score_in_unit_interval "search" md H)].
Defined.

Lemma insert_truthy (md : gmap string pyval) key v :
  dict_truthy (<[key := v]> md) = true.
Proof.
  unfold dict_truthy. apply negb_true_iff, Nat.eqb_neq.
  intros H%map_size_empty_iff. exact (insert_non_empty _ _ _ H).
Qed.

Lemma get_insert_other (md : gmap string pyval) key key' v dflt :
  key <> key' -> dict_get (<[key := v]> md) key' dflt = dict_get md key' dflt.
Proof. intros H. unfold dict_get. by rewrite lookup_insert_ne. Qed.

(** The scorer in use never looks at the query. *)
Lemma live_ignores_query kind (md : gmap string pyval) q1 q2 :
  IntentModel.score_intent kind (<["query" := q1]> md)
  = IntentModel.score_intent kind (<["query" := q2]> md).
Proof.
  unfold IntentModel.score_intent.
  rewrite !insert_truthy, !get_insert_other by discriminate. reflexivity.
Qed.

(** The archived scorer on metadata that holds a query and nothing else. *)
Lemma archive_query_only kind q :
  ArchiveIntent.score_intent kind {[ "query" := PStr q ]}
  = let query := lower q in
    let score := IntentModel.table_get ArchiveIntent.base_scores kind 0.1 in
    let score :=
      if any_in ["asap"; "urgent"; "emergency"; "immediate"; "now"] query
      then score + 0.2 else score in
    let score :=
      if any_in ["best"; "top"; "rated"; "reviews"] query
      then score + 0.1 else score in
    let score :=
      if any_in ["aba"; "bcba"; "board certified"] query
      then score + 0.15 else score in
    let score :=
      if any_in ["cheap"; "affordable"; "free"] query
      then score - 0.1 else score in
    Ok (Qmax 0.0 (Qmin 1.0 score)).
Proof.
  unfold ArchiveIntent.score_intent, ArchiveIntent.query_lower, dict_get.
  rewrite lookup_singleton_eq.
  rewrite !lookup_singleton_ne by discriminate. reflexivity.
Qed.

Ltac eval_flags :=
  repeat match goal with
    | |- context [any_in ?l ?s] =>
        let b := eval vm_compute in (any_in l s) in
        replace (any_in l s) with b by (vm_compute; reflexivity)
    end.

Lemma archive_urgent kind :
  ArchiveIntent.score_intent kind {[ "query" := urgent_query ]}
  = Ok (Qmax 0.0 (Qmin 1.0
          (IntentModel.table_get ArchiveIntent.base_scores kind 0.1
             + 0.2 + 0.15))).
Proof.
  unfold urgent_query. rewrite archive_query_only.
  replace (lower "urgent aba therapy") with "urgent aba therapy"%string
    by (vm_compute; reflexivity).
  cbv zeta. eval_flags. reflexivity.
Qed.

Lemma archive_cheap kind :
  ArchiveIntent.score_intent kind {[ "query" := cheap_query ]}
  = Ok (Qmax 0.0 (Qmin 1.0
          (IntentModel.table_get ArchiveIntent.base_scores kind 0.1 - 0.1))).
Proof.
  unfold cheap_query. rewrite archive_query_only.
  replace (lower "cheap therapy") with "cheap therapy"%string
    by (vm_compute; reflexivity).
  cbv zeta. eval_flags. reflexivity.
Qed.

(** C5, the claim as stated fails on the scorer in use: two search events
    that differ only in the query get the same score. *)
Lemma C5_counterexample :
  ~ scores_strictly_above IntentModel.score_intent "search"
      {[ "query" := urgent_query ]} {[ "query" := cheap_query ]}.
Proof.
  intros (s1 & s2 & H1 & H2 & Hlt).
  vm_compute in H1, H2. injection H1 as <-. injection H2 as <-.
  revert Hlt. apply Qlt_irrefl.
Qed.

(** C5, amended: for two events of the same kind whose metadata differ
    only in the query, "urgent aba therapy" against "cheap therapy", the
    scorer in use gives both the same result, since it does not read the
    query; the archived scorer gives the urgent event the strictly greater
    score when the events carry no other metadata. *)
Theorem C5_query_ordering (kind : string) (md : gmap string pyval) :
  IntentModel.score_intent kind (<["query" := urgent_query]> md)
  = IntentModel.score_intent kind (<["query" := cheap_query]> md)
  /\ scores_strictly_above ArchiveIntent.score_intent kind
       {[ "query" := urgent_query ]} {[ "query" := cheap_query ]}.
Proof.
  split; [apply live_ignores_query|].
  unfold scores_strictly_above.
  rewrite archive_urgent, archive_cheap.
  pose proof (archive_base_bounds kind) as [Hlo Hhi].
  set (base := IntentModel.table_get _ _ _) in *.
  do 2 eexists. split; [reflexivity|]. split; [reflexivity|].
  destruct (Q.min_spec 1.0 (base + 0.2 + 0.15)) as [[? ->]|[? ->]];
  destruct (Q.min_spec 1.0 (base - 0.1)) as [[? ->]|[? ->]];
  repeat match goal with
    | |- context [Qmax ?a ?b] =>
        destruct (Q.max_spec a b) as [[? ->]|[? ->]]
    end; lra.
Qed.

End IntentClaims.

(* ================================================================== *)
(** * Properties of identity stitching                                 *)
(* ================================================================== *)

Section Stitching.

Import IdentityStitching.

Lemma set_user_id_not_anonymous session user row :
  is_anonymous_of session (set_user_id user row) = false.
Proof. unfold is_anonymous_of. cbn. by destruct (ua_session_id row). Qed.

(** After the update no row of the session is anonymous. *)
Lemma none_anonymous_after_update session user (rows : list activity_row) :
  filter (fun row => is_anonymous_of session row = true)
    (map (fun row => if is_anonymous_of session row
                     then set_user_id user row else row) rows) = [].
Proof.
  induction rows as [|row rows IH]; [reflexivity|].
  cbn [map]. destruct (is_anonymous_of session row) eqn:E.
  - rewrite filter_cons_False; [exact IH|].
    rewrite set_user_id_not_anonymous. discriminate.
  - rewrite filter_cons_False; [exact IH|]. rewrite E. discriminate.
Qed.

(** The update leaves a table without anonymous rows of the session as
    it is. *)
Lemma update_without_anonymous session user (rows : list activity_row) :
  filter (fun row => is_anonymous_of session row = true) rows = [] ->
  map (fun row => if is_anonymous_of session row
                  then set_user_id user row else row) rows = rows.
Proof.
  induction rows as [|row rows IH]; [reflexivity|].
  intros H. cbn [map]. destruct (is_anonymous_of session row) eqn:E.
  - rewrite filter_cons_True in H by exact E. discriminate.
  - rewrite filter_cons_False in H by (rewrite E; discriminate).
    by rewrite IH.
Qed.

(** The rows the update touches are the anonymous rows of the session,
    and it gives each of them the user. *)
Lemma update_row_by_row session user (d : store) (i : nat) row :
  user_activity d !! i = Some row ->
  user_activity (update_user_id user session d).1 !! i
  = Some (if is_anonymous_of session row then set_user_id user row else row).
Proof.
  intros H. cbn. by rewrite list_lookup_fmap, H.
Qed.

(** On a connection that works, the merge reassigns the anonymous rows of
    the session, returns their number, and a second merge changes nothing
    and returns 0. *)
Lemma merge_on_connection session user (d : store) :
  let '(d1, r1) :=
    merge_anonymous_history_into_user session user (Some Connection)
      no_faults d in
  d1 = (update_user_id user session d).1
  /\ r1 = Ok (anonymous_count session d)
  /\ merge_anonymous_history_into_user session user (Some Connection)
       no_faults d1 = (d1, Ok 0).
Proof.
  cbn. split; [reflexivity|]. split; [reflexivity|].
  unfold merge_anonymous_history_into_user, execute_and_commit, update_user_id.
  cbn. rewrite none_anonymous_after_update. cbn.
  rewrite update_without_anonymous by apply none_anonymous_after_update.
  reflexivity.
Qed.

(** The merge returns a count whatever happens: no exception reaches the
    caller. *)
Lemma merge_never_raises session user conn f d :
  exists n, (merge_anonymous_history_into_user session user conn f d).2 = Ok n.
Proof.
  unfold merge_anonymous_history_into_user.
  destruct (execute_and_commit _ _ _ _) as [d' [n|e]]; cbn; eauto.
Qed.

(** C2: scenario 3 of the specification run against the function as it is
    called there, without a connection.  The store holds two anonymous
    rows of session ["anon-1"], so the claim asks for the count 2; the
    fallback [conn = get_db()] binds the context manager, [conn.cursor]
    raises, the handler returns 0 and no row is reassigned. *)
Theorem C2_merge_without_connection :
  anonymous_count "anon-1" two_anonymous_rows = 2
  /\ merge_anonymous_history_into_user "anon-1" 7 None no_faults
       two_anonymous_rows
     = (two_anonymous_rows, Ok 0)
  /\ (forall session user f d,
        merge_anonymous_history_into_user session user None f d = (d, Ok 0)).
Proof.
  split; [reflexivity|]. split; [reflexivity|].
  intros session user f d.
  unfold merge_anonymous_history_into_user, execute_and_commit, get_db, cursor.
  reflexivity.
Qed.

(** C7: if any call of the merge raises, the committed tables are what
    they were before the call, the merge returns 0, and nothing is raised
    to the caller. *)
Theorem C7_merge_error_returns_zero
    (session : string) (user : Z) (conn : option db_object) (f : faults)
    (d : store) :
  merge_error conn f = true ->
  merge_anonymous_history_into_user session user conn f d = (d, Ok 0).
Proof.
  unfold merge_error, merge_connection, merge_anonymous_history_into_user,
    execute_and_commit.
  intros H.
  destruct (cursor _ f) as [[]|e]; [|reflexivity].
  cbn in H. destruct (execute_fails f); [reflexivity|].
  cbn in H. rewrite H. reflexivity.
Qed.

(** C7 at scenario 3 with an [execute] that raises. *)
Lemma C7_witness :
  merge_error (Some Connection) execute_raises = true
  /\ merge_anonymous_history_into_user "anon-1" 7 (Some Connection)
       execute_raises two_anonymous_rows
     = (two_anonymous_rows, Ok 0).
Proof.
  split; [reflexivity|].
  apply (C7_merge_error_returns_zero "anon-1" 7 (Some Connection)
           execute_raises two_anonymous_rows).
  reflexivity.
Defined.

End Stitching.

(* ================================================================== *)
(** * Properties of the pipeline worker                                *)
(* ================================================================== *)

Section WorkerProperties.

Import AnalyticsWorker.

Variable py_int : string -> result Z.

(** ** [update_provider_stats] *)

Lemma untracked_increments kind :
  is_tracked_signal kind = false ->
  String.eqb kind "provider_view" = false
  /\ (String.eqb kind "provider_phone_click" || String.eqb kind "phone_click")
     = false
  /\ (String.eqb kind "provider_website_click" || String.eqb kind "website_click")
     = false.
Proof.
  unfold is_tracked_signal. cbn [existsb].
  rewrite !orb_false_iff. tauto.
Qed.

Lemma blank_provider_id (raw : option string) :
  raw = None \/ raw = Some ""%string \/ raw = Some "null"%string ->
  provider_id_blank raw = true.
Proof. intros [-> | [-> | ->]]; reflexivity. Qed.

(** C10: for an entry whose kind is not a view, phone-click or
    website-click signal, or whose [provider_id] is absent, empty, the
    string ["null"] or a string on which [int] raises,
    [update_provider_stats] returns without a statement: the store it
    leaves is the store it found, whatever [int] accepts, whatever
    connection [get_db] gives and whatever the driver would do. *)
Theorem C10_untracked_entry_writes_nothing
    (conn : db_object) (ev : gmap string string) (f : faults) (now : Z)
    (d : store) :
  is_tracked_signal (default ""%string (event_kind ev)) = false
  \/ provider_id_unusable py_int (ev !! "provider_id") ->
  update_provider_stats conn py_int ev f now d = (d, Ok tt).
Proof.
  unfold update_provider_stats, provider_id_unusable.
  intros [Hkind | Hid].
  - destruct (provider_id_blank _); [reflexivity|].
    destruct (int_of_optional _ _); [|reflexivity].
    destruct (untracked_increments _ Hkind) as (-> & -> & ->). reflexivity.
  - destruct Hid as [H | [H | [H | (s & H & Hs)]]];
      try (rewrite (blank_provider_id (ev !! "provider_id")) by tauto;
           reflexivity).
    rewrite H. cbn [int_of_optional].
    destruct (provider_id_blank _); [reflexivity|].
    destruct (py_int s); [discriminate | reflexivity].
Qed.

(** ** One entry *)

Lemma execute_and_commit_raise conn f sql (d : store) e :
  (execute_and_commit conn f sql d).2 = Raise e ->
  (execute_and_commit conn f sql d).1 = d.
Proof.
  unfold execute_and_commit.
  destruct (cursor conn f); [|reflexivity].
  destruct (execute_fails f); [reflexivity|].
  destruct (sql d) as [d' n].
  destruct (commit_fails f); [reflexivity | discriminate].
Qed.

Lemma execute_and_commit_ok conn f sql (d : store) n :
  (execute_and_commit conn f sql d).2 = Ok n ->
  (execute_and_commit conn f sql d).1 = (sql d).1 /\ conn = Connection.
Proof.
  unfold execute_and_commit, cursor.
  destruct conn; [|discriminate].
  destruct (cursor_fails f); [discriminate|].
  destruct (execute_fails f); [discriminate|].
  destruct (sql d) as [d' n'].
  destruct (commit_fails f); [discriminate|].
  cbn. intros _. split; reflexivity.
Qed.

Lemma persist_raise conn ev f now d e :
  (persist_user_activity conn ev f now d).2 = Raise e ->
  (persist_user_activity conn ev f now d).1 = d.
Proof.
  unfold persist_user_activity.
  pose proof (execute_and_commit_raise conn f
                (insert_user_activity (row_of_entry ev now)) d) as H.
  fold (row_of_entry ev now).
  destruct (execute_and_commit _ _ _ _) as [d' [n|e']]; cbn in *;
    [discriminate|]. intros _. by apply (H e').
Qed.

Lemma persist_ok conn ev f now d :
  (persist_user_activity conn ev f now d).2 = Ok tt ->
  (persist_user_activity conn ev f now d).1
  = (insert_user_activity (row_of_entry ev now) d).1.
Proof.
  unfold persist_user_activity. fold (row_of_entry ev now).
  pose proof (execute_and_commit_ok conn f
                (insert_user_activity (row_of_entry ev now)) d) as H.
  destruct (execute_and_commit _ _ _ _) as [d' [n|e']]; cbn in *;
    [|discriminate].
  intros _. destruct (H n eq_refl) as [<- _]. reflexivity.
Qed.


(** The statistics statement touches [provider_stats] only, and no
    counter goes down. *)
Lemma upsert_monotone provider views_inc conversions_inc now (d : store) :
  0 <= views_inc -> 0 <= conversions_inc ->
  user_activity (upsert_provider_stats provider views_inc conversions_inc
                   now d).1 = user_activity d
  /\ counters_not_below (provider_stats d)
       (provider_stats (upsert_provider_stats provider views_inc
                          conversions_inc now d).1).
Proof.
  intros Hv Hc. split; [reflexivity|].
  intros q old Hq. cbn.
  destruct (decide (provider = q)) as [->|Hne].
  - rewrite lookup_insert_eq, Hq. eexists. split; [reflexivity|]. cbn. lia.
  - rewrite lookup_insert_ne by exact Hne. exists old. split; [exact Hq|]. lia.
Qed.

Lemma counters_not_below_refl stats : counters_not_below stats stats.
Proof. intros q old Hq. exists old. split; [exact Hq | lia]. Qed.

Lemma update_monotone conn ev f now d :
  user_activity (update_provider_stats conn py_int ev f now d).1
  = user_activity d
  /\ counters_not_below (provider_stats d)
       (provider_stats (update_provider_stats conn py_int ev f now d).1).
Proof.
  unfold update_provider_stats.
  pose proof (counters_not_below_refl (provider_stats d)) as Hrefl.
  destruct (provider_id_blank _); [by split|].
  destruct (int_of_optional _ _) as [p|]; [|by split].
  match goal with |- context [if ?c then _ else _] => destruct c end;
    [by split|].
  match goal with
  | |- context [execute_and_commit conn f ?sql d] =>
      pose proof (execute_and_commit_raise conn f sql d) as Hr;
      pose proof (execute_and_commit_ok conn f sql d) as Ho;
      destruct (execute_and_commit conn f sql d) as [d' [n|e']] eqn:E
  end; cbn in *.
  - destruct (Ho n eq_refl) as [Hsql _]. rewrite Hsql.
    apply upsert_monotone;
      repeat match goal with |- context [if ?c then _ else _] => destruct c end;
      lia.
  - rewrite (Hr e' eq_refl). by split.
Qed.

(** Processing one entry never lowers a counter of [provider_stats],
    whatever the connection and whatever raises. *)
Lemma process_entry_monotone conn message_id ev f now w :
  counters_not_below (provider_stats (db w))
    (provider_stats (db (process_entry conn py_int message_id ev f now w).1)).
Proof.
  unfold process_entry.
  pose proof (persist_raise conn ev (persist_faults f) now (db w)) as Hr.
  pose proof (persist_ok conn ev (persist_faults f) now (db w)) as Ho.
  destruct (persist_user_activity _ _ _ _ _) as [d1 [[]|e]]; cbn in *.
  - rewrite (Ho eq_refl).
    pose proof (update_monotone conn ev (stats_faults f) now
                  (insert_user_activity (row_of_entry ev now) (db w)).1)
      as [_ Hm].
    destruct (update_provider_stats _ py_int _ _ _ _) as [d2 [[]|e]]; cbn in *.
    + destruct (xack _ _ _). exact Hm.
    + exact Hm.
  - rewrite (Hr e eq_refl). apply counters_not_below_refl.
Qed.

(** On a connection that works, the view of a provider is recorded: one
    row more in [user_activity], the row of the entry, the [views] of
    the provider one higher (its row made on the way if it had none), and
    the entry acknowledged. *)
Lemma view_recorded_on_connection message_id (ev : gmap string string)
    (raw : string) (provider : Z) now w :
  event_kind ev = Some "provider_view"%string ->
  ev !! "provider_id" = Some raw ->
  provider_id_blank (Some raw) = false ->
  py_int raw = Ok provider ->
  let w' := (process_entry Connection py_int message_id ev healthy now w).1 in
  user_activity (db w') = user_activity (db w) ++ [row_of_entry ev now]
  /\ views_of (provider_stats (db w')) provider
     = views_of (provider_stats (db w)) provider + 1
  /\ pending w' = pending w ∖ {[ message_id ]}.
Proof.
  intros Hkind Hraw Hblank Hint.
  unfold process_entry, persist_user_activity, update_provider_stats.
  fold (row_of_entry ev now). rewrite Hkind, Hraw, Hblank. cbn.
  rewrite Hint. cbn. split; [reflexivity|]. split; [|reflexivity].
  unfold views_of. rewrite lookup_insert_eq.
  destruct (provider_stats (db w) !! provider); cbn; lia.
Qed.


(** The worker as it stands: [persist_user_activity] binds [conn] to
    what [get_db()] of db/connection.py returns, the context manager;
    [conn.cursor()] raises [AttributeError] before any statement, for every
    entry, and the handler of [run] prints it. *)
Lemma shipped_entry_raises message_id ev f now w :
  process_entry get_db py_int message_id ev f now w
  = (w, {| persisted := Raise AttributeError; updated := None;
           acked := None |}).
Proof. destruct w as [d p]. reflexivity. Qed.


(** C3: scenario 1 of the specification run against the worker as it
    stands.  [persist_user_activity] binds [conn] to what [get_db()]
    returns, the context manager of db/connection.py; [conn.cursor()]
    raises [AttributeError], the handler of [run] prints it, and the
    entry leaves no row in [user_activity], no change in [provider_stats]
    and no acknowledgement, where the claim asks for one row and one view
    more. *)
Theorem C3_view_not_recorded (now : Z) :
  process_entry get_db py_int "1-0" view_event healthy now delivered
  = (delivered,
     {| persisted := Raise AttributeError; updated := None; acked := None |})
  /\ (forall message_id ev f w,
        process_entry get_db py_int message_id ev f now w
        = (w, {| persisted := Raise AttributeError; updated := None;
                 acked := None |})).
Proof.
  split; [apply shipped_entry_raises|].
  intros message_id ev f w. apply shipped_entry_raises.
Qed.

End WorkerProperties.

Section WorkerWitness.

Import AnalyticsWorker.

(** C10 at a search entry and at a view whose [provider_id] is a string
    on which [int] raises. *)
Lemma C10_witness :
  let search_event : gmap string string :=
    list_to_map [ ("event", "search"); ("provider_id", "42") ] in
  let unparseable : gmap string string :=
    list_to_map [ ("event", "provider_view"); ("provider_id", "4x2") ] in
  (is_tracked_signal (default ""%string (event_kind search_event)) = false
   /\ update_provider_stats Connection sample_int search_event no_faults 0
        two_anonymous_rows = (two_anonymous_rows, Ok tt))
  /\ (provider_id_unusable sample_int (unparseable !! "provider_id")
      /\ update_provider_stats Connection sample_int unparseable no_faults 0
           two_anonymous_rows = (two_anonymous_rows, Ok tt)).
Proof.
  intros search_event unparseable.
  assert (H1 : is_tracked_signal (default ""%string (event_kind search_event))
               = false) by reflexivity.
  assert (H2 : provider_id_unusable sample_int (unparseable !! "provider_id")).
  { right. right. right. exists "4x2"%string. split; reflexivity. }
  split; (split; [assumption|]).
  - apply (C10_untracked_entry_writes_nothing sample_int Connection
             search_event no_faults 0 two_anonymous_rows). left. exact H1.
  - apply (C10_untracked_entry_writes_nothing sample_int Connection
             unparseable no_faults 0 two_anonymous_rows). right. exact H2.
Defined.

(** On a connection that works, the two steps commit each on its own:
    when the upsert of the statistics raises, the row that
    [persist_user_activity] committed before stays.  The function bodies
    are written for such a connection; the worker as it stands never has
    one. *)
Lemma separate_commits_on_connection :
  ~ all_or_nothing Connection sample_int "1-0" view_event stats_execute_raises
      0 delivered.
Proof.
  intros [_ H]. specialize (H eq_refl). destruct H as (Hua & _).
  vm_compute in Hua. discriminate.
Qed.

End WorkerWitness.

(* ================================================================== *)
(** * Properties of the event logger                                   *)
(* ================================================================== *)

Section EventLogger.

Import UserActivityService AnalyticsApi.
Local Open Scope Q_scope.

Variable py_str : pyval -> string.

(** [log_event] stores the score it is given as it is: the row it
    appends carries that score, clamped nowhere. *)
Lemma log_event_stores_score req event_type metadata provider_id specialty_id
    query_text city state radius_miles source (score : Q) (d : store) :
  exists row,
    log_event py_str req event_type metadata provider_id specialty_id
      query_text city state radius_miles source (Some score) no_faults d
    = ({| user_activity := user_activity d;
          provider_stats := provider_stats d;
          analytics_events_v2 := analytics_events_v2 d ++ [row] |}, Ok tt)
    /\ ev_event_name row = event_type
    /\ stored_score row = Some (PFloat score).
Proof.
  eexists. split; [reflexivity|]. split; [reflexivity|].
  unfold stored_score. cbn.
  rewrite !lookup_insert_ne by discriminate. apply lookup_insert_eq.
Qed.

(** The three scores of a search result, by the number of results. *)
Lemma search_result_score_cases (count : Z) :
  (count = 0%Z /\ search_result_score count = 1.5)
  \/ (count <> 0%Z /\ (count <= 2)%Z /\ search_result_score count = 1.2)
  \/ ((2 < count)%Z /\ search_result_score count = 0.5).
Proof.
  unfold search_result_score, LOW_RESULT_THRESHOLD.
  destruct (Z.eqb_spec count 0); [by left|].
  destruct (Z.leb_spec count 2); [right; left | right; right]; auto.
Qed.

Lemma search_result_score_in_unit (count : Z) :
  in_unit_interval (search_result_score count) <-> (2 < count)%Z.
Proof.
  unfold in_unit_interval.
  destruct (search_result_score_cases count)
    as [[H ->] | [(H1 & H2 & ->) | [H ->]]]; split; intros; try lia; lra.
Qed.

(** What [track_search_result] leaves in the store when the insert goes
    through. *)
Lemma track_search_result_row req payload rf now b :
  exists row,
    analytics_events_v2
      (b_db (track_search_result py_str req payload rf no_faults now b).1)
    = analytics_events_v2 (b_db b) ++ [row]
    /\ ev_event_name row = search_result_kind (results_count payload)
    /\ stored_score row
       = Some (PFloat (search_result_score (results_count payload))).
Proof.
  unfold track_search_result.
  match goal with
  | |- context [log_event py_str req ?et ?md ?a1 ?a2 ?a3 ?a4 ?a5 ?a6 ?src
                  (Some ?sc) no_faults ?d] =>
      destruct (log_event_stores_score req et md a1 a2 a3 a4 a5 a6 src sc d)
        as (row & -> & Hname & Hscore)
  end.
  exists row. cbn. auto.
Qed.

(** What [track_click] leaves in the store for an allowed click type when
    the stream and the insert go through. *)
Lemma track_click_row req ev now b :
  member (click_type ev) ALLOWED_CLICK_TYPES = true ->
  exists row,
    analytics_events_v2
      (b_db (track_click py_str req ev redis_healthy no_faults now b).1)
    = analytics_events_v2 (b_db b) ++ [row]
    /\ stored_score row = Some (PFloat 1.0).
Proof.
  intros H. unfold track_click. rewrite H. cbn [negb].
  cbn [xadd redis_healthy xadd_fails].
  match goal with
  | |- context [log_event py_str req ?et ?md ?a1 ?a2 ?a3 ?a4 ?a5 ?a6 ?src
                  (Some ?sc) no_faults ?d] =>
      destruct (log_event_stores_score req et md a1 a2 a3 a4 a5 a6 src sc d)
        as (row & -> & Hname & Hscore)
  end.
  exists row. cbn. auto.
Qed.

(** An entry written out as a list of fields is encoded when each of the
    listed values is. *)
Lemma encodable_list_to_map (l : list (string * pyval)) :
  forallb (fun kv => redis_encodable kv.2) l = true ->
  encodable_fields (list_to_map l) = true.
Proof.
  intros H. apply bool_decide_eq_true. intros key v Hkey.
  apply elem_of_list_to_map_2 in Hkey.
  rewrite forallb_forall in H. apply (H (key, v)).
  by apply list_elem_of_In.
Qed.

(** The fields that [track_conversion] adds to the metadata of the
    payload are ones the client encodes, so the entry as a whole is
    encoded exactly when the metadata are. *)
Lemma encodable_union (extra base : gmap string pyval) :
  encodable_fields base = true ->
  encodable_fields (extra ∪ base) = encodable_fields extra.
Proof.
  unfold encodable_fields. intros Hbase%bool_decide_eq_true.
  apply bool_decide_ext. split.
  - intros H key v Hkey. apply (H key). by apply lookup_union_Some_l.
  - intros H key v [Hkey | [_ Hkey]]%lookup_union_Some_raw.
    + by apply (H key).
    + by apply (Hbase key).
Qed.

(** [track_conversion] for an allowed event, Redis and the store in
    order: when the client can encode every value of the metadata the
    event is stored with score 1.0; when it cannot, the append to the
    stream, which comes first and is not guarded, raises, and nothing is
    stored. *)
Lemma track_conversion_row req payload now b :
  member (cv_event_type payload) ALLOWED_CONVERSION_EVENTS = true ->
  let out :=
    track_conversion py_str req payload redis_healthy no_faults now b in
  if encodable_fields (default ∅ (cv_metadata payload))
  then exists row,
         analytics_events_v2 (b_db out.1)
         = analytics_events_v2 (b_db b) ++ [row]
         /\ stored_score row = Some (PFloat 1.0)
  else out = (b, Raise RedisError).
Proof.
  intros H. cbv zeta. unfold track_conversion. rewrite H. cbn [negb].
  unfold xadd. cbn [redis_healthy xadd_fails].
  rewrite encodable_union by reflexivity.
  destruct (encodable_fields (default ∅ (cv_metadata payload))); cbn [negb].
  - match goal with
    | |- context [log_event py_str req ?et ?md ?a1 ?a2 ?a3 ?a4 ?a5 ?a6 ?src
                    (Some ?sc) no_faults ?d] =>
        destruct (log_event_stores_score req et md a1 a2 a3 a4 a5 a6 src sc d)
          as (row & -> & Hname & Hscore)
    end.
    exists row. cbn. auto.
  - by destruct b.
Qed.

End EventLogger.

Section EventLoggerClaims.

Import UserActivityService AnalyticsApi.
Local Open Scope Q_scope.

(** C6, the claim as stated fails: for a search without results
    [track_search_result] passes the score 1.5, and [log_event] stores it
    as it is. *)
Lemma C6_counterexample :
  ~ stores_unit_scores
      (b_db (track_search_result plain_str track_request unmet_search
               redis_healthy no_faults 0 idle_backend).1).
Proof.
  intros H.
  destruct (track_search_result_row plain_str track_request unmet_search
              redis_healthy 0 idle_backend) as (row & Hrows & _ & Hscore).
  destruct (H row) as (q & Hq & _ & Hle).
  - rewrite Hrows. apply elem_of_app. right. apply list_elem_of_singleton.
    reflexivity.
  - rewrite Hscore in Hq. injection Hq as <-.
    cbn in Hle. revert Hle. apply Qlt_not_le. reflexivity.
Qed.

(** C6, amended: an event record stored through [log_event] carries the
    score its handler passed, unchanged.  [track_search_result] stores 0.5
    for more than two results, 1.2 for one or two (or a negative count)
    and 1.5 for none, so the stored score lies in [0,1] exactly when there
    are more than two results; [track_click] stores 1.0 for every allowed
    click; [track_conversion] stores 1.0 for every allowed event whose
    metadata values the Redis client can encode (strings, integers and
    floats), and stores nothing when a value is of another type, since the
    append to the stream comes first, is not guarded, and raises. *)
Theorem C6_scores_stored_as_passed
    (py_str : pyval -> string) (req : request) (rf : redis_faults)
    (now : Z) (b : backend) :
  (forall payload : SearchResultEvent,
     let count := results_count payload in
     (exists row,
        analytics_events_v2
          (b_db (track_search_result py_str req payload rf no_faults now b).1)
        = analytics_events_v2 (b_db b) ++ [row]
        /\ ev_event_name row = search_result_kind count
        /\ stored_score row = Some (PFloat (search_result_score count)))
     /\ ((count = 0%Z /\ search_result_score count = 1.5)
         \/ (count <> 0%Z /\ (count <= 2)%Z /\ search_result_score count = 1.2)
         \/ ((2 < count)%Z /\ search_result_score count = 0.5))
     /\ (in_unit_interval (search_result_score count) <-> (2 < count)%Z))
  /\ (forall ev : ClickEvent,
        member (click_type ev) ALLOWED_CLICK_TYPES = true ->
        exists row,
          analytics_events_v2
            (b_db (track_click py_str req ev redis_healthy no_faults now b).1)
          = analytics_events_v2 (b_db b) ++ [row]
          /\ stored_score row = Some (PFloat 1.0))
  /\ (forall payload : ConversionEvent,
        member (cv_event_type payload) ALLOWED_CONVERSION_EVENTS = true ->
        let out :=
          track_conversion py_str req payload redis_healthy no_faults now b in
        if encodable_fields (default ∅ (cv_metadata payload))
        then exists row,
               analytics_events_v2 (b_db out.1)
               = analytics_events_v2 (b_db b) ++ [row]
               /\ stored_score row = Some (PFloat 1.0)
        else out = (b, Raise RedisError)).
Proof.
  split; [|split].
  - intros payload count. split; [apply track_search_result_row|].
    split; [apply search_result_score_cases | apply search_result_score_in_unit].
  - intros ev H. by apply track_click_row.
  - intros payload H. by apply track_conversion_row.
Qed.

End EventLoggerClaims.

(* ================================================================== *)
(** * Properties of the search cache                                   *)
(* ================================================================== *)

Section SearchCache.

Import SearchApi.

Variable py_str : pyval -> string.
Variable payload_digest : list (string * pyval) -> string.
Variable search_nearby : Q -> Q -> Q -> Z -> list Provider.

(** A list of providers comes back from the cache as the list of their
    [str]s. *)
Lemma providers_through_json (providers : list Provider) :
  json_loads (json_dumps_default_str py_str (PList (map PProvider providers)))
  = stringified py_str providers.
Proof.
  unfold stringified. cbn. f_equal.
  induction providers as [|p ps IH]; [reflexivity|]. cbn. by rewrite IH.
Qed.

(** With Redis out of reach the helpers of the v1 API swallow the error:
    a read is a miss and a write changes nothing. *)
Lemma cache_helpers_absorb prefix payload results now r :
  cache_get payload_digest prefix payload redis_unavailable now r = PNone
  /\ cache_set py_str payload_digest prefix payload results
       redis_unavailable now r = r.
Proof. split; reflexivity. Qed.

(** The same for [CacheService]. *)
Lemma cache_service_absorbs key value ttl now r :
  CacheService.get key redis_unavailable now r = PNone
  /\ CacheService.set py_str key value ttl redis_unavailable now r = r.
Proof. split; reflexivity. Qed.

(** With the store in order, [track_search_result] returns normally and
    runs no query. *)
Lemma track_search_result_returns req payload rf now b :
  exists b' v,
    AnalyticsApi.track_search_result py_str req payload rf no_faults now b
    = (b', Ok v)
    /\ b_queries b' = b_queries b
    /\ kv (b_redis b') = kv (b_redis b).
Proof.
  unfold AnalyticsApi.track_search_result. cbn.
  do 2 eexists. split; [reflexivity|]. split; [reflexivity|].
  unfold xadd. by destruct (xadd_fails rf).
Qed.

(** A hit: the handler returns the list the cache holds and runs no
    query. *)
Lemma nearby_on_hit req lat lon radius_miles limit rf now b items :
  cache_get payload_digest "search:nearby"
    [ ("lat", PFloat lat); ("lon", PFloat lon);
      ("radius_miles", PInt radius_miles); ("limit", PInt limit) ]
    rf now (b_redis b) = PList items ->
  (nearby py_str payload_digest search_nearby req lat lon radius_miles limit
     rf no_faults now b).2 = Ok (PList items)
  /\ b_queries
       (nearby py_str payload_digest search_nearby req lat lon radius_miles
          limit rf no_faults now b).1 = b_queries b.
Proof.
  intros H. unfold nearby. rewrite H. cbn [len].
  match goal with
  | |- context [AnalyticsApi.track_search_result py_str req ?p rf no_faults
                  now ?b0] =>
      destruct (track_search_result_returns req p rf now b0)
        as (b' & v & -> & Hq & _)
  end.
  split; [reflexivity | exact Hq].
Qed.

(** A miss with Redis in order: the handler runs the query once, returns
    the providers it found, and leaves them in the cache for 60
    seconds. *)
Lemma nearby_on_miss req lat lon radius_miles limit now b :
  let payload :=
    [ ("lat", PFloat lat); ("lon", PFloat lon);
      ("radius_miles", PInt radius_miles); ("limit", PInt limit) ] in
  let found := nearby_search search_nearby lat lon radius_miles limit in
  let first :=
    nearby py_str payload_digest search_nearby req lat lon radius_miles limit
      redis_healthy no_faults now b in
  cache_get payload_digest "search:nearby" payload redis_healthy now
    (b_redis b) = PNone ->
  first.2 = Ok (PList (map PProvider found))
  /\ b_queries first.1 = S (b_queries b)
  /\ kv (b_redis first.1)
     = <[_cache_key payload_digest "search:nearby" payload :=
           (json_dumps_default_str py_str (PList (map PProvider found)),
            now + SEARCH_CACHE_TTL)]> (kv (b_redis b)).
Proof.
  intros payload found first Hmiss. subst first.
  unfold nearby. fold payload. rewrite Hmiss. fold found. cbn [len].
  match goal with
  | |- context [AnalyticsApi.track_search_result py_str req ?p redis_healthy
                  no_faults now ?b0] =>
      destruct (track_search_result_returns req p redis_healthy now b0)
        as (b' & v & -> & Hq & Hkv)
  end.
  cbn [fst snd]. split; [reflexivity|]. split; [exact Hq|].
  rewrite Hkv. reflexivity.
Qed.

(** On a miss, [GET /search/nearby] runs the query once and returns the
    providers it found; a second request within the 60 seconds runs no
    query and returns what the cache holds, the [str] of each provider. *)
Lemma nearby_miss_then_hit req lat lon radius_miles limit now later b :
  let payload :=
    [ ("lat", PFloat lat); ("lon", PFloat lon);
      ("radius_miles", PInt radius_miles); ("limit", PInt limit) ] in
  let found := nearby_search search_nearby lat lon radius_miles limit in
  let first :=
    nearby py_str payload_digest search_nearby req lat lon radius_miles limit
      redis_healthy no_faults now b in
  let second :=
    nearby py_str payload_digest search_nearby req lat lon radius_miles limit
      redis_healthy no_faults later first.1 in
  cache_get payload_digest "search:nearby" payload redis_healthy now
    (b_redis b) = PNone ->
  now <= later < now + SEARCH_CACHE_TTL ->
  first.2 = Ok (PList (map PProvider found))
  /\ b_queries first.1 = S (b_queries b)
  /\ second.2 = Ok (stringified py_str found)
  /\ b_queries second.1 = b_queries first.1.
Proof.
  intros payload found first second Hmiss Hlater.
  destruct (nearby_on_miss req lat lon radius_miles limit now b Hmiss)
    as (H1 & H2 & Hkv).
  fold payload found first in H1, H2, Hkv.
  split; [exact H1|]. split; [exact H2|].
  apply nearby_on_hit. fold payload.
  unfold cache_get, Redis.get. cbn [get_fails redis_healthy].
  rewrite Hkv, lookup_insert_eq.
  replace (later <? now + SEARCH_CACHE_TTL) with true
    by (symmetry; apply Z.ltb_lt; lia).
  apply providers_through_json.
Qed.

End SearchCache.

Section SearchCacheClaims.

(** With Redis out of reach [GET /search/nearby] still answers: it runs
    the query and returns the providers found. *)
Lemma v1_nearby_without_redis py_str payload_digest search_nearby
    req lat lon radius_miles limit now b :
  (SearchApi.nearby py_str payload_digest search_nearby req lat lon
     radius_miles limit redis_unavailable no_faults now b).2
  = Ok (PList (map PProvider
                 (SearchApi.nearby_search search_nearby lat lon radius_miles
                    limit))).
Proof.
  unfold SearchApi.nearby.
  rewrite (proj1 (cache_helpers_absorb py_str payload_digest _ _ PNone now _)).
  cbn [len].
  match goal with
  | |- context [AnalyticsApi.track_search_result py_str req ?p
                  redis_unavailable no_faults now ?b0] =>
      destruct (track_search_result_returns py_str req p redis_unavailable
                  now b0) as (b' & v & -> & _)
  end.
  reflexivity.
Qed.

(** The same scenario against [GET /providers/nearby] of app/main.py: the
    first request runs the query, fills the cache and logs the search, and
    then fails at the append to the stream, whose field [cached] is a
    [bool], which the Redis client does not encode; the second request
    finds the cache filled, runs no query, and fails at the same call. *)
Example main_nearby_fails_at_stream :
  main_first_lookup.2 = Raise RedisError
  /\ b_queries main_first_lookup.1 = 1%nat
  /\ length (analytics_events_v2 (b_db main_first_lookup.1)) = 1%nat
  /\ main_second_lookup.2 = Raise RedisError
  /\ b_queries main_second_lookup.1 = 1%nat
  /\ length (analytics_events_v2 (b_db main_second_lookup.1)) = 2%nat.
Proof. vm_compute. repeat split. Qed.

(** C8: scenario 2 of the specification run against [GET /search/nearby].
    The first request misses, runs the query and returns the provider; the
    second, 30 seconds later, runs no query, but what it returns is not
    what the first returned: [cache_set] printed the result with
    [json.dumps(results, default=str)], which turns each [Provider] into
    its [str], and the cache gives back that string. *)
Theorem C8_cached_nearby_is_stringified :
  first_lookup.2 = Ok (PList [PProvider miami_provider])
  /\ b_queries first_lookup.1 = 1%nat
  /\ second_lookup.2 = Ok (PList [PStr "Bright Steps ABA"])
  /\ b_queries second_lookup.1 = 1%nat
  /\ second_lookup.2 <> first_lookup.2.
Proof.
  assert (H1 : first_lookup.2 = Ok (PList [PProvider miami_provider]))
    by (vm_compute; reflexivity).
  assert (H2 : second_lookup.2 = Ok (PList [PStr "Bright Steps ABA"]))
    by (vm_compute; reflexivity).
  split; [exact H1|]. split; [vm_compute; reflexivity|].
  split; [exact H2|]. split; [vm_compute; reflexivity|].
  rewrite H1, H2. discriminate.
Qed.

(** C9: [GET /providers/nearby] of app/main.py when the read of the
    cache raises.  The handler calls [redis_client.get] outside any [try];
    the error of the read ends the request, whatever the parameters and
    the state of the store, where the claim asks for a miss and a normal
    answer. *)
Theorem C9_main_nearby_surfaces_cache_error
    (py_str : pyval -> string) (uuid5_hex : string -> string)
    (query_nearby : Q -> Q -> Q -> list pyval)
    (req : request) (fresh : string) (lat lon : Q) (radius : Z)
    (rf : redis_faults) (qf f : faults) (now ms : Z) (b : backend) :
  get_fails rf = true ->
  Main.nearby py_str uuid5_hex query_nearby req fresh lat lon radius
    rf qf f now ms b
  = (b, Raise RedisError).
Proof.
  intros H. unfold Main.nearby, Redis.get. rewrite H. reflexivity.
Qed.

(** C9 at scenario 2 with Redis out of reach. *)
Lemma C9_witness :
  get_fails redis_unavailable = true
  /\ Main.nearby plain_str sample_uuid5 one_row_nearby nearby_request "6c1e"
       25.76 (-80.19) 25 redis_unavailable no_faults no_faults 0 12
       idle_backend
     = (idle_backend, Raise RedisError).
Proof.
  split; [reflexivity|].
  apply (C9_main_nearby_surfaces_cache_error plain_str sample_uuid5
           one_row_nearby nearby_request "6c1e" 25.76 (-80.19) 25
           redis_unavailable no_faults no_faults 0 12 idle_backend).
  reflexivity.
Defined.

End SearchCacheClaims.


(* ================================================================== *)
(** * Further properties of identity stitching                         *)
(* ================================================================== *)

Section StitchingFurther.

Import IdentityStitching.

(** What the statement of the merge does to each table. *)
Lemma update_user_id_frame user session (d : store) :
  provider_stats (update_user_id user session d).1 = provider_stats d
  /\ analytics_events_v2 (update_user_id user session d).1
     = analytics_events_v2 d
  /\ length (user_activity (update_user_id user session d).1)
     = length (user_activity d).
Proof. cbn. by rewrite length_map. Qed.

(** The store the merge leaves is the store it found or the store after
    its statement. *)
Lemma merge_store_cases session user conn f (d : store) :
  (merge_anonymous_history_into_user session user conn f d).1 = d
  \/ (merge_anonymous_history_into_user session user conn f d).1
     = (update_user_id user session d).1.
Proof.
  unfold merge_anonymous_history_into_user, execute_and_commit.
  destruct (cursor _ f); [|by left].
  destruct (execute_fails f); [by left|].
  destruct (update_user_id user session d) as [d' n] eqn:E.
  destruct (commit_fails f); [by left | by right].
Qed.

(** X1: on a connection passed in by the caller and with no driver error,
    the merge gives every anonymous row of the session to the user,
    returns the number of those rows, and a second merge with the same
    arguments returns 0 and leaves the store as the first one left it. *)
Theorem merge_idempotent_on_connection
    (session : string) (user : Z) (d : store) :
  let first :=
    merge_anonymous_history_into_user session user (Some Connection)
      no_faults d in
  first.2 = Ok (anonymous_count session d)
  /\ anonymous_count session first.1 = 0
  /\ (forall i row, user_activity d !! i = Some row ->
        user_activity first.1 !! i
        = Some (if is_anonymous_of session row
                then set_user_id user row else row))
  /\ merge_anonymous_history_into_user session user (Some Connection)
       no_faults first.1 = (first.1, Ok 0).
Proof.
  pose proof (merge_on_connection session user d) as H.
  destruct (merge_anonymous_history_into_user session user (Some Connection)
              no_faults d) as [d1 r1].
  destruct H as (-> & -> & H3). cbn [fst snd].
  split; [reflexivity|]. split.
  - unfold anonymous_count. cbn. by rewrite none_anonymous_after_update.
  - split; [|exact H3]. intros i row Hrow.
    by apply update_row_by_row.
Qed.

(** X2: whatever the connection and whatever raises, the merge touches
    nothing but the [user_id] of anonymous rows of the given session: the
    other two tables and the number of activity rows stay, and every row
    of another session, and every row that already has a user, is left
    as it was. *)
Theorem merge_leaves_other_rows
    (session : string) (user : Z) (conn : option db_object) (f : faults)
    (d : store) :
  let d' := (merge_anonymous_history_into_user session user conn f d).1 in
  provider_stats d' = provider_stats d
  /\ analytics_events_v2 d' = analytics_events_v2 d
  /\ length (user_activity d') = length (user_activity d)
  /\ (forall i row, user_activity d !! i = Some row ->
        is_anonymous_of session row = false ->
        user_activity d' !! i = Some row).
Proof.
  cbv zeta.
  destruct (merge_store_cases session user conn f d) as [-> | ->].
  - repeat split; auto.
  - destruct (update_user_id_frame user session d) as (H1 & H2 & H3).
    repeat split; auto.
    intros i row Hrow Hanon.
    rewrite (update_row_by_row session user d i row Hrow), Hanon. reflexivity.
Qed.

End StitchingFurther.


(* ================================================================== *)
(** * Further properties of the pipeline worker                        *)
(* ================================================================== *)

Section WorkerFurther.

Import AnalyticsWorker WorkerLoop.

Variable py_int : string -> result Z.

Lemma counters_not_below_trans (a b c : gmap Z stats_row) :
  counters_not_below a b -> counters_not_below b c -> counters_not_below a c.
Proof.
  intros Hab Hbc q old Hq.
  destruct (Hab q old Hq) as (mid & Hmid & ? & ? & ?).
  destruct (Hbc q mid Hmid) as (new & Hnew & ? & ? & ?).
  exists new. split; [exact Hnew | lia].
Qed.

(** One entry only ever appends to [user_activity]. *)
Lemma process_entry_appends conn message_id ev f now w :
  user_activity (db w)
    `prefix_of`
    user_activity (db (process_entry conn py_int message_id ev f now w).1).
Proof.
  unfold process_entry.
  pose proof (persist_raise conn ev (persist_faults f) now (db w)) as Hr.
  pose proof (persist_ok conn ev (persist_faults f) now (db w)) as Ho.
  destruct (persist_user_activity _ _ _ _ _) as [d1 [[]|e]]; cbn in *.
  - rewrite (Ho eq_refl).
    pose proof (update_monotone py_int conn ev (stats_faults f) now
                  (insert_user_activity (row_of_entry ev now) (db w)).1)
      as [Hua _].
    destruct (update_provider_stats _ py_int _ _ _ _) as [d2 [[]|e]]; cbn in *;
      [destruct (xack _ _ _)|]; cbn; rewrite Hua; by apply prefix_app_r.
  - by rewrite (Hr e eq_refl).
Qed.

Lemma process_batch_keeps conn fault_of batch now w :
  counters_not_below (provider_stats (db w))
    (provider_stats (db (process_batch conn py_int fault_of batch now w)))
  /\ user_activity (db w)
       `prefix_of`
       user_activity (db (process_batch conn py_int fault_of batch now w)).
Proof.
  revert w. induction batch as [|[message_id ev] rest IH]; intros w.
  - split; [apply counters_not_below_refl | done].
  - cbn [process_batch].
    destruct (IH (process_entry conn py_int message_id ev (fault_of message_id)
                    now w).1) as [H1 H2].
    split.
    + eapply counters_not_below_trans; [|exact H1].
      apply process_entry_monotone.
    + etrans; [|exact H2]. apply process_entry_appends.
Qed.

Lemma run_iteration_keeps conn fault_of unreachable now st st' :
  run_iteration conn py_int fault_of unreachable now st = Ok st' ->
  counters_not_below (provider_stats (tables st)) (provider_stats (tables st'))
  /\ user_activity (tables st) `prefix_of` user_activity (tables st').
Proof.
  unfold run_iteration, xreadgroup.
  destruct unreachable; [discriminate|].
  destruct (group (stream st)) as [g|]; [|discriminate].
  cbn. intros [= <-]. cbn.
  match goal with
  | |- context [process_batch conn py_int fault_of ?b now ?w] =>
      exact (process_batch_keeps conn fault_of b now w)
  end.
Qed.

Lemma run_turns_keeps conn fault_of times st st' :
  run_turns conn py_int fault_of times st = Ok st' ->
  counters_not_below (provider_stats (tables st)) (provider_stats (tables st'))
  /\ user_activity (tables st) `prefix_of` user_activity (tables st').
Proof.
  revert st. induction times as [|now rest IH]; intros st.
  - intros [= <-]. split; [apply counters_not_below_refl | done].
  - cbn [run_turns].
    destruct (run_iteration conn py_int fault_of false now st) as [st1|e] eqn:E;
      [|discriminate].
    cbn [bind]. intros H.
    destruct (run_iteration_keeps _ _ _ _ _ _ E) as [H1 H2].
    destruct (IH _ H) as [H3 H4].
    split; [by eapply counters_not_below_trans | by etrans].
Qed.

(** X3: however long [run] turns, on whatever connection and whatever
    raises while entries are processed, no counter of [provider_stats]
    ever goes down and no stored activity row is changed or removed: the
    activity table it leaves starts with the table it found. *)
Theorem run_only_adds
    (conn : db_object) (fault_of : string -> entry_faults) (times : list Z)
    (st st' : loop_state) :
  run conn py_int fault_of times st = Ok st' ->
  counters_not_below (provider_stats (tables st)) (provider_stats (tables st'))
  /\ user_activity (tables st) `prefix_of` user_activity (tables st').
Proof.
  unfold run. destruct (ensure_consumer_group false (stream st)) as [s|e];
    [|discriminate].
  cbn [bind]. intros H. exact (run_turns_keeps _ _ _ _ _ H).
Qed.





(** X5: the worker counts per delivery.  On a working connection an
    entry that is a view of a provider, processed a second time (the same
    entry delivered again), adds a second activity row and raises the
    [views] of the provider a second time: nothing in the processing
    recognises an entry it has seen. *)
Theorem redelivered_view_counts_twice
    (message_id : string) (ev : gmap string string) (raw : string)
    (provider : Z) (now later : Z) (w : world) :
  event_kind ev = Some "provider_view"%string ->
  ev !! "provider_id" = Some raw ->
  provider_id_blank (Some raw) = false ->
  py_int raw = Ok provider ->
  let w1 := (process_entry Connection py_int message_id ev healthy now w).1 in
  let w2 :=
    (process_entry Connection py_int message_id ev healthy later w1).1 in
  user_activity (db w2)
  = user_activity (db w) ++ [row_of_entry ev now; row_of_entry ev later]
  /\ views_of (provider_stats (db w2)) provider
     = views_of (provider_stats (db w)) provider + 2.
Proof.
  intros Hkind Hraw Hblank Hint w1 w2.
  destruct (view_recorded_on_connection py_int message_id ev raw provider now w
              Hkind Hraw Hblank Hint) as (Hua1 & Hv1 & _).
  destruct (view_recorded_on_connection py_int message_id ev raw provider later
              w1
              Hkind Hraw Hblank Hint) as (Hua2 & Hv2 & _).
  fold w1 in Hua1, Hv1. fold w2 in Hua2, Hv2.
  split.
  - rewrite Hua2, Hua1, <- app_assoc. reflexivity.
  - rewrite Hv2, Hv1. lia.
Qed.

Lemma update_returns_on_connection ev now d :
  (update_provider_stats Connection py_int ev no_faults now d).2 = Ok tt.
Proof.
  unfold update_provider_stats.
  destruct (provider_id_blank _); [reflexivity|].
  destruct (int_of_optional _ _); [|reflexivity].
  match goal with |- context [if ?c then _ else _] => destruct c end;
    reflexivity.
Qed.

Lemma healthy_entry message_id ev now w :
  let w' := (process_entry Connection py_int message_id ev healthy now w).1 in
  user_activity (db w') = user_activity (db w) ++ [row_of_entry ev now]
  /\ pending w' = pending w ∖ {[ message_id ]}.
Proof.
  cbv zeta. unfold process_entry.
  change (persist_user_activity Connection ev (persist_faults healthy) now
            (db w))
    with ((insert_user_activity (row_of_entry ev now) (db w)).1, Ok tt).
  cbv iota beta.
  pose proof (update_returns_on_connection ev now
                (insert_user_activity (row_of_entry ev now) (db w)).1) as Hok.
  pose proof (update_monotone py_int Connection ev no_faults now
                (insert_user_activity (row_of_entry ev now) (db w)).1)
    as [Hua _].
  change (stats_faults healthy) with no_faults.
  destruct (update_provider_stats Connection py_int ev no_faults now _)
    as [d2 [[]|e]]; [|discriminate].
  cbn in *. rewrite Hua. split; reflexivity.
Qed.

(** X6: on a working connection and with nothing raising, the entries of
    one read are all stored and acknowledged: the activity table grows by
    exactly their rows, in their order, and none of them is left in the
    pending list. *)
Theorem healthy_batch_stored_and_acked
    (batch : list (string * gmap string string)) (now : Z) (w : world) :
  let w' := process_batch Connection py_int (fun _ => healthy) batch now w in
  user_activity (db w')
  = user_activity (db w) ++ map (fun e => row_of_entry e.2 now) batch
  /\ pending w' = pending w ∖ list_to_set (map fst batch).
Proof.
  cbv zeta. revert w.
  induction batch as [|[message_id ev] rest IH]; intros w.
  - cbn. rewrite app_nil_r, difference_empty_L. split; reflexivity.
  - cbn [process_batch map list_to_set fst snd].
    destruct (healthy_entry message_id ev now w) as [Hua Hp].
    destruct (IH (process_entry Connection py_int message_id ev healthy now
                    w).1)
      as [Hua' Hp'].
    rewrite Hua', Hua, Hp', Hp, <- app_assoc. split; [reflexivity|].
    apply difference_difference_l_L.
Qed.

End WorkerFurther.

Section WorkerFurtherWitness.

Import AnalyticsWorker WorkerLoop.

(** X3 at two turns over the scenario-1 stream on a working connection. *)
Lemma run_only_adds_witness :
  let st' :=
    {| stream :=
         {| log := [("1-0", view_event)];
            group := Some {| last_delivered := 1; pel := ∅ |} |};
       tables := (process_entry Connection sample_int "1-0" view_event healthy 5
                    delivered).1.(db);
       handled := ["1-0"] |} in
  run Connection sample_int (fun _ => healthy) [5; 6] one_view_stream = Ok st'
  /\ counters_not_below (provider_stats (tables one_view_stream))
       (provider_stats (tables st'))
  /\ user_activity (tables one_view_stream)
       `prefix_of` user_activity (tables st').
Proof.
  intros st'.
  assert (H : run Connection sample_int (fun _ => healthy) [5; 6]
                one_view_stream
              = Ok st').
  { vm_compute. reflexivity. }
  split; [exact H|].
  exact (run_only_adds sample_int Connection (fun _ => healthy) [5; 6]
           one_view_stream
           st' H).
Defined.

(** X5 at the view of provider 42, processed at times 5 and 9. *)
Lemma redelivered_view_counts_twice_witness :
  let w1 :=
    (process_entry Connection sample_int "1-0" view_event healthy 5
       delivered).1 in
  let w2 :=
    (process_entry Connection sample_int "1-0" view_event healthy 9 w1).1 in
  user_activity (db w2)
  = [row_of_entry view_event 5; row_of_entry view_event 9]
  /\ views_of (provider_stats (db w2)) 42 = 2.
Proof.
  exact (redelivered_view_counts_twice sample_int "1-0" view_event "42" 42 5 9
           delivered
           eq_refl eq_refl eq_refl eq_refl).
Defined.

End WorkerFurtherWitness.


(* ================================================================== *)
(** * Further properties of the caches and of JSON                     *)
(* ================================================================== *)

Section JsonRoundTrip.

Variable py_str : pyval -> string.

Lemma map_fixed {A} (f : A -> A) (l : list A) :
  map f l = l <-> Forall (fun x => f x = x) l.
Proof.
  induction l as [|x l IH]; cbn.
  - split; [constructor | reflexivity].
  - split.
    + intros [= Hx Hl]. constructor; [exact Hx | by apply IH].
    + intros H. inversion H as [|? ? Hx Hl]; subst.
      rewrite Hx. f_equal. by apply IH.
Qed.

Lemma forallb_all {A} (f : A -> bool) (l : list A) :
  forallb f l = true <-> Forall (fun x => f x = true) l.
Proof.
  induction l as [|x l IH]; cbn.
  - split; [constructor | reflexivity].
  - rewrite andb_true_iff, IH. split.
    + intros [Hx Hl]. by constructor.
    + intros H. by inversion H.
Qed.

(** A value comes back from [json.loads(json.dumps(v, default=str))] as
    it went in exactly when JSON has a form for every part of it. *)
Lemma json_round_trip_iff (v : pyval) :
  json_loads (json_dumps_default_str py_str v) = v
  <-> json_serialisable v = true.
Proof.
  induction v as [ | | | | | | |l IH|d IH] using pyval_induction;
    cbn [json_dumps_default_str json_loads json_serialisable];
    try (split; [reflexivity | reflexivity]);
    try (split; discriminate).
  - rewrite map_map, forallb_all.
    split.
    + intros [= H]. apply map_fixed in H.
      rewrite Forall_forall in *. intros x Hx.
      apply (proj1 (IH x Hx)), H, Hx.
    + intros H. f_equal. apply map_fixed.
      rewrite Forall_forall in *. intros x Hx.
      apply (proj2 (IH x Hx)), H, Hx.
  - rewrite map_map, forallb_all.
    split.
    + intros [= H]. apply map_fixed in H.
      rewrite Forall_forall in *. intros [k x] Hx.
      specialize (H _ Hx). cbn in H. injection H as H.
      exact (proj1 (IH _ Hx) H).
    + intros H. f_equal. apply map_fixed.
      rewrite Forall_forall in *. intros [k x] Hx. cbn. f_equal.
      exact (proj2 (IH _ Hx) (H _ Hx)).
Qed.

(** X7: [CacheService.set(key, value, ttl)] followed by
    [CacheService.get(key)], Redis in order and the time to live
    positive: before [ttl] seconds have passed the read gives the value
    back exactly when the value is made of what JSON has a form for
    ([None], booleans, numbers, strings, lists and dictionaries of these);
    from [ttl] seconds on it gives [None]. *)
Theorem cache_service_round_trip
    (key : string) (value : pyval) (ttl now later : Z) (r : redis) :
  0 < ttl -> now <= later ->
  let r' := CacheService.set py_str key value ttl redis_healthy now r in
  (later < now + ttl ->
   (CacheService.get key redis_healthy later r' = value
    <-> json_serialisable value = true))
  /\ (now + ttl <= later ->
      CacheService.get key redis_healthy later r' = PNone).
Proof.
  intros Httl Hlater r'. subst r'.
  unfold CacheService.set, CacheService.get, setex, Redis.get. cbn.
  rewrite lookup_insert_eq. split; intros H.
  - replace (later <? now + ttl) with true by (symmetry; apply Z.ltb_lt; lia).
    apply json_round_trip_iff.
  - replace (later <? now + ttl) with false
      by (symmetry; apply Z.ltb_ge; lia).
    reflexivity.
Qed.

End JsonRoundTrip.

Section JsonRoundTripWitness.

(** X7 for a list of two dictionaries kept for 60 seconds and read after
    30 and after 60. *)
Lemma cache_service_round_trip_witness :
  let value :=
    PList [ PDict [("id", PInt 1); ("name", PStr "Bright Steps ABA")];
            PDict [("id", PInt 2); ("name", PNone)] ] in
  let r' := CacheService.set plain_str "k" value 60 redis_healthy 0
              empty_redis in
  CacheService.get "k" redis_healthy 30 r' = value
  /\ CacheService.get "k" redis_healthy 60 r' = PNone.
Proof.
  intros value r'.
  pose proof (cache_service_round_trip plain_str "k" value 60 0 30
                empty_redis eq_refl) as H30.
  pose proof (cache_service_round_trip plain_str "k" value 60 0 60
                empty_redis eq_refl) as H60.
  split.
  - apply (proj1 (H30 ltac:(discriminate))); reflexivity.
  - apply (proj2 (H60 ltac:(discriminate))). discriminate.
Defined.

End JsonRoundTripWitness.


(* ================================================================== *)
(** * Further properties of the event logger and its callers           *)
(* ================================================================== *)

Section LoggerFurther.

Import UserActivityService AnalyticsApi.

Variable py_str : pyval -> string.

Lemma safe_json_serialisable (v : pyval) :
  json_serialisable (_safe_json py_str v) = true.
Proof.
  unfold _safe_json. destruct (json_serialisable v) eqn:E; [exact E|].
  reflexivity.
Qed.

Lemma execute_and_commit_cases
    (f : faults) (sql : store -> store * Z) (d : store) :
  execute_and_commit Connection f sql d
  = if cursor_fails f || execute_fails f || commit_fails f
    then (d, Raise DatabaseError)
    else ((sql d).1, Ok (sql d).2).
Proof.
  unfold execute_and_commit, cursor.
  destruct (cursor_fails f), (execute_fails f); try reflexivity.
  destruct (sql d) as [d' n]. by destruct (commit_fails f).
Qed.

(** The two outcomes of [log_event]. *)
Lemma log_event_outcome
    (req : request) (event_type : string)
    (metadata : option (gmap string pyval))
    (provider_id specialty_id query_text city state radius_miles : pyval)
    (source : string) (intent_score : option Q) (f : faults) (d : store) :
  let out :=
    log_event py_str req event_type metadata provider_id specialty_id
      query_text city state radius_miles source intent_score f d in
  if any_fault f
  then out = (d, Raise DatabaseError)
  else
    out.2 = Ok tt
    /\ user_activity out.1 = user_activity d
    /\ provider_stats out.1 = provider_stats d
    /\ exists row,
         analytics_events_v2 out.1 = analytics_events_v2 d ++ [row]
         /\ ev_event_name row = event_type
         /\ ev_source row = source
         /\ ev_provider_id row = provider_id
         /\ ev_query_text row = query_text
         /\ ev_radius_miles row = radius_miles.
Proof.
  cbv zeta. unfold log_event, any_fault, enter_get_db.
  destruct (connect_fails f); [reflexivity|].
  rewrite execute_and_commit_cases. cbn [orb].
  destruct (cursor_fails f || execute_fails f || commit_fails f);
    [reflexivity|].
  cbn. repeat split. eexists. repeat split.
Qed.

(** X8: [log_event] is all or nothing.  When no driver call raises it
    appends exactly one row to [analytics_events_v2], carrying the event
    type, the source and the column values it was given, and returns; when
    one raises, the exception reaches the caller and the store is as it
    was.  It never touches the other tables. *)
Theorem log_event_all_or_nothing
    (req : request) (event_type : string)
    (metadata : option (gmap string pyval))
    (provider_id specialty_id query_text city state radius_miles : pyval)
    (source : string) (intent_score : option Q) (f : faults) (d : store) :
  let out :=
    log_event py_str req event_type metadata provider_id specialty_id
      query_text city state radius_miles source intent_score f d in
  if any_fault f
  then out = (d, Raise DatabaseError)
  else
    out.2 = Ok tt
    /\ user_activity out.1 = user_activity d
    /\ provider_stats out.1 = provider_stats d
    /\ exists row,
         analytics_events_v2 out.1 = analytics_events_v2 d ++ [row]
         /\ ev_event_name row = event_type
         /\ ev_source row = source
         /\ ev_provider_id row = provider_id
         /\ ev_query_text row = query_text
         /\ ev_radius_miles row = radius_miles.
Proof.
  exact (log_event_outcome req event_type metadata provider_id specialty_id
           query_text city state radius_miles source intent_score f d).
Qed.

(** The row that [log_event] appends, and its metadata. *)
Lemma log_event_row
    (req : request) (event_type : string)
    (metadata : gmap string pyval)
    (provider_id specialty_id query_text city state radius_miles : pyval)
    (source : string) (intent_score : option Q) (d : store) :
  exists row,
    analytics_events_v2
      (log_event py_str req event_type (Some metadata) provider_id
         specialty_id query_text city state radius_miles source intent_score
         no_faults d).1
    = analytics_events_v2 d ++ [row]
    /\ map_Forall (fun _ v => json_serialisable v = true) (ev_metadata row)
    /\ ev_metadata row !! "path" = Some (PStr (url_path req))
    /\ ev_metadata row !! "method" = Some (PStr (http_method req))
    /\ ev_metadata row !! "intent_score"
       = match intent_score with
         | Some score => Some (PFloat score)
         | None => _safe_json py_str <$> metadata !! "intent_score"
         end
    /\ (forall key, logger_key key = false ->
          ev_metadata row !! key = _safe_json py_str <$> metadata !! key).
Proof.
  eexists. split; [reflexivity|]. cbn [ev_metadata default].
  assert (Hsafe : map_Forall (fun _ v => json_serialisable v = true)
                    (_safe_json py_str <$> metadata)).
  { intros k v. rewrite lookup_fmap.
    destruct (metadata !! k); [|discriminate].
    intros [= <-]. apply safe_json_serialisable. }
  split; [|split; [|split; [|split]]].
  - apply map_Forall_insert_2; [reflexivity|].
    apply map_Forall_insert_2; [reflexivity|].
    destruct intent_score; [|exact Hsafe].
    apply map_Forall_insert_2; [reflexivity | exact Hsafe].
  - rewrite lookup_insert_ne by discriminate. apply lookup_insert_eq.
  - apply lookup_insert_eq.
  - rewrite !lookup_insert_ne by discriminate.
    destruct intent_score; [apply lookup_insert_eq | apply lookup_fmap].
  - intros key Hkey. unfold logger_key in Hkey.
    apply orb_false_iff in Hkey as [Hkey Hm].
    apply orb_false_iff in Hkey as [Hi Hp].
    apply String.eqb_neq in Hi, Hp, Hm.
    rewrite !lookup_insert_ne by congruence.
    destruct intent_score; [rewrite lookup_insert_ne by congruence|];
      apply lookup_fmap.
Qed.

(** X9: what [log_event] stores as metadata.  Every value of the stored
    payload is one JSON has a form for, whatever the caller passed, so
    printing the payload cannot fail; [path] and [method] are those of the
    request even when the caller's metadata has such keys; a score that is
    passed replaces an [intent_score] of the metadata; and every other key
    of the caller's metadata is stored, its value as it was if JSON has a
    form for it and as its [str] if not. *)
Theorem log_event_payload
    (req : request) (event_type : string)
    (metadata : gmap string pyval)
    (provider_id specialty_id query_text city state radius_miles : pyval)
    (source : string) (intent_score : option Q) (d : store) :
  exists row,
    analytics_events_v2
      (log_event py_str req event_type (Some metadata) provider_id
         specialty_id query_text city state radius_miles source intent_score
         no_faults d).1
    = analytics_events_v2 d ++ [row]
    /\ map_Forall (fun _ v => json_serialisable v = true) (ev_metadata row)
    /\ ev_metadata row !! "path" = Some (PStr (url_path req))
    /\ ev_metadata row !! "method" = Some (PStr (http_method req))
    /\ ev_metadata row !! "intent_score"
       = match intent_score with
         | Some score => Some (PFloat score)
         | None => _safe_json py_str <$> metadata !! "intent_score"
         end
    /\ (forall key, logger_key key = false ->
          ev_metadata row !! key = _safe_json py_str <$> metadata !! key).
Proof.
  exact (log_event_row req event_type metadata provider_id specialty_id
           query_text city state radius_miles source intent_score d).
Qed.

(** X10: Redis plays no part in what [track_search_result] answers or
    stores: for any two behaviours of the Redis client the handler
    returns the same and leaves the same store, and when the append to the
    stream raises, Redis is left as it was. *)
Theorem track_search_result_ignores_redis
    (req : request) (payload : SearchResultEvent) (rf rf' : redis_faults)
    (f : faults) (now : Z) (b : backend) :
  (track_search_result py_str req payload rf f now b).2
  = (track_search_result py_str req payload rf' f now b).2
  /\ b_db (track_search_result py_str req payload rf f now b).1
     = b_db (track_search_result py_str req payload rf' f now b).1
  /\ (xadd_fails rf = true ->
      b_redis (track_search_result py_str req payload rf f now b).1
      = b_redis b).
Proof.
  unfold track_search_result.
  destruct (log_event _ _ _ _ _ _ _ _ _ _ _ _ _ _) as [d' [[]|e]];
    cbn [fst snd b_db b_redis]; repeat split; try reflexivity.
  intros H. unfold xadd. by rewrite H.
Qed.

(** X11: [track_click] appends to the stream first and logs second, with
    neither call guarded.  For an allowed click type: if the append
    raises, the request fails and neither the store nor Redis has changed;
    if the append goes through and a driver call of the insert raises, the
    request fails with the click in the stream and not in the store. *)
Theorem track_click_effect_order
    (req : request) (ev : ClickEvent) (rf : redis_faults) (f : faults)
    (now : Z) (b : backend) :
  member (click_type ev) ALLOWED_CLICK_TYPES = true ->
  let out := track_click py_str req ev rf f now b in
  (xadd_fails rf = true -> out = (b, Raise RedisError))
  /\ (xadd_fails rf = false -> any_fault f = true ->
      out.2 = Raise DatabaseError
      /\ b_db out.1 = b_db b
      /\ exists fields,
           stream (b_redis out.1)
           = stream (b_redis b) ++ [("analytics_stream"%string, fields)]
           /\ fields !! "event"
              = Some (PStr ("provider_" ++ click_type ev ++ "_click"))
           /\ fields !! "provider_id" = Some (PInt (ce_provider_id ev))).
Proof.
  intros Hallowed out. subst out. unfold track_click. rewrite Hallowed.
  cbn [negb]. unfold xadd. split.
  - intros ->. by destruct b.
  - intros -> Hf.
    pose proof (log_event_outcome req
                  ("provider_" ++ click_type ev ++ "_click")
                  (Some {[ "provider_id" := PInt (ce_provider_id ev) ]})
                  PNone PNone PNone PNone PNone PNone "search" (Some 1.0%Q)
                  f (b_db b)) as H.
    cbv zeta in H. rewrite Hf in H. rewrite H. cbn [fst snd b_db b_redis].
    split; [reflexivity|]. split; [reflexivity|].
    eexists. split; [reflexivity|]. split; reflexivity.
Qed.

End LoggerFurther.

Section LoggerFurtherWitness.

Import UserActivityService AnalyticsApi.

(** X11 at a phone click on provider 42, once with the stream and once
    with the store failing. *)
Lemma track_click_effect_order_witness :
  track_click plain_str track_request phone_click xadd_raises no_faults 0
    idle_backend = (idle_backend, Raise RedisError)
  /\ (track_click plain_str track_request phone_click redis_healthy
        execute_raises 0 idle_backend).2 = Raise DatabaseError
  /\ analytics_events_v2
       (b_db (track_click plain_str track_request phone_click redis_healthy
                execute_raises 0 idle_backend).1) = []
  /\ length
       (stream
          (b_redis (track_click plain_str track_request phone_click
                      redis_healthy execute_raises 0 idle_backend).1))
     = 1%nat.
Proof.
  destruct (track_click_effect_order plain_str track_request phone_click
              xadd_raises no_faults 0 idle_backend eq_refl) as [H1 _].
  destruct (track_click_effect_order plain_str track_request phone_click
              redis_healthy execute_raises 0 idle_backend eq_refl)
    as [_ H2].
  destruct (H2 eq_refl eq_refl) as (Hr & Hdb & fields & Hs & _).
  split; [exact (H1 eq_refl)|]. split; [exact Hr|].
  split; [by rewrite Hdb|]. by rewrite Hs.
Defined.

End LoggerFurtherWitness.


(* ================================================================== *)
(** * Further properties of the nearby search                          *)
(* ================================================================== *)

Section NearbyFurther.

Import SearchApi.

Variable py_str : pyval -> string.
Variable payload_digest : list (string * pyval) -> string.

(** What [track_search_result] does to the backend when the store is in
    order or not: the query count and the keys of Redis stay. *)
Lemma track_search_result_outcome req payload rf f now b :
  let out := AnalyticsApi.track_search_result py_str req payload rf f now b in
  b_queries out.1 = b_queries b
  /\ kv (b_redis out.1) = kv (b_redis b)
  /\ (if any_fault f then out.2 = Raise DatabaseError
      else exists v, out.2 = Ok v).
Proof.
  cbv zeta. unfold AnalyticsApi.track_search_result.
  match goal with
  | |- context [UserActivityService.log_event py_str req ?et ?md ?a1 ?a2 ?a3
                  ?a4 ?a5 ?a6 ?src ?sc f ?d] =>
      pose proof (log_event_outcome py_str req et md a1 a2 a3 a4 a5 a6
                    src sc f d) as H;
      cbv zeta in H;
      destruct (UserActivityService.log_event py_str req et md a1 a2 a3 a4 a5
                  a6 src sc f d) as [d' r]
  end.
  destruct (any_fault f).
  - injection H as -> ->. cbn. auto.
  - cbn in H. destruct H as (-> & _). cbn.
    split; [reflexivity|]. split; [|eauto].
    unfold xadd. by destruct (xadd_fails rf).
Qed.

(** A miss, in general: the handler runs the query once; it fills the
    cache unless the write raises; and it answers with the providers
    found unless the logging of the search raises. *)
Lemma nearby_miss search_nearby req lat lon radius_miles limit rf f now b :
  let payload := nearby_payload lat lon radius_miles limit in
  let found := nearby_search search_nearby lat lon radius_miles limit in
  let out :=
    nearby py_str payload_digest search_nearby req lat lon radius_miles limit
      rf f now b in
  cache_get payload_digest "search:nearby" payload rf now (b_redis b) = PNone ->
  b_queries out.1 = S (b_queries b)
  /\ kv (b_redis out.1)
     = kv (cache_set py_str payload_digest "search:nearby" payload
             (PList (map PProvider found)) rf now (b_redis b))
  /\ out.2 = (if any_fault f then Raise DatabaseError
              else Ok (PList (map PProvider found))).
Proof.
  intros payload found out Hmiss. subst out.
  unfold nearby. fold (nearby_payload lat lon radius_miles limit).
  fold payload. rewrite Hmiss. fold found. cbn [len].
  match goal with
  | |- context [AnalyticsApi.track_search_result py_str req ?p rf f now ?b0] =>
      pose proof (track_search_result_outcome req p rf f now b0) as H;
      cbv zeta in H;
      destruct (AnalyticsApi.track_search_result py_str req p rf f now b0)
        as [b2 r]
  end.
  cbn [fst snd b_queries b_redis] in H. destruct H as (Hq & Hkv & Hr).
  destruct (any_fault f).
  - rewrite Hr. cbn. auto.
  - destruct Hr as [v ->]. cbn. auto.
Qed.

(** X12: the entry that a miss of [GET /search/nearby] leaves in the
    cache is used for 60 seconds and no longer.  A request with the same
    parameters before 60 seconds have passed runs no query and answers
    from the cache (with the [str] of each provider found); a request
    from 60 seconds on runs the query again and answers with the providers
    it finds. *)
Theorem nearby_cache_window
    (search_nearby : Q -> Q -> Q -> Z -> list Provider)
    (req : request) (lat lon : Q) (radius_miles limit now later : Z)
    (b : backend) :
  let payload := nearby_payload lat lon radius_miles limit in
  let found := nearby_search search_nearby lat lon radius_miles limit in
  let first :=
    nearby py_str payload_digest search_nearby req lat lon radius_miles limit
      redis_healthy no_faults now b in
  let second :=
    nearby py_str payload_digest search_nearby req lat lon radius_miles limit
      redis_healthy no_faults later first.1 in
  cache_get payload_digest "search:nearby" payload redis_healthy now
    (b_redis b) = PNone ->
  now <= later ->
  (later < now + 60 ->
   second.2 = Ok (stringified py_str found)
   /\ b_queries second.1 = b_queries first.1)
  /\ (now + 60 <= later ->
      second.2 = Ok (PList (map PProvider found))
      /\ b_queries second.1 = S (b_queries first.1)).
Proof.
  intros payload found first second Hmiss Hlater. split; intros H.
  - destruct (nearby_miss_then_hit py_str payload_digest search_nearby req
                lat lon radius_miles limit now later b Hmiss)
      as (_ & _ & H3 & H4); [unfold SEARCH_CACHE_TTL; lia|].
    split; [exact H3 | exact H4].
  - destruct (nearby_miss search_nearby req lat lon radius_miles limit
                redis_healthy no_faults now b Hmiss) as (_ & Hkv & _).
    fold payload found first in Hkv.
    assert (Hexpired :
      cache_get payload_digest "search:nearby" payload redis_healthy later
        (b_redis first.1) = PNone).
    { unfold cache_get, Redis.get. cbn [get_fails redis_healthy].
      rewrite Hkv. unfold cache_set, setex.
      cbn [setex_fails redis_healthy fst kv]. rewrite lookup_insert_eq.
      replace (later <? now + SEARCH_CACHE_TTL) with false
        by (symmetry; apply Z.ltb_ge; unfold SEARCH_CACHE_TTL; lia).
      reflexivity. }
    destruct (nearby_miss search_nearby req lat lon radius_miles limit
                redis_healthy no_faults later first.1 Hexpired)
      as (Hq & _ & Hr).
    split; [exact Hr | exact Hq].
Qed.

(** X13: nothing invalidates a cached answer.  If the providers table
    changes after a miss, so that the query would now find other
    providers, a request with the same parameters within the 60 seconds
    still answers with what was found before, and does not run the
    query. *)
Theorem nearby_serves_stale_answer
    (before after : Q -> Q -> Q -> Z -> list Provider)
    (req : request) (lat lon : Q) (radius_miles limit now later : Z)
    (b : backend) :
  let payload := nearby_payload lat lon radius_miles limit in
  let first :=
    nearby py_str payload_digest before req lat lon radius_miles limit
      redis_healthy no_faults now b in
  let second :=
    nearby py_str payload_digest after req lat lon radius_miles limit
      redis_healthy no_faults later first.1 in
  cache_get payload_digest "search:nearby" payload redis_healthy now
    (b_redis b) = PNone ->
  now <= later < now + 60 ->
  second.2
  = Ok (stringified py_str (nearby_search before lat lon radius_miles limit))
  /\ b_queries second.1 = b_queries first.1.
Proof.
  intros payload first second Hmiss Hlater.
  destruct (nearby_miss before req lat lon radius_miles limit
              redis_healthy no_faults now b Hmiss) as (_ & Hkv & _).
  fold payload first in Hkv.
  apply nearby_on_hit. fold (nearby_payload lat lon radius_miles limit).
  fold payload.
  unfold cache_get, Redis.get. cbn [get_fails redis_healthy].
  rewrite Hkv. unfold cache_set, setex.
  cbn [setex_fails redis_healthy fst kv]. rewrite lookup_insert_eq.
  replace (later <? now + SEARCH_CACHE_TTL) with true
    by (symmetry; apply Z.ltb_lt; unfold SEARCH_CACHE_TTL; lia).
  apply providers_through_json.
Qed.

(** X14: with Redis out of reach [GET /search/nearby] answers as on a
    miss with Redis in order, runs the query on every request, and leaves
    Redis unchanged. *)
Theorem nearby_without_redis
    (search_nearby : Q -> Q -> Q -> Z -> list Provider)
    (req : request) (lat lon : Q) (radius_miles limit now : Z) (b : backend) :
  let out :=
    nearby py_str payload_digest search_nearby req lat lon radius_miles limit
      redis_unavailable no_faults now b in
  out.2 = Ok (PList (map PProvider
                       (nearby_search search_nearby lat lon radius_miles
                          limit)))
  /\ b_queries out.1 = S (b_queries b)
  /\ kv (b_redis out.1) = kv (b_redis b).
Proof.
  destruct (nearby_miss search_nearby req lat lon radius_miles limit
              redis_unavailable no_faults now b eq_refl) as (Hq & Hkv & Hr).
  cbv zeta. split; [exact Hr|]. split; [exact Hq | exact Hkv].
Qed.

(** X15: the logging of the search is part of the request.  On a miss
    with Redis in order, if a driver call of [log_event] raises, the
    request fails with that error although the query has run and its
    answer is in the cache. *)
Theorem nearby_fails_with_logging
    (search_nearby : Q -> Q -> Q -> Z -> list Provider)
    (req : request) (lat lon : Q) (radius_miles limit now : Z) (f : faults)
    (b : backend) :
  let payload := nearby_payload lat lon radius_miles limit in
  let found := nearby_search search_nearby lat lon radius_miles limit in
  let out :=
    nearby py_str payload_digest search_nearby req lat lon radius_miles limit
      redis_healthy f now b in
  cache_get payload_digest "search:nearby" payload redis_healthy now
    (b_redis b) = PNone ->
  any_fault f = true ->
  out.2 = Raise DatabaseError
  /\ b_queries out.1 = S (b_queries b)
  /\ cache_get payload_digest "search:nearby" payload redis_healthy now
       (b_redis out.1) = stringified py_str found.
Proof.
  intros payload found out Hmiss Hf.
  destruct (nearby_miss search_nearby req lat lon radius_miles limit
              redis_healthy f now b Hmiss) as (Hq & Hkv & Hr).
  fold payload found out in Hq, Hkv, Hr. rewrite Hf in Hr.
  split; [exact Hr|]. split; [exact Hq|].
  unfold cache_get, Redis.get. cbn [get_fails redis_healthy].
  rewrite Hkv. unfold cache_set, setex.
  cbn [setex_fails redis_healthy fst kv]. rewrite lookup_insert_eq.
  replace (now <? now + SEARCH_CACHE_TTL) with true
    by (symmetry; apply Z.ltb_lt; unfold SEARCH_CACHE_TTL; lia).
  apply providers_through_json.
Qed.

End NearbyFurther.


Section NearbyFurtherWitness.

(** X12 at scenario 2, asked again after 30 and after 60 seconds. *)
Lemma nearby_cache_window_witness :
  let first :=
    SearchApi.nearby plain_str sample_digest one_provider_nearby
      nearby_request 25.76 (-80.19) 25 50 redis_healthy no_faults 0
      idle_backend in
  let at_30 :=
    SearchApi.nearby plain_str sample_digest one_provider_nearby
      nearby_request 25.76 (-80.19) 25 50 redis_healthy no_faults 30
      first.1 in
  let at_60 :=
    SearchApi.nearby plain_str sample_digest one_provider_nearby
      nearby_request 25.76 (-80.19) 25 50 redis_healthy no_faults 60
      first.1 in
  (at_30.2 = Ok (stringified plain_str [miami_provider])
   /\ b_queries at_30.1 = b_queries first.1)
  /\ (at_60.2 = Ok (PList [PProvider miami_provider])
      /\ b_queries at_60.1 = S (b_queries first.1)).
Proof.
  intros first at_30 at_60. split.
  - apply (nearby_cache_window plain_str sample_digest one_provider_nearby
             nearby_request 25.76 (-80.19) 25 50 0 30 idle_backend eq_refl);
      [discriminate | reflexivity].
  - apply (nearby_cache_window plain_str sample_digest one_provider_nearby
             nearby_request 25.76 (-80.19) 25 50 0 60 idle_backend eq_refl);
      discriminate.
Defined.

(** X13 at scenario 2 when the provider has left the table before the
    second request. *)
Lemma nearby_serves_stale_answer_witness :
  let first :=
    SearchApi.nearby plain_str sample_digest one_provider_nearby
      nearby_request 25.76 (-80.19) 25 50 redis_healthy no_faults 0
      idle_backend in
  let second :=
    SearchApi.nearby plain_str sample_digest no_provider_nearby
      nearby_request 25.76 (-80.19) 25 50 redis_healthy no_faults 30
      first.1 in
  second.2 = Ok (stringified plain_str [miami_provider])
  /\ b_queries second.1 = b_queries first.1.
Proof.
  intros first second.
  apply (nearby_serves_stale_answer plain_str sample_digest
           one_provider_nearby no_provider_nearby nearby_request 25.76
           (-80.19) 25 50 0 30 idle_backend eq_refl).
  split; [discriminate | reflexivity].
Defined.

(** X15 at scenario 2 with an insert that raises. *)
Lemma nearby_fails_with_logging_witness :
  let out :=
    SearchApi.nearby plain_str sample_digest one_provider_nearby
      nearby_request 25.76 (-80.19) 25 50 redis_healthy execute_raises 0
      idle_backend in
  out.2 = Raise DatabaseError
  /\ b_queries out.1 = 1%nat
  /\ SearchApi.cache_get sample_digest "search:nearby"
       (nearby_payload 25.76 (-80.19) 25 50) redis_healthy 0 (b_redis out.1)
     = stringified plain_str [miami_provider].
Proof.
  intros out.
  exact (nearby_fails_with_logging plain_str sample_digest
           one_provider_nearby nearby_request 25.76 (-80.19) 25 50 0
           execute_raises idle_backend eq_refl eq_refl).
Defined.

End NearbyFurtherWitness.

(* ================================================================== *)
(** * Further properties of the nearby search of the application       *)
(* ================================================================== *)

Section MainFurther.

Variable py_str : pyval -> string.
Variable uuid5_hex : string -> string.
Variable query_nearby : Q -> Q -> Q -> list pyval.

(** The tail of the handler when nothing raises: the row it logs holds
    the score in the [provider_id] column and no [intent_score]. *)
Lemma log_and_return_row req rows (metadata fields : gmap string pyval) rf b :
  well_typed_metadata metadata = true ->
  metadata !! "intent_score" = None ->
  exists row score,
    analytics_events_v2
      (b_db (Main.log_and_return py_str req rows metadata fields rf no_faults
               b).1)
    = analytics_events_v2 (b_db b) ++ [row]
    /\ IntentModel.score_intent "nearby_search" metadata = Ok score
    /\ ev_event_name row = "nearby_search"%string
    /\ ev_source row = "map"%string
    /\ ev_provider_id row = PFloat score
    /\ stored_score row = None.
Proof.
  intros Htyped Hnone. unfold Main.log_and_return.
  destruct (live_in_range "nearby_search" metadata Htyped) as (score & -> & _).
  pose proof (log_event_row py_str req "nearby_search" metadata
                (PFloat score) PNone PNone PNone PNone PNone "map" None
                (b_db b)) as (row & Hrows & _ & _ & _ & Hscore & _).
  pose proof (log_event_outcome py_str req "nearby_search"
                (Some metadata) (PFloat score) PNone PNone PNone PNone PNone
                "map" None no_faults (b_db b)) as H.
  cbv zeta in H. cbn [any_fault no_faults connect_fails cursor_fails
                        execute_fails commit_fails orb] in H.
  destruct (UserActivityService.log_event _ _ _ _ _ _ _ _ _ _ _ _ _ _)
    as [d' r].
  cbn [fst snd] in *.
  destruct H as (-> & _ & _ & row' & Hrows' & Hn & Hs & Hp & _).
  rewrite Hrows' in Hrows. apply app_inj_tail in Hrows as [_ Heq].
  subst row'.
  exists row, score.
  split.
  { unfold xadd.
    destruct (xadd_fails rf), (negb (encodable_fields fields)); exact Hrows'. }
  split; [reflexivity|]. split; [exact Hn|]. split; [exact Hs|].
  split; [exact Hp|]. unfold stored_score. rewrite Hscore, Hnone. reflexivity.
Qed.

(** X16: on a miss, with the store and Redis in order,
    [GET /providers/nearby] logs one [nearby_search] event with source
    [map]; the intent score that the handler computed is stored in the
    [provider_id] column of the event, and the metadata of the event holds
    no [intent_score].  (The row is committed before the append to the
    stream, which is where this handler fails, see X29.) *)
Theorem main_nearby_logs_score_as_provider_id
    (req : request) (fresh : string) (lat lon : Q) (radius now ms : Z)
    (b : backend) :
  let cache_key :=
    ("nearby:" ++ py_str (PFloat lat) ++ ":" ++ py_str (PFloat lon)
       ++ ":" ++ py_str (PInt radius))%string in
  let out :=
    Main.nearby py_str uuid5_hex query_nearby req fresh lat lon radius
      redis_healthy no_faults no_faults now ms b in
  Redis.get cache_key redis_healthy now (b_redis b) = Ok None ->
  exists row score,
    analytics_events_v2 (b_db out.1) = analytics_events_v2 (b_db b) ++ [row]
    /\ ev_event_name row = "nearby_search"%string
    /\ ev_source row = "map"%string
    /\ ev_provider_id row = PFloat score
    /\ in_unit_interval score
    /\ stored_score row = None.
Proof.
  intros cache_key out Hmiss. subst out. unfold Main.nearby.
  fold cache_key. rewrite Hmiss.
  cbn [Main.fetch_nearby enter_get_db cursor no_faults connect_fails
         cursor_fails execute_fails bind].
  cbn [setex redis_healthy setex_fails len b_db b_redis b_queries].
  match goal with
  | |- context [Main.log_and_return py_str req ?rows ?md ?fields
                  redis_healthy no_faults ?b0] =>
      pose proof (log_and_return_row req rows md fields redis_healthy b0)
        as Hrow;
      pose proof (live_in_range "nearby_search" md) as Hrange
  end.
  destruct Hrow as (row & score & Hrows & Hscore & Hn & Hs & Hp & Hnone);
    [vm_compute; reflexivity | vm_compute; reflexivity |].
  exists row, score.
  split; [exact Hrows|]. split; [exact Hn|]. split; [exact Hs|].
  split; [exact Hp|]. split; [|exact Hnone].
  destruct Hrange as (s & Hs' & Hin); [vm_compute; reflexivity|].
  rewrite Hscore in Hs'. injection Hs' as <-. exact Hin.
Qed.

(** An entry with a [bool] field is one the client does not encode. *)
Lemma bool_field_not_encodable (fields : gmap string pyval) key flag :
  fields !! key = Some (PBool flag) -> encodable_fields fields = false.
Proof.
  intros Hkey. apply bool_decide_eq_false. intros Hall.
  specialize (Hall key _ Hkey). discriminate.
Qed.

(** The tail of the handler never returns the rows when the entry for
    the stream has a [bool] field. *)
Lemma log_and_return_raises req rows (metadata fields : gmap string pyval)
    key flag rf f b :
  fields !! key = Some (PBool flag) ->
  exists e,
    (Main.log_and_return py_str req rows metadata fields rf f b).2 = Raise e.
Proof.
  intros Hkey. unfold Main.log_and_return.
  destruct (IntentModel.score_intent _ _) as [score|e]; [|by exists e].
  destruct (UserActivityService.log_event _ _ _ _ _ _ _ _ _ _ _ _ _ _)
    as [d [[]|e]]; [|by exists e].
  unfold xadd. rewrite (bool_field_not_encodable fields key flag Hkey).
  destruct (xadd_fails rf); by exists RedisError.
Qed.

(** X29: [GET /providers/nearby] of app/main.py never answers.  On both
    branches the entry it appends to the stream has the field [cached],
    [True] or [False]; the Redis client encodes strings, integers and
    floats and raises [DataError] for a [bool], and the call is not
    guarded.  So every request ends in an exception, whatever the
    parameters, the state and the health of the store and of Redis.  With
    both in order and the key absent, the request fails at that call
    after the query has run and the cache has been filled. *)
Theorem main_nearby_never_answers
    (req : request) (fresh : string) (lat lon : Q) (radius : Z)
    (rf : redis_faults) (qf f : faults) (now ms : Z) (b : backend) :
  let cache_key :=
    ("nearby:" ++ py_str (PFloat lat) ++ ":" ++ py_str (PFloat lon)
       ++ ":" ++ py_str (PInt radius))%string in
  let out :=
    Main.nearby py_str uuid5_hex query_nearby req fresh lat lon radius
      rf qf f now ms b in
  let healthy_out :=
    Main.nearby py_str uuid5_hex query_nearby req fresh lat lon radius
      redis_healthy no_faults no_faults now ms b in
  (exists e, out.2 = Raise e)
  /\ (Redis.get cache_key redis_healthy now (b_redis b) = Ok None ->
      healthy_out.2 = Raise RedisError
      /\ b_queries healthy_out.1 = S (b_queries b)
      /\ Redis.get cache_key redis_healthy now (b_redis healthy_out.1)
         = Ok (Some (json_dumps_default_str py_str
                       (PList (query_nearby lat lon
                                 (inject_Z radius * 1609.34)%Q))))).
Proof.
  intros cache_key out healthy_out. split.
  - subst out. unfold Main.nearby. fold cache_key.
    destruct (Redis.get cache_key rf now (b_redis b)) as [[doc|]|e];
      [| |by exists e].
    + destruct (len (json_loads doc)) as [count|e]; [|by exists e].
      eapply (log_and_return_raises _ _ _ _ "cached" true).
      vm_compute. reflexivity.
    + destruct (Main.fetch_nearby _ _ _ _ _) as [rows|e]; [|by exists e].
      destruct (setex _ _ _ _ _ _) as [r [[]|e]]; [|by exists e].
      destruct (len rows) as [count|e]; [|by exists e].
      eapply (log_and_return_raises _ _ _ _ "cached" false).
      vm_compute. reflexivity.
  - intros Hmiss. subst healthy_out. unfold Main.nearby. fold cache_key.
    rewrite Hmiss.
    cbn [Main.fetch_nearby enter_get_db cursor no_faults connect_fails
           cursor_fails execute_fails bind].
    cbn [setex redis_healthy setex_fails len b_db b_redis b_queries].
    unfold Main.log_and_return.
    match goal with
    | |- context [IntentModel.score_intent "nearby_search" ?md] =>
        destruct (live_in_range "nearby_search" md) as (score & -> & _);
          [vm_compute; reflexivity|]
    end.
    match goal with
    | |- context [UserActivityService.log_event py_str req ?et ?md ?a1 ?a2
                    ?a3 ?a4 ?a5 ?a6 ?src ?sc no_faults ?d] =>
        pose proof (log_event_outcome py_str req et md a1 a2 a3 a4 a5 a6 src
                      sc no_faults d) as H;
        cbv zeta in H;
        destruct (UserActivityService.log_event py_str req et md a1 a2 a3 a4
                    a5 a6 src sc no_faults d) as [d' r]
    end.
    cbn [any_fault no_faults connect_fails cursor_fails execute_fails
           commit_fails orb fst snd] in H.
    destruct H as (-> & _).
    unfold xadd. cbn [redis_healthy xadd_fails].
    match goal with
    | |- context [encodable_fields ?fs] =>
        rewrite (bool_field_not_encodable fs "cached" false)
          by (vm_compute; reflexivity)
    end.
    cbn [negb fst snd b_queries b_redis].
    split; [reflexivity|]. split; [reflexivity|].
    unfold Redis.get. cbn [get_fails redis_healthy kv].
    rewrite lookup_insert_eq.
    replace (now <? now + 3600) with true by (symmetry; apply Z.ltb_lt; lia).
    reflexivity.
Qed.

End MainFurther.

Section MainFurtherWitness.

(** X16 at scenario 2 on an empty cache. *)
Lemma main_nearby_logs_score_as_provider_id_witness :
  exists row score,
    analytics_events_v2 (b_db main_first_lookup.1) = [row]
    /\ ev_event_name row = "nearby_search"%string
    /\ ev_source row = "map"%string
    /\ ev_provider_id row = PFloat score
    /\ in_unit_interval score
    /\ stored_score row = None.
Proof.
  exact (main_nearby_logs_score_as_provider_id plain_str sample_uuid5
           one_row_nearby nearby_request "6c1e" 25.76 (-80.19) 25 0 12
           idle_backend eq_refl).
Defined.

End MainFurtherWitness.

(* ================================================================== *)
(** * Further properties of the scorers                                *)
(* ================================================================== *)

Section ScorersFurther.

Import ArchiveTiers.

Local Open Scope Q_scope.

Lemma Qle_bool_false (x y : Q) : Qle_bool x y = false <-> y < x.
Proof.
  split.
  - intros H. apply Qnot_le_lt. intros Hle%Qle_bool_iff. congruence.
  - intros H. destruct (Qle_bool x y) eqn:E; [|reflexivity].
    apply Qle_bool_iff in E. lra.
Qed.

(** X17: the tiers follow the score: a score that is at least another
    falls in a tier that is at least as high, in the order [cold],
    [qualified], [warm_lead], [hot_lead]. *)
Theorem classify_intent_tier_monotone (s1 s2 : Q) :
  s1 <= s2 ->
  (tier_rank (classify_intent_tier s1)
   <= tier_rank (classify_intent_tier s2))%nat.
Proof.
  intros Hle. unfold classify_intent_tier.
  destruct (Qle_bool 0.8 s1) eqn:A1, (Qle_bool 0.6 s1) eqn:B1,
    (Qle_bool 0.4 s1) eqn:C1, (Qle_bool 0.8 s2) eqn:A2,
    (Qle_bool 0.6 s2) eqn:B2, (Qle_bool 0.4 s2) eqn:C2;
    cbn [tier_rank]; try lia; exfalso;
    repeat match goal with
      | H : Qle_bool _ _ = true |- _ => apply Qle_bool_iff in H
      | H : Qle_bool _ _ = false |- _ => apply Qle_bool_false in H
      end; lra.
Qed.

(** The clamp of the archived scorer keeps a lower bound below 1. *)
Lemma clamp_keeps_floor (floor x : Q) :
  0 <= floor <= 1 -> floor <= x -> floor <= Qmax 0.0 (Qmin 1.0 x).
Proof.
  intros [H0 H1] Hx.
  apply Qle_trans with (Qmin 1.0 x); [|apply Q.le_max_r].
  apply Q.min_glb; [lra | exact Hx].
Qed.

(** X18: in the archived module a kind whose base score is at least 0.9
    ([phone_click], [directions_click]) is a [hot_lead] whatever the
    metadata say: the one deduction, 0.1 for a query that asks for
    something cheap, cannot take it below 0.8. *)
Theorem archive_strong_kind_is_hot_lead
    (kind : string) (md : gmap string pyval) :
  0.9 <= IntentModel.table_get ArchiveIntent.base_scores kind 0.1 ->
  well_typed_metadata md = true ->
  exists s,
    ArchiveIntent.score_intent kind md = Ok s
    /\ classify_intent_tier s = hot_lead.
Proof.
  intros Hbase (_ & H2 & _ & H4)%well_typed_fields.
  unfold ArchiveIntent.score_intent.
  set (base := IntentModel.table_get _ _ _) in *.
  destruct (query_lower_str md H4) as [q ->]. cbn [bind].
  destruct (lt_num_numeric md "response_ms" (PInt 99999) 5000 H2 eq_refl)
    as [fast ->].
  cbn [bind]. eexists; split; [reflexivity|].
  unfold classify_intent_tier.
  match goal with
  | |- context [Qle_bool 0.8 ?s] =>
      assert (Hs : 0.8 <= s); [|apply Qle_bool_iff in Hs; by rewrite Hs]
  end.
  apply clamp_keeps_floor; [lra|].
  destruct (any_in _ q), (any_in _ q), (any_in _ q), (any_in _ q),
    (truthy _), fast; lra.
Qed.

(** X19: what the scorer in use adds to the base score of a kind.  On
    well-typed metadata the score is between the base and the base plus
    0.15; empty metadata give the base itself; and metadata that are not
    empty and have no [response_ms] always earn the 0.05 of a fast
    response, since the missing time reads as 0. *)
Theorem live_score_bonus (kind : string) (md : gmap string pyval) :
  well_typed_metadata md = true ->
  exists s,
    IntentModel.score_intent kind md = Ok s
    /\ live_base kind <= s <= live_base kind + 0.15
    /\ (md = ∅ -> s == live_base kind)
    /\ (md <> ∅ -> md !! "response_ms" = None -> live_base kind + 0.05 <= s).
Proof.
  intros (H1 & H2 & H3 & _)%well_typed_fields.
  unfold IntentModel.score_intent, live_base.
  pose proof (live_base_bounds kind) as [Hlo Hhi].
  set (base := IntentModel.table_get _ _ _) in *.
  destruct (lt_num_numeric md "result_count" (PInt 0) 10 H1 eq_refl) as [b1 E1].
  destruct (lt_num_numeric md "response_ms" (PInt 0) 100 H2 eq_refl) as [b2 E2].
  destruct (le_num_numeric md "radius" (PInt 25) 10 H3 eq_refl) as [b3 E3].
  assert (Hempty : dict_truthy md = false <-> md = ∅).
  { unfold dict_truthy. rewrite negb_false_iff, Nat.eqb_eq.
    apply map_size_empty_iff. }
  assert (Hfast : md !! "response_ms" = None -> b2 = true).
  { intros Hnone. unfold dict_get in E2. rewrite Hnone in E2.
    cbn in E2. by injection E2 as <-. }
  assert (Hcase : dict_truthy md = true /\ md <> ∅
                  \/ dict_truthy md = false /\ md = ∅).
  { destruct (dict_truthy md); [left | right; split; [|apply Hempty]; done].
    split; [done|]. intros Hm. apply (proj2 Hempty) in Hm. discriminate. }
  clear Hempty. destruct Hcase as [[Ht Hne] | [Ht Hm]]; rewrite Ht;
    cbn [bind].
  -
    unfold IntentModel.and_then. rewrite E2.
    destruct (String.eqb kind "search") eqn:Ks;
      destruct (String.eqb kind "nearby_search") eqn:Kn.
    + apply String.eqb_eq in Ks, Kn. congruence.
    + rewrite E1. cbn [bind]. eexists; split; [reflexivity|].
      split; [|split; [intros; contradiction|]].
      * destruct b1, b2; split;
          try (apply Q.min_glb; lra);
          (eapply Qle_trans; [apply Q.le_min_l|]; lra).
      * intros _ ->%Hfast. destruct b1; apply Q.min_glb; lra.
    + rewrite E3. cbn [bind]. eexists; split; [reflexivity|].
      split; [|split; [intros; contradiction|]].
      * destruct b3, b2; split;
          try (apply Q.min_glb; lra);
          (eapply Qle_trans; [apply Q.le_min_l|]; lra).
      * intros _ ->%Hfast. destruct b3; apply Q.min_glb; lra.
    + cbn [bind]. eexists; split; [reflexivity|].
      split; [|split; [intros; contradiction|]].
      * destruct b2; split;
          try (apply Q.min_glb; lra);
          (eapply Qle_trans; [apply Q.le_min_l|]; lra).
      * intros _ ->%Hfast. apply Q.min_glb; lra.
  - eexists; split; [reflexivity|].
    assert (Hmin : Qmin base 1.0 == base) by (apply Q.min_l; lra).
    split; [rewrite Hmin; split; lra|].
    split; [intros _; exact Hmin | intros Hne; contradiction].
Qed.

End ScorersFurther.

Section ScorersFurtherWitness.

Local Open Scope Q_scope.

(** X17 at a score of 0.45 and one of 0.85. *)
Lemma classify_intent_tier_monotone_witness :
  (tier_rank (ArchiveTiers.classify_intent_tier 0.45)
   <= tier_rank (ArchiveTiers.classify_intent_tier 0.85))%nat.
Proof.
  apply (classify_intent_tier_monotone 0.45 0.85). lra.
Defined.

(** X18 at a phone click that follows a query for something cheap. *)
Lemma archive_strong_kind_is_hot_lead_witness :
  exists s,
    ArchiveIntent.score_intent "phone_click" {[ "query" := cheap_query ]}
    = Ok s
    /\ ArchiveTiers.classify_intent_tier s = ArchiveTiers.hot_lead.
Proof.
  apply (archive_strong_kind_is_hot_lead "phone_click"
           {[ "query" := cheap_query ]}).
  - vm_compute. discriminate.
  - vm_compute. reflexivity.
Defined.

(** X19 at a phone click whose metadata name only the card it came
    from. *)
Lemma live_score_bonus_witness :
  exists s,
    IntentModel.score_intent "phone_click" {[ "card" := PStr "list" ]} = Ok s
    /\ live_base "phone_click" <= s <= live_base "phone_click" + 0.15
    /\ (({[ "card" := PStr "list" ]} : gmap string pyval) = ∅ ->
        s == live_base "phone_click")
    /\ (({[ "card" := PStr "list" ]} : gmap string pyval) <> ∅ ->
        ({[ "card" := PStr "list" ]} : gmap string pyval) !! "response_ms"
        = None ->
        live_base "phone_click" + 0.05 <= s).
Proof.
  apply (live_score_bonus "phone_click" {[ "card" := PStr "list" ]}).
  vm_compute. reflexivity.
Defined.

End ScorersFurtherWitness.

(* ================================================================== *)
(** * Sessions and the free-text search                                *)
(* ================================================================== *)

Section SessionFurther.

Import MainHandlers.

(** X20: the session of a client is stable.  Whatever cookies a request
    brings, the helper returns an id that is not empty; when it sets a
    cookie, that cookie is [session_id], holds the id returned and lives
    for 365 days; and a client that sends back what it was sent gets the
    same id on its next request, with no cookie set again. *)
Theorem session_is_stable (req : request) (fresh fresh' : string) :
  fresh <> ""%string ->
  let first := get_or_create_session req fresh in
  let again := get_or_create_session (with_cookie req first.2) fresh' in
  first.1 <> ""%string
  /\ first.1 = Main.get_or_create_session req fresh
  /\ (forall c, first.2 = Some c ->
        cookie_name c = "session_id"%string
        /\ cookie_value c = first.1
        /\ max_age c = 31536000)
  /\ again = (first.1, None).
Proof.
  intros Hfresh. cbv zeta.
  unfold get_or_create_session, Main.get_or_create_session.
  destruct (cookies req !! "session_id") as [s|] eqn:Hc.
  - destruct (String.eqb s "") eqn:Hs; cbn [fst snd with_cookie cookies].
    + split; [exact Hfresh|]. split; [reflexivity|].
      split; [by intros c [= <-]|].
      cbn [cookie_name cookie_value]. rewrite lookup_insert_eq.
      apply String.eqb_neq in Hfresh. by rewrite Hfresh.
    + split; [by apply String.eqb_neq|]. split; [reflexivity|].
      split; [discriminate|]. by rewrite Hc, Hs.
  - cbn [fst snd with_cookie cookies]. split; [exact Hfresh|].
    split; [reflexivity|]. split; [by intros c [= <-]|].
    cbn [cookie_name cookie_value]. rewrite lookup_insert_eq.
    apply String.eqb_neq in Hfresh. by rewrite Hfresh.
Qed.

End SessionFurther.

Section SearchFurther.

Import MainHandlers.

Variable py_str : pyval -> string.
Variable uuid5_hex : string -> string.
Variable query_search : string -> Z -> list pyval.
Variable stripped_len : string -> Z.

(** The block that reads the providers answers with the rows of the
    query or raises. *)
Lemma fetch_search_cases query limit qf :
  fetch_search query_search query limit qf
  = Ok (PList (query_search ("%" ++ query ++ "%")%string limit))
  \/ exists e, fetch_search query_search query limit qf = Raise e.
Proof.
  unfold fetch_search, enter_get_db, cursor.
  destruct (connect_fails qf); [right; eexists; reflexivity|]. cbn [bind].
  destruct (cursor_fails qf); [right; eexists; reflexivity|]. cbn [bind].
  destruct (execute_fails qf); [right; eexists; reflexivity | by left].
Qed.

(** X21: what [GET /providers/search] never does.  A client whose
    [User-Agent] names a crawler gets 403 whatever it asks; a query of
    fewer than two characters once stripped gets the empty list; in both
    cases the database and Redis are not touched, so the answer does not
    depend on their health.  And as [LIMIT] bounds the rows of the query,
    no answer has more than 50 rows, whatever [limit] the client
    passed. *)
Theorem search_refuses_and_caps
    (req : request) (fresh query : string) (limit : Z)
    (rf : redis_faults) (qf f : faults) (now ms : Z) (b : backend) :
  respects_limit query_search ->
  let ua := lower (default "" (headers req !! "user-agent")) in
  let out :=
    search py_str uuid5_hex query_search stripped_len req fresh query limit
      rf qf f now ms b in
  (any_in BOT_MARKERS ua = true -> out = (b, Raise (HTTPException 403)))
  /\ (any_in BOT_MARKERS ua = false ->
      stripped_len query < 2 -> out = (b, Ok (PList [])))
  /\ (forall rows, out.2 = Ok (PList rows) -> (length rows <= 50)%nat).
Proof.
  intros Hlimit. cbv zeta. unfold search.
  destruct (any_in BOT_MARKERS _) eqn:Hbot.
  { split; [reflexivity|]. split; [discriminate|]. intros rows [=]. }
  split; [discriminate|].
  destruct (stripped_len query <? 2) eqn:Hshort.
  { split; [reflexivity|]. intros rows [= <-]. cbn. lia. }
  split; [intros _ Hlen; apply Z.ltb_ge in Hshort; lia|].
  intros rows.
  destruct (fetch_search_cases query (Z.min limit 50) qf) as [-> | [e ->]];
    [|intros [=]].
  cbn [len].
  destruct (IntentModel.score_intent _ _); [|intros [=]].
  destruct (UserActivityService.log_event _ _ _ _ _ _ _ _ _ _ _ _ _ _)
    as [d [|e]]; [|intros [=]].
  destruct (xadd _ _ _ _) as [r [|e]]; [|intros [=]].
  cbn [snd]. intros [= <-].
  pose proof (Hlimit ("%" ++ query ++ "%")%string (Z.min limit 50)). lia.
Qed.

(** X22: a search that is answered.  For a client that is no crawler, a
    query of two characters or more and no call raising, the handler
    runs one query with [min(limit, 50)] as its [LIMIT] and returns its
    rows, appends one entry to the stream, and logs one [search] event:
    the metadata of the event hold the query and the [limit] as capped,
    and the intent score is stored as the [provider_id] of the event, the
    metadata holding no [intent_score]. *)
Theorem search_answers_and_logs
    (req : request) (fresh query : string) (limit now ms : Z) (b : backend) :
  let ua := lower (default "" (headers req !! "user-agent")) in
  let out :=
    search py_str uuid5_hex query_search stripped_len req fresh query limit
      redis_healthy no_faults no_faults now ms b in
  any_in BOT_MARKERS ua = false ->
  2 <= stripped_len query ->
  out.2 = Ok (PList (query_search ("%" ++ query ++ "%")%string
                       (Z.min limit 50)))
  /\ b_queries out.1 = S (b_queries b)
  /\ length (stream (b_redis out.1)) = S (length (stream (b_redis b)))
  /\ exists row score,
       analytics_events_v2 (b_db out.1)
       = analytics_events_v2 (b_db b) ++ [row]
       /\ ev_event_name row = "search"%string
       /\ ev_source row = "search"%string
       /\ ev_provider_id row = PFloat score
       /\ in_unit_interval score
       /\ stored_score row = None
       /\ ev_metadata row !! "query" = Some (PStr query)
       /\ ev_metadata row !! "limit" = Some (PInt (Z.min limit 50)).
Proof.
  intros ua out Hbot Hlong. subst ua out. unfold search. rewrite Hbot.
  assert (Hshort : (stripped_len query <? 2) = false)
    by (apply Z.ltb_ge; lia).
  rewrite Hshort.
  cbn [fetch_search enter_get_db cursor no_faults connect_fails cursor_fails
         execute_fails bind len b_db b_redis b_queries].
  set (rows := query_search _ _).
  set (md := list_to_map _ : gmap string pyval).
  assert (Htyped : well_typed_metadata md = true) by (vm_compute; reflexivity).
  destruct (live_in_range "search" md Htyped) as (score & -> & Hin).
  pose proof (log_event_row py_str req "search" md (PFloat score) PNone PNone
                PNone PNone PNone "search" None (b_db b))
    as (row & Hrows & _ & _ & _ & Hscore & Hkeys).
  pose proof (log_event_outcome py_str req "search" (Some md) (PFloat score)
                PNone PNone PNone PNone PNone "search" None no_faults
                (b_db b)) as H.
  cbv zeta in H. cbn [any_fault no_faults connect_fails cursor_fails
                        execute_fails commit_fails orb] in H.
  destruct (UserActivityService.log_event _ _ _ _ _ _ _ _ _ _ _ _ _ _)
    as [d' r].
  cbn [fst snd] in *.
  destruct H as (-> & _ & _ & row' & Hrows' & Hn & Hs & Hp & _).
  rewrite Hrows' in Hrows. apply app_inj_tail in Hrows as [_ Heq].
  subst row'.
  unfold xadd. cbn [redis_healthy xadd_fails].
  rewrite encodable_list_to_map by reflexivity.
  cbn [negb fst snd b_db b_redis b_queries stream].
  split; [reflexivity|]. split; [reflexivity|].
  split; [rewrite length_app; cbn; lia|].
  exists row, score.
  split; [exact Hrows'|]. split; [exact Hn|]. split; [exact Hs|].
  split; [exact Hp|]. split; [exact Hin|].
  split.
  { unfold stored_score. rewrite Hscore. reflexivity. }
  split.
  - rewrite (Hkeys "query") by reflexivity. reflexivity.
  - rewrite (Hkeys "limit") by reflexivity. reflexivity.
Qed.

End SearchFurther.

Section SearchFurtherWitness.

Import MainHandlers.

(** X20 at a first visit without cookies. *)
Lemma session_is_stable_witness :
  let first := get_or_create_session browser_request "6c1e" in
  let again :=
    get_or_create_session (with_cookie browser_request first.2) "9d24" in
  first.1 <> ""%string
  /\ first.1 = Main.get_or_create_session browser_request "6c1e"
  /\ (forall c, first.2 = Some c ->
        cookie_name c = "session_id"%string
        /\ cookie_value c = first.1
        /\ max_age c = 31536000)
  /\ again = (first.1, None).
Proof.
  apply (session_is_stable browser_request "6c1e" "9d24"). discriminate.
Defined.

(** X21 at a table of one row, which keeps every limit, and a browser
    that asks for 500 rows. *)
Lemma search_refuses_and_caps_witness :
  let table (term : string) (limit : Z) :=
    take (Z.to_nat limit) [miami_listing] in
  let out :=
    search plain_str sample_uuid5 table plain_len browser_request "6c1e" "aba"
      500
      redis_healthy no_faults no_faults 0 12 idle_backend in
  respects_limit table
  /\ out.2 = Ok (PList [miami_listing])
  /\ (forall rows, out.2 = Ok (PList rows) -> (length rows <= 50)%nat).
Proof.
  intros table out.
  assert (Htable : respects_limit table).
  { intros term limit. unfold table. rewrite length_take. lia. }
  split; [exact Htable|]. split; [vm_compute; reflexivity|].
  exact (proj2 (proj2 (search_refuses_and_caps plain_str sample_uuid5 table
                         plain_len
                         browser_request "6c1e" "aba" 500 redis_healthy
                         no_faults no_faults 0 12 idle_backend Htable))).
Defined.

(** X22 at a browser that searches for [aba] and asks for 500 rows. *)
Lemma search_answers_and_logs_witness :
  let out :=
    search plain_str sample_uuid5 one_row_search plain_len browser_request
      "6c1e" "aba" 500 redis_healthy no_faults no_faults 0 12 idle_backend in
  out.2 = Ok (PList [miami_listing])
  /\ b_queries out.1 = 1%nat
  /\ length (stream (b_redis out.1)) = 1%nat
  /\ exists row score,
       analytics_events_v2 (b_db out.1) = [row]
       /\ ev_event_name row = "search"%string
       /\ ev_source row = "search"%string
       /\ ev_provider_id row = PFloat score
       /\ in_unit_interval score
       /\ stored_score row = None
       /\ ev_metadata row !! "query" = Some (PStr "aba")
       /\ ev_metadata row !! "limit" = Some (PInt 50).
Proof.
  apply (search_answers_and_logs plain_str sample_uuid5 one_row_search
           plain_len
           browser_request "6c1e" "aba" 500 0 12 idle_backend).
  - vm_compute. reflexivity.
  - unfold plain_len. cbn. lia.
Defined.

End SearchFurtherWitness.

(* ================================================================== *)
(** * The keyword handlers                                             *)
(* ================================================================== *)

Section KeywordFurther.

Import SearchApi SearchApiKeyword.

Variable py_str : pyval -> string.
Variable payload_digest : list (string * pyval) -> string.

Lemma basic_is_keyword_handler search_basic search_fuzzy :
  basic py_str payload_digest search_basic
  = keyword_handler py_str payload_digest "search:basic"
      (basic_search search_basic)
  /\ fuzzy py_str payload_digest search_fuzzy
     = keyword_handler py_str payload_digest "search:fuzzy"
         (fuzzy_search search_fuzzy).
Proof. split; reflexivity. Qed.

(** Two of the three prefixes that differ give keys that differ, whatever
    the digests. *)
Lemma prefixes_give_distinct_keys prefix prefix' payload payload' :
  prefix ∈ SEARCH_PREFIXES -> prefix' ∈ SEARCH_PREFIXES ->
  prefix' <> prefix ->
  _cache_key payload_digest prefix' payload'
  <> _cache_key payload_digest prefix payload.
Proof.
  unfold SEARCH_PREFIXES, _cache_key.
  rewrite !elem_of_cons, !elem_of_nil.
  intros [-> | [-> | [-> | []]]] [-> | [-> | [-> | []]]] Hne;
    try congruence; cbn; discriminate.
Qed.

(** A key of Redis that is not written reads as before. *)
Lemma cache_get_other_key prefix' payload' rf now (r r' : redis) :
  kv r' !! _cache_key payload_digest prefix' payload'
  = kv r !! _cache_key payload_digest prefix' payload' ->
  cache_get payload_digest prefix' payload' rf now r'
  = cache_get payload_digest prefix' payload' rf now r.
Proof.
  intros H. unfold cache_get, Redis.get. by rewrite H.
Qed.

(** The keys of Redis after [cache_set]: as before, or with the one key
    of the handler written. *)
Lemma cache_set_kv prefix payload results rf now r :
  kv (cache_set py_str payload_digest prefix payload results rf now r)
  = kv r
  \/ exists entry,
       kv (cache_set py_str payload_digest prefix payload results rf now r)
       = <[_cache_key payload_digest prefix payload := entry]> (kv r).
Proof.
  unfold cache_set, setex. destruct (setex_fails rf);
    [by left | right; eexists; reflexivity].
Qed.

Lemma written_key_keeps_others prefix payload (r r' : redis) :
  prefix ∈ SEARCH_PREFIXES ->
  (kv r' = kv r
   \/ exists entry,
        kv r' = <[_cache_key payload_digest prefix payload := entry]> (kv r)) ->
  keeps_other_entries payload_digest prefix r r'.
Proof.
  intros Hin Hkv prefix' payload' rf now Hin' Hne.
  apply cache_get_other_key.
  destruct Hkv as [-> | [entry ->]]; [reflexivity|].
  apply lookup_insert_ne. intros Heq.
  by apply (prefixes_give_distinct_keys prefix prefix' payload payload').
Qed.

(** The keys of Redis after a keyword handler. *)
Lemma keyword_handler_kv prefix search req q limit rf f now b :
  let out :=
    keyword_handler py_str payload_digest prefix search req q limit rf f now
      b in
  let payload := [ ("q", PStr q); ("limit", PInt limit) ] in
  kv (b_redis out.1) = kv (b_redis b)
  \/ exists entry,
       kv (b_redis out.1)
       = <[_cache_key payload_digest prefix payload := entry]>
           (kv (b_redis b)).
Proof.
  cbv zeta. unfold keyword_handler.
  set (payload := [ ("q", PStr q); ("limit", PInt limit) ]).
  set (results := PList (map PProvider (search q limit))).
  pose proof (cache_set_kv prefix payload results rf now (b_redis b)) as Hset.
  destruct (cache_get payload_digest prefix payload rf now (b_redis b)) eqn:Hc;
    match goal with
    | |- context [len ?v] => destruct (len v) as [count|e]
    end;
    cbn [fst snd b_redis];
    try (by left); try exact Hset;
    match goal with
    | |- context [AnalyticsApi.track_search_result py_str req ?p rf f now
                    ?b0] =>
        pose proof (track_search_result_outcome py_str req p rf f now b0)
          as H;
        cbv zeta in H;
        destruct (AnalyticsApi.track_search_result py_str req p rf f now b0)
          as [b2 [v|e]]
    end;
    cbn [fst snd b_redis] in *; destruct H as (_ & -> & _);
    try (by left); exact Hset.
Qed.

(** The keys of Redis after [GET /search/nearby]. *)
Lemma nearby_kv search_nearby req lat lon radius_miles limit rf f now b :
  let out :=
    nearby py_str payload_digest search_nearby req lat lon radius_miles limit
      rf f now b in
  let payload := nearby_payload lat lon radius_miles limit in
  kv (b_redis out.1) = kv (b_redis b)
  \/ exists entry,
       kv (b_redis out.1)
       = <[_cache_key payload_digest "search:nearby" payload := entry]>
           (kv (b_redis b)).
Proof.
  cbv zeta. unfold nearby.
  fold (nearby_payload lat lon radius_miles limit).
  set (payload := nearby_payload lat lon radius_miles limit).
  set (results :=
         PList (map PProvider
                  (nearby_search search_nearby lat lon radius_miles limit))).
  pose proof (cache_set_kv "search:nearby" payload results rf now (b_redis b))
    as Hset.
  destruct (cache_get payload_digest "search:nearby" payload rf now
              (b_redis b)) eqn:Hc;
    match goal with
    | |- context [len ?v] => destruct (len v) as [count|e]
    end;
    cbn [fst snd b_redis];
    try (by left); try exact Hset;
    match goal with
    | |- context [AnalyticsApi.track_search_result py_str req ?p rf f now
                    ?b0] =>
        pose proof (track_search_result_outcome py_str req p rf f now b0)
          as H;
        cbv zeta in H;
        destruct (AnalyticsApi.track_search_result py_str req p rf f now b0)
          as [b2 [v|e]]
    end;
    cbn [fst snd b_redis] in *; destruct H as (_ & -> & _);
    try (by left); exact Hset.
Qed.

(** X23: the three handlers of the search API never touch one another's
    cache entries.  Whatever the request, the state of Redis and of the
    store, and whether the answer came from the cache or not, what is
    looked up under the prefix of another handler reads the same after a
    request as before it: the keys differ in the prefix, whatever the
    digests are. *)
Theorem search_handlers_keep_separate_entries
    (search_basic search_fuzzy : string -> Z -> list Provider)
    (search_nearby : Q -> Q -> Q -> Z -> list Provider)
    (req : request) (q : string) (lat lon : Q) (radius_miles limit : Z)
    (rf : redis_faults) (f : faults) (now : Z) (b : backend) :
  keeps_other_entries payload_digest "search:basic" (b_redis b)
    (b_redis (basic py_str payload_digest search_basic req q limit rf f now
                b).1)
  /\ keeps_other_entries payload_digest "search:fuzzy" (b_redis b)
       (b_redis (fuzzy py_str payload_digest search_fuzzy req q limit rf f
                   now b).1)
  /\ keeps_other_entries payload_digest "search:nearby" (b_redis b)
       (b_redis (nearby py_str payload_digest search_nearby req lat lon
                   radius_miles limit rf f now b).1).
Proof.
  destruct (basic_is_keyword_handler search_basic search_fuzzy) as [-> ->].
  split; [|split].
  - eapply written_key_keeps_others; [set_solver|].
    apply keyword_handler_kv.
  - eapply written_key_keeps_others; [set_solver|].
    apply keyword_handler_kv.
  - eapply written_key_keeps_others; [set_solver|].
    apply nearby_kv.
Qed.

(** The rows logged by a keyword handler on a miss. *)
Lemma keyword_handler_miss prefix search req q limit rf now b :
  let payload := [ ("q", PStr q); ("limit", PInt limit) ] in
  let out :=
    keyword_handler py_str payload_digest prefix search req q limit rf
      no_faults now b in
  cache_get payload_digest prefix payload rf now (b_redis b) = PNone ->
  out.2 = Ok (PList (map PProvider (search q limit)))
  /\ b_queries out.1 = S (b_queries b)
  /\ exists row,
       analytics_events_v2 (b_db out.1) = analytics_events_v2 (b_db b) ++ [row]
       /\ ev_event_name row
          = AnalyticsApi.search_result_kind (Z.of_nat (length (search q limit)))
       /\ stored_score row
          = Some (PFloat (AnalyticsApi.search_result_score
                            (Z.of_nat (length (search q limit))))).
Proof.
  intros payload out Hmiss. subst out. unfold keyword_handler.
  fold payload. rewrite Hmiss. cbn [len]. rewrite length_map.
  match goal with
  | |- context [AnalyticsApi.track_search_result py_str req ?p rf no_faults
                  now ?b0] =>
      pose proof (track_search_result_outcome py_str req p rf no_faults now
                    b0) as H;
      pose proof (track_search_result_row py_str req p rf now b0)
        as (row & Hrows & Hname & Hscore);
      cbv zeta in H;
      destruct (AnalyticsApi.track_search_result py_str req p rf no_faults
                  now b0) as [b2 r]
  end.
  cbn [fst snd b_queries b_redis b_db AnalyticsApi.results_count any_fault
         no_faults connect_fails cursor_fails execute_fails commit_fails orb]
    in *.
  destruct H as (Hq & _ & v & ->).
  split; [reflexivity|]. split; [exact Hq|].
  exists row. auto.
Qed.

(** X24: a keyword search that asks for one or two rows is never logged
    as satisfied.  On a miss with the store in order, [GET /search/basic]
    and [GET /search/fuzzy] answer with at most [limit] providers; the
    event they log is classified by the number of providers answered, not
    by the number that match, so with [limit] at most 2 the event is
    [search_unmet] or [search_low_supply] and its stored intent score is
    above 1, however many providers the table holds. *)
Theorem small_limit_logged_as_unmet_demand
    (search_basic search_fuzzy : string -> Z -> list Provider)
    (req : request) (q : string) (limit : Z) (rf : redis_faults) (now : Z)
    (b : backend) :
  let payload := [ ("q", PStr q); ("limit", PInt limit) ] in
  let logged_above_one (prefix : string) (out : backend * result pyval) :=
    cache_get payload_digest prefix payload rf now (b_redis b) = PNone ->
    exists found row score,
      out.2 = Ok (PList (map PProvider found))
      /\ (length found <= 2)%nat
      /\ analytics_events_v2 (b_db out.1)
         = analytics_events_v2 (b_db b) ++ [row]
      /\ ev_event_name row <> "search_satisfied"%string
      /\ stored_score row = Some (PFloat score)
      /\ (1 < score)%Q in
  1 <= limit <= 2 ->
  logged_above_one "search:basic"
    (basic py_str payload_digest search_basic req q limit rf no_faults now b)
  /\ logged_above_one "search:fuzzy"
       (fuzzy py_str payload_digest search_fuzzy req q limit rf no_faults now
          b).
Proof.
  intros payload logged_above_one Hlimit. subst logged_above_one. cbv beta.
  destruct (basic_is_keyword_handler search_basic search_fuzzy) as [-> ->].
  assert (Hgen : forall prefix search,
    (forall q limit, (length (search q limit) <= Z.to_nat limit)%nat) ->
    cache_get payload_digest prefix payload rf now (b_redis b) = PNone ->
    exists found row score,
      (keyword_handler py_str payload_digest prefix search req q limit rf
         no_faults now b).2 = Ok (PList (map PProvider found))
      /\ (length found <= 2)%nat
      /\ analytics_events_v2
           (b_db (keyword_handler py_str payload_digest prefix search req q
                    limit rf no_faults now b).1)
         = analytics_events_v2 (b_db b) ++ [row]
      /\ ev_event_name row <> "search_satisfied"%string
      /\ stored_score row = Some (PFloat score)
      /\ (1 < score)%Q).
  { intros prefix search Hcut Hmiss.
    destruct (keyword_handler_miss prefix search req q limit rf now b Hmiss)
      as (Hr & _ & row & Hrows & Hname & Hscore).
    pose proof (Hcut q limit) as Hlen.
    set (count := Z.of_nat (length (search q limit))) in *.
    assert (Hcount : 0 <= count <= 2) by (subst count; lia).
    exists (search q limit), row, (AnalyticsApi.search_result_score count).
    split; [exact Hr|]. split; [lia|]. split; [exact Hrows|].
    split; [|split; [exact Hscore|]].
    - rewrite Hname. unfold AnalyticsApi.search_result_kind, AnalyticsApi.LOW_RESULT_THRESHOLD.
      destruct (count =? 0); [discriminate|].
      destruct (Z.leb_spec count 2); [discriminate | lia].
    - destruct (search_result_score_cases count)
        as [[_ ->] | [(_ & _ & ->) | [H _]]]; [reflexivity | reflexivity | lia]. }
  split; apply Hgen; intros q0 l0.
  - unfold basic_search. rewrite length_take. lia.
  - unfold fuzzy_search. rewrite length_take. lia.
Qed.

End KeywordFurther.

Section KeywordFurtherWitness.

Import SearchApi SearchApiKeyword.

(** X24 at a search for [bright] with [limit=2], on a table in which
    three providers match. *)
Lemma small_limit_logged_as_unmet_demand_witness :
  exists found row score,
    (basic plain_str sample_digest three_providers nearby_request "bright" 2
       redis_healthy no_faults 0 idle_backend).2
    = Ok (PList (map PProvider found))
    /\ (length found <= 2)%nat
    /\ analytics_events_v2
         (b_db (basic plain_str sample_digest three_providers nearby_request
                  "bright" 2 redis_healthy no_faults 0 idle_backend).1)
       = analytics_events_v2 (b_db idle_backend) ++ [row]
    /\ ev_event_name row <> "search_satisfied"%string
    /\ stored_score row = Some (PFloat score)
    /\ (1 < score)%Q.
Proof.
  refine (proj1 (small_limit_logged_as_unmet_demand plain_str sample_digest
                   three_providers three_providers nearby_request "bright" 2
                   redis_healthy 0 idle_backend _) _).
  - lia.
  - vm_compute. reflexivity.
Defined.

End KeywordFurtherWitness.

(* ================================================================== *)
(** * The ranking of providers                                         *)
(* ================================================================== *)

Section ReadsFurther.

Import AnalyticsReads.

Variable py_str : pyval -> string.
Variable table_columns : string -> gset string.
Variable top_rows : bool -> Z -> list pyval.

(** X25: as shipped, [GET /analytics/providers/top] answers from the
    cache or not at all.  The handler calls [get_db()] and uses what it
    gets as a connection; with [get_db] of db/connection.py that is the
    context manager, so whenever the cache has no answer the request
    fails with [AttributeError], whether the columns were detected before
    or not, and neither the cache nor the detected columns change.  A
    [limit] outside 1 to 200 is refused with 400 before the cache is
    read. *)
Theorem providers_top_only_from_cache
    (limit : Z) (rf : redis_faults) (f : faults) (now : Z)
    (st : backend * option (gset string)) :
  let out :=
    providers_top py_str Db.get_db table_columns top_rows limit rf f now st in
  let cached :=
    cache_get ("analytics:providers:top:" ++ py_str (PInt limit)) rf now
      (b_redis st.1) in
  out.1 = st
  /\ out.2 = (if ((limit <? 1) || (limit >? 200))%bool
              then Raise (HTTPException 400)
              else if truthy cached then Ok cached
                   else Raise AttributeError).
Proof.
  destruct st as [b cols]. cbv zeta. unfold providers_top.
  destruct ((limit <? 1) || (limit >? 200))%bool; [by split|].
  cbn [fst]. destruct (truthy _); [by split|].
  destruct cols as [known|]; by split.
Qed.

(** X26: on a connection, the ranking is computed once per 30 seconds.
    A request that finds no answer in the cache runs the query, answers
    with the limit and the rows, and caches that answer; a request for
    the same limit within 30 seconds runs no query and changes nothing,
    and answers with what the cache holds, which is the first answer
    whenever JSON has a form for every value of the rows.  The cached
    answer is served even when it has no rows. *)
Theorem providers_top_cache_window
    (limit now later : Z) (st : backend * option (gset string)) :
  let key := ("analytics:providers:top:" ++ py_str (PInt limit))%string in
  let first :=
    providers_top py_str Connection table_columns top_rows limit redis_healthy
      no_faults now st in
  let second :=
    providers_top py_str Connection table_columns top_rows limit redis_healthy
      no_faults later first.1 in
  1 <= limit <= 200 ->
  truthy (cache_get key redis_healthy now (b_redis st.1)) = false ->
  now <= later < now + 30 ->
  exists totals,
    let payload :=
      PDict [ ("limit", PInt limit); ("items", PList (top_rows totals limit)) ]
    in
    first.2 = Ok payload
    /\ b_queries first.1.1 = S (b_queries st.1)
    /\ second.2 = Ok (json_loads (json_dumps_default_str py_str payload))
    /\ second.1 = first.1
    /\ (forallb json_serialisable (top_rows totals limit) = true ->
        second.2 = first.2).
Proof.
  destruct st as [b cols]. intros key first second Hlimit Hmiss Hlater.
  assert (Hrange : ((limit <? 1) || (limit >? 200))%bool = false).
  { apply orb_false_iff. split; [apply Z.ltb_ge; lia|].
    rewrite Z.gtb_ltb. apply Z.ltb_ge. lia. }
  cbn [fst] in Hmiss.
  assert (Hfirst : exists totals cols',
    first
    = (({| b_db := b_db b;
           b_redis :=
             cache_set py_str key
               (PDict [ ("limit", PInt limit);
                        ("items", PList (top_rows totals limit)) ])
               redis_healthy now (b_redis b);
           b_queries := S (b_queries b) |}, cols'),
       Ok (PDict [ ("limit", PInt limit);
                   ("items", PList (top_rows totals limit)) ]))).
  { subst first. unfold providers_top. rewrite Hrange. fold key.
    rewrite Hmiss.
    destruct cols as [known|]; cbn; do 2 eexists; reflexivity. }
  destruct Hfirst as (totals & cols' & Hfirst).
  exists totals. cbv zeta.
  set (payload :=
         PDict [ ("limit", PInt limit);
                 ("items", PList (top_rows totals limit)) ]) in *.
  assert (Hhit :
    cache_get key redis_healthy later (b_redis first.1.1)
    = json_loads (json_dumps_default_str py_str payload)).
  { rewrite Hfirst. cbn [fst b_redis]. unfold cache_get, Redis.get.
    cbn [get_fails redis_healthy]. unfold cache_set, setex.
    cbn [setex_fails redis_healthy fst kv]. rewrite lookup_insert_eq.
    replace (later <? now + CACHE_TTL) with true
      by (symmetry; apply Z.ltb_lt; unfold CACHE_TTL; lia).
    reflexivity. }
  assert (Hsecond :
    second = (first.1, Ok (json_loads (json_dumps_default_str py_str payload)))).
  { subst second. unfold providers_top at 1.
    destruct first.1 as [b1 cols1] eqn:Hst. cbn [fst] in Hhit.
    rewrite Hrange. fold key. rewrite Hhit. reflexivity. }
  split; [by rewrite Hfirst|]. split; [by rewrite Hfirst|].
  split; [by rewrite Hsecond|]. split; [by rewrite Hsecond|].
  intros Hrows. rewrite Hsecond, Hfirst. cbn [snd]. f_equal.
  apply json_round_trip_iff. subst payload.
  cbn [json_serialisable forallb snd andb]. by rewrite Hrows.
Qed.

End ReadsFurther.

Section ReadsFurtherWitness.

Import AnalyticsReads.

(** X26 at the default limit on an empty cache, asked again after 10
    seconds. *)
Lemma providers_top_cache_window_witness :
  let first :=
    providers_top ranking_str Connection worker_columns one_ranked 25
      redis_healthy no_faults 0 (idle_backend, None) in
  let second :=
    providers_top ranking_str Connection worker_columns one_ranked 25
      redis_healthy no_faults 10 first.1 in
  exists totals,
    let payload :=
      PDict [ ("limit", PInt 25); ("items", PList (one_ranked totals 25)) ] in
    first.2 = Ok payload
    /\ b_queries first.1.1 = S (b_queries idle_backend)
    /\ second.2 = Ok (json_loads (json_dumps_default_str ranking_str payload))
    /\ second.1 = first.1
    /\ (forallb json_serialisable (one_ranked totals 25) = true ->
        second.2 = first.2).
Proof.
  apply (providers_top_cache_window ranking_str worker_columns one_ranked 25 0
           10 (idle_backend, None)).
  - lia.
  - vm_compute. reflexivity.
  - lia.
Defined.

End ReadsFurtherWitness.

(* ================================================================== *)
(** * From the handlers to the worker                                   *)
(* ================================================================== *)

Section Pipeline.

Import AnalyticsWorker AnalyticsApi MainHandlers.

Variable py_str : pyval -> string.
Variable uuid5_hex : string -> string.
Variable find_provider : Z -> option pyval.
Variable py_int : string -> result Z.

(** What the worker reads for a string field and for an integer field of
    an entry that was delivered. *)
Lemma delivered_str fields ev key s :
  delivered_as py_int fields ev -> fields !! key = Some (PStr s) ->
  ev !! key = Some s.
Proof.
  intros Hall Hkey. specialize (Hall key _ Hkey). cbn in Hall.
  destruct (ev !! key) as [raw|]; [|discriminate].
  by apply String.eqb_eq in Hall as ->.
Qed.

Lemma delivered_int fields ev key z :
  delivered_as py_int fields ev -> fields !! key = Some (PInt z) ->
  exists raw,
    ev !! key = Some raw
    /\ provider_id_blank (Some raw) = false
    /\ py_int raw = Ok z.
Proof.
  intros Hall Hkey. specialize (Hall key _ Hkey).
  cbn [field_delivered] in Hall.
  destruct (ev !! key) as [raw|]; [|discriminate].
  apply andb_true_iff in Hall as [Hblank Hint].
  exists raw. split; [reflexivity|].
  split; [by apply negb_true_iff|].
  destruct (py_int raw) as [z'|]; [|discriminate].
  by apply Z.eqb_eq in Hint as ->.
Qed.

(** The counters after the worker has processed one entry with a kind
    and a provider, with a working connection and nothing raising. *)
Lemma healthy_entry_counters message_id (ev : gmap string string) raw provider
    kind now w :
  event_kind ev = Some kind ->
  ev !! "provider_id" = Some raw ->
  provider_id_blank (Some raw) = false ->
  py_int raw = Ok provider ->
  let w' := (process_entry Connection py_int message_id ev healthy now w).1 in
  let views_inc := if String.eqb kind "provider_view" then 1 else 0 in
  let conversions_inc :=
    (if (String.eqb kind "provider_phone_click"
         || String.eqb kind "phone_click")%bool then 1 else 0)
    + (if (String.eqb kind "provider_website_click"
           || String.eqb kind "website_click")%bool then 1 else 0) in
  views_of (provider_stats (db w')) provider
  = views_of (provider_stats (db w)) provider + views_inc
  /\ conversions_of (provider_stats (db w')) provider
     = conversions_of (provider_stats (db w)) provider + conversions_inc
  /\ (views_inc = 0 -> conversions_inc = 0 ->
      provider_stats (db w') = provider_stats (db w)).
Proof.
  intros Hkind Hraw Hblank Hint.
  unfold process_entry, persist_user_activity, update_provider_stats.
  rewrite Hkind, Hraw, Hblank. cbn [default int_of_optional].
  rewrite Hint. cbv zeta. cbn. unfold views_of, conversions_of.
  destruct (String.eqb kind "provider_view");
    destruct (String.eqb kind "provider_phone_click"
              || String.eqb kind "phone_click")%bool;
    destruct (String.eqb kind "provider_website_click"
              || String.eqb kind "website_click")%bool;
    cbn;
    rewrite ?lookup_insert_eq;
    (split; [|split]); try (intros; lia); try reflexivity;
    destruct (provider_stats (db w) !! provider); cbn; lia.
Qed.

Lemma member_click_types ct :
  member ct ALLOWED_CLICK_TYPES = true ->
  ct = "phone"%string \/ ct = "website"%string \/ ct = "email"%string.
Proof.
  unfold member, ALLOWED_CLICK_TYPES. cbn [existsb].
  destruct (String.eqb_spec ct "phone"); [auto|].
  destruct (String.eqb_spec ct "website"); [auto|].
  destruct (String.eqb_spec ct "email"); [auto | discriminate].
Qed.

(** X27: from a tracked click to the counters.  [track_click] appends
    one entry to the stream, whatever happens to the insert that follows;
    when the worker, on a working connection and with nothing raising,
    processes that entry as Redis delivers it, it stores the activity
    row and acknowledges, and it adds 1 to the [conversions] of the
    provider for a [phone] or a [website] click.  A click of the third
    allowed type, [email], is stored as activity but changes no
    counter. *)
Theorem tracked_click_reaches_stats
    (req : request) (click : ClickEvent) (f : faults) (now : Z) (b : backend)
    (message_id : string) (ev : gmap string string) (later : Z) (w : world) :
  member (click_type click) ALLOWED_CLICK_TYPES = true ->
  stream (b_redis (track_click py_str req click redis_healthy f now b).1)
  = stream (b_redis b)
      ++ [("analytics_stream"%string, click_entry req click now)]
  /\ (delivered_as py_int (click_entry req click now) ev ->
      let w' :=
        (process_entry Connection py_int message_id ev healthy later w).1 in
      let provider := ce_provider_id click in
      let counted := if counted_click (click_type click) then 1 else 0 in
      user_activity (db w') = user_activity (db w) ++ [row_of_entry ev later]
      /\ pending w' = pending w ∖ {[ message_id ]}
      /\ conversions_of (provider_stats (db w')) provider
         = conversions_of (provider_stats (db w)) provider + counted
      /\ views_of (provider_stats (db w')) provider
         = views_of (provider_stats (db w)) provider
      /\ (counted_click (click_type click) = false ->
          provider_stats (db w') = provider_stats (db w))).
Proof.
  intros Hallowed. split.
  { unfold track_click. rewrite Hallowed. cbn [negb].
    cbn [xadd redis_healthy xadd_fails].
    destruct (UserActivityService.log_event _ _ _ _ _ _ _ _ _ _ _ _ _ _)
      as [d [[]|e]]; reflexivity. }
  intros Hev. cbv zeta.
  pose proof (healthy_entry py_int message_id ev later w) as Hentry.
  cbv zeta in Hentry.
  remember (process_entry Connection py_int message_id ev healthy later w).1
    as w' eqn:Hw'.
  destruct Hentry as [Hua Hpend].
  split; [exact Hua|]. split; [exact Hpend|].
  destruct (delivered_int _ ev "provider_id" (ce_provider_id click) Hev)
    as (raw & Hraw & Hblank & Hint); [vm_compute; reflexivity|].
  assert (Hkind : forall kind,
    ("provider_" ++ click_type click ++ "_click")%string = kind ->
    kind <> ""%string -> event_kind ev = Some kind).
  { intros kind <- Hne. unfold event_kind.
    rewrite (delivered_str _ ev "event"
               ("provider_" ++ click_type click ++ "_click") Hev)
      by (vm_compute; reflexivity).
    apply String.eqb_neq in Hne. by rewrite Hne. }
  clear Hev.
  destruct (member_click_types _ Hallowed) as [Hct | [Hct | Hct]];
    rewrite Hct in *; cbn in Hkind;
    match type of Hkind with
    | forall kind, ?k = kind -> _ =>
        let k' := eval vm_compute in k in
        pose proof (healthy_entry_counters message_id ev raw
                      (ce_provider_id click) k' later w
                      (Hkind k' eq_refl ltac:(discriminate)) Hraw Hblank Hint)
          as H
    end;
    cbv zeta in H; rewrite <- Hw' in H; cbn in H;
    destruct H as (Hv & Hc & Hsame);
    cbn; repeat split; try lia; try discriminate.
  intros _. by apply Hsame.
Qed.

(** X28: from a viewed provider to the counters.  With nothing raising,
    [GET /providers/{id}] answers 404 for an id that has no row, logging
    nothing and appending nothing to the stream.  For an id that has a
    row it returns the row, logs one [provider_view] event with intent
    score 0.75, and appends one entry to the stream; when the worker, on
    a working connection and with nothing raising, processes that entry as
    Redis delivers it, the [views] of that provider go up by 1 and its
    [conversions] stay. *)
Theorem viewed_provider_reaches_stats
    (req : request) (fresh : string) (provider_id now : Z) (b : backend)
    (message_id : string) (ev : gmap string string) (later : Z) (w : world) :
  let out :=
    get_provider py_str uuid5_hex find_provider req fresh provider_id
      redis_healthy no_faults no_faults now b in
  let fields :=
    view_entry (get_or_create_session req fresh).1
      (Main.get_device_id uuid5_hex req) provider_id now in
  (find_provider provider_id = None ->
   out.2 = Raise (HTTPException 404)
   /\ b_db out.1 = b_db b /\ b_redis out.1 = b_redis b)
  /\ (forall row,
        find_provider provider_id = Some row -> truthy row = true ->
        out.2 = Ok row
        /\ stream (b_redis out.1)
           = stream (b_redis b) ++ [("analytics_stream"%string, fields)]
        /\ (exists logged score,
              analytics_events_v2 (b_db out.1)
              = analytics_events_v2 (b_db b) ++ [logged]
              /\ ev_event_name logged = "provider_view"%string
              /\ stored_score logged = Some (PFloat score)
              /\ (score == 0.75)%Q)
        /\ (delivered_as py_int fields ev ->
            let w' :=
              (process_entry Connection py_int message_id ev healthy later
                 w).1 in
            user_activity (db w')
            = user_activity (db w) ++ [row_of_entry ev later]
            /\ pending w' = pending w ∖ {[ message_id ]}
            /\ views_of (provider_stats (db w')) provider_id
               = views_of (provider_stats (db w)) provider_id + 1
            /\ conversions_of (provider_stats (db w')) provider_id
               = conversions_of (provider_stats (db w)) provider_id)).
Proof.
  cbv zeta. unfold get_provider, fetch_provider.
  cbn [enter_get_db cursor no_faults connect_fails cursor_fails execute_fails
         bind].
  split.
  { intros ->. cbn. auto. }
  intros row -> Hrow. change (default PNone (Some row)) with row.
  rewrite Hrow. cbn [negb].
  assert (Hscore :
    IntentModel.score_intent "provider_view"
      {[ "provider_id" := PInt provider_id ]} = Ok (750 # 1000)%Q)
    by (vm_compute; reflexivity).
  rewrite Hscore. cbn [b_db b_redis b_queries].
  match goal with
  | |- context [UserActivityService.log_event py_str req ?et ?md ?a1 ?a2 ?a3
                  ?a4 ?a5 ?a6 ?src (Some ?sc) no_faults ?d] =>
      destruct (log_event_stores_score py_str req et md a1 a2 a3 a4 a5 a6 src
                  sc d) as (logged & -> & Hname & Hstored)
  end.
  cbn [xadd redis_healthy xadd_fails fst snd b_db b_redis
         analytics_events_v2 stream].
  split; [reflexivity|]. split; [reflexivity|].
  split.
  { exists logged, (750 # 1000)%Q.
    split; [reflexivity|]. split; [exact Hname|]. split; [exact Hstored|].
    reflexivity. }
  intros Hev. cbv zeta.
  pose proof (healthy_entry py_int message_id ev later w) as Hentry.
  cbv zeta in Hentry.
  remember (process_entry Connection py_int message_id ev healthy later w).1
    as w' eqn:Hw'.
  destruct Hentry as [Hua Hpend].
  split; [exact Hua|]. split; [exact Hpend|].
  destruct (delivered_int _ ev "provider_id" provider_id Hev)
    as (raw & Hraw & Hblank & Hint); [vm_compute; reflexivity|].
  assert (Hkind : event_kind ev = Some "provider_view"%string).
  { unfold event_kind.
    by rewrite (delivered_str _ ev "event" "provider_view" Hev)
      by (vm_compute; reflexivity). }
  pose proof (healthy_entry_counters message_id ev raw provider_id
                "provider_view" later w Hkind Hraw Hblank Hint) as H.
  cbv zeta in H. rewrite <- Hw' in H. cbn in H. destruct H as (Hv & Hc & _).
  split; [exact Hv | lia].
Qed.

End Pipeline.

(** A check of [delivered_as] that runs. *)
Lemma delivered_as_check (py_int : string -> result Z)
    (fields : gmap string pyval) (ev : gmap string string) :
  forallb (fun kv => field_delivered py_int kv.2 (ev !! kv.1))
    (map_to_list fields)
  = true ->
  delivered_as py_int fields ev.
Proof.
  intros H. apply map_Forall_to_list. apply forallb_all in H.
  eapply Forall_impl; [exact H|]. by intros [key sent].
Qed.

(** X27 at a click on the e-mail address of provider 42: the activity is
    stored and no counter changes. *)
Lemma tracked_click_reaches_stats_witness :
  let w :=
    {| AnalyticsWorker.db := empty_store;
       AnalyticsWorker.pending := {[ "1-0"%string ]} |} in
  let w' :=
    (AnalyticsWorker.process_entry Connection sample_int "1-0" email_click_read
       AnalyticsWorker.healthy 5 w).1 in
  user_activity (AnalyticsWorker.db w') = [row_of_entry email_click_read 5]
  /\ provider_stats (AnalyticsWorker.db w') = ∅.
Proof.
  intros w w'.
  destruct (tracked_click_reaches_stats plain_str sample_int browser_request
              email_click no_faults 0 idle_backend "1-0" email_click_read 5 w eq_refl)
    as [_ Hworker].
  destruct Hworker as (Hua & _ & _ & _ & Hsame).
  { apply delivered_as_check. vm_compute. reflexivity. }
  split; [exact Hua | exact (Hsame eq_refl)].
Defined.

(** X28 at a first view of provider 42 by a browser without a
    session. *)
Lemma viewed_provider_reaches_stats_witness :
  let w :=
    {| AnalyticsWorker.db := empty_store;
       AnalyticsWorker.pending := {[ "1-0"%string ]} |} in
  let w' :=
    (AnalyticsWorker.process_entry Connection sample_int "1-0" view_of_42_read
       AnalyticsWorker.healthy 5 w).1 in
  views_of (provider_stats (AnalyticsWorker.db w')) 42
  = views_of (provider_stats (AnalyticsWorker.db w)) 42 + 1.
Proof.
  intros w w'.
  destruct (viewed_provider_reaches_stats plain_str sample_uuid5
              only_provider_42 sample_int browser_request "6c1e" 42 0
              idle_backend
              "1-0" view_of_42_read 5 w) as [_ Hfound].
  destruct (Hfound _ eq_refl eq_refl) as (_ & _ & _ & Hworker).
  destruct Hworker as (_ & _ & Hviews & _).
  { apply delivered_as_check. vm_compute. reflexivity. }
  exact Hviews.
Defined.
